(** * Claude-Code-Usage-Monitor: the CLI entry point and the table views

    A shallow embedding of [claude_monitor/cli/main.py] and
    [claude_monitor/ui/table_views.py].

    - Python values that travel through [Dict[str, Any]] payloads are the
      inductive [pyval]; a dict is a [gmap string pyval], a float is a
      binary64 primitive float.
    - A call that may raise returns a [result]; the exception classes are the
      ones the code can meet, all of them subclasses of [Exception].
    - Logging, printing, terminal handling and calls into collaborators of
      the package (the data analysis, the aggregator, the orchestrator) are
      recorded as a list of [event]s in program order. *)

From Stdlib Require Import ZArith List String Bool Lia Floats.
From stdpp Require Import base option list strings pretty gmap.

Open Scope string_scope.
Open Scope Z_scope.

Set Warnings "-register-all".

(** ** Exceptions and fallible computations *)

Inductive exn :=
| ValueError
| TypeError
| OverflowError
| AttributeError
| KeyError
| FileNotFoundError
| PermissionError
| ZeroDivisionError
| RuntimeError
| OSError.

#[global] Instance exn_eq_dec : EqDecision exn.
Proof. solve_decision. Defined.

Inductive result (A : Type) :=
| Ok (a : A)
| Raise (e : exn).
Arguments Ok {A} a.
Arguments Raise {A} e.

#[global] Instance result_ret : MRet result := fun A a => Ok a.
#[global] Instance result_bind : MBind result := fun A B k r =>
  match r with
  | Ok a => k a
  | Raise e => Raise e
  end.

(** [except (ValueError, TypeError)] of the entry loop. *)
Definition is_value_or_type_error (e : exn) : bool :=
  match e with
  | ValueError | TypeError => true
  | _ => false
  end.

(** ** Python values *)

Inductive pyval :=
| PyNone
| PyBool (b : bool)
| PyInt (z : Z)
| PyFloat (f : float)
| PyStr (s : string)
| PyList (l : list pyval)
| PyDict (d : gmap string pyval).

(** Truth value testing ([if x], [if not x], [x and y]). *)
Definition truthy (v : pyval) : bool :=
  match v with
  | PyNone => false
  | PyBool b => b
  | PyInt z => negb (z =? 0)
  | PyFloat f => negb (PrimFloat.eqb f 0%float)
  | PyStr s => negb (String.eqb s "")
  | PyList l => match l with [] => false | _ => true end
  | PyDict d => negb (bool_decide (d = ∅))
  end.

(** [d.get(key, default)]: only a dict has the method. *)
Definition py_get (d : pyval) (key : string) (dflt : pyval) : result pyval :=
  match d with
  | PyDict m => Ok (default dflt (m !! key))
  | _ => Raise AttributeError
  end.

(** Iteration ([for x in v], [enumerate(v)]).  A dict yields its keys and a
    str its characters.  A str is held as a sequence of one-byte characters,
    which is the sequence Python iterates for ASCII text. *)
Fixpoint chars (s : string) : list string :=
  match s with
  | EmptyString => []
  | String c s' => String c EmptyString :: chars s'
  end.

Definition py_iter (v : pyval) : result (list pyval) :=
  match v with
  | PyList l => Ok l
  | PyDict m => Ok (PyStr <$> (map_to_list m).*1)
  | PyStr s => Ok (PyStr <$> chars s)
  | _ => Raise TypeError
  end.

(** *** Numeric conversions *)

(** [int(f)] for a float: truncation toward zero; NaN and the infinities
    are refused. *)
Definition float_trunc (f : float) : result Z :=
  match Prim2SF f with
  | S754_zero _ => Ok 0
  | S754_infinity _ => Raise OverflowError
  | S754_nan => Raise ValueError
  | S754_finite s m e =>
      let mag := if 0 <=? e then Z.pos m * 2 ^ e else Z.pos m / 2 ^ (- e) in
      Ok (if s then - mag else mag)
  end.

(** [float(z)] for an int: the nearest binary64 (ties to even), refused when
    it is out of range. *)
Definition float_of_Z (z : Z) : result float :=
  let f := SF2Prim (binary_normalize prec emax z 0 false) in
  if is_infinity f then Raise OverflowError else Ok f.

(** [max(0.0, x)]: the first argument is kept unless the second is strictly
    greater (so a NaN gives [0.0]). *)
Definition float_max0 (x : float) : float :=
  if PrimFloat.ltb 0%float x then x else 0%float.

(** [enumerate(l, start)] and [enumerate(l)] *)
Fixpoint enumerate_from {A} (start : nat) (l : list A) : list (nat * A) :=
  match l with
  | [] => []
  | x :: l' => (start, x) :: enumerate_from (S start) l'
  end.

Definition enumerate {A} (l : list A) : list (nat * A) := enumerate_from 0 l.

(** ** Messages and effects *)

(** An f-string, piece by piece: literal text and formatted values
    ([FmtPer a v] is [{a / v:.0f}]). *)
Inductive piece :=
| Lit (s : string)
| FmtNat (n : nat)
| FmtInt (z : Z)
| FmtExn (e : exn)
| FmtVal (v : pyval)
| FmtPer (a : Z) (v : pyval).

Definition text := list piece.

Inductive level := DEBUG | INFO | WARNING | ERROR.

(** ** Data model *)

Module UsageEntry.
Record t {datetime : Type} := mk {
  timestamp : datetime;
  input_tokens : Z;
  output_tokens : Z;
  cache_creation_tokens : Z;
  cache_read_tokens : Z;
  cost_usd : float;
  model : string;
  message_id : string;
  request_id : string;
}.
Arguments t : clear implicits.
Arguments mk {datetime}.
End UsageEntry.

(** Modelled from the spec: the aggregate rows and the totals record that the
    aggregator ([claude_monitor.data.aggregator], whose source is not among
    the files verified here) hands to the table views.  Section 3 of the spec gives the fields
    (period key, summed token categories, summed cost, distinct model names,
    entry count); the field names are the keys the table views read.  A daily
    row carries its key under ["date"], a monthly row under ["month"]. *)
Inductive period_key :=
| DateKey (s : string)
| MonthKey (s : string).

Module Row.
Record t := mk {
  key : period_key;
  models_used : list string;
  input_tokens : Z;
  output_tokens : Z;
  cache_creation_tokens : Z;
  cache_read_tokens : Z;
  total_cost : float;
  entries_count : Z;
}.
End Row.

Module Totals.
Record t := mk {
  input_tokens : Z;
  output_tokens : Z;
  cache_creation_tokens : Z;
  cache_read_tokens : Z;
  total_tokens : Z;
  total_cost : float;
  entries_count : Z;
}.
End Totals.

(** [data["date"]] and [data["month"]] *)
Definition row_date (data : Row.t) : result string :=
  match Row.key data with
  | DateKey s => Ok s
  | MonthKey _ => Raise KeyError
  end.

Definition row_month (data : Row.t) : result string :=
  match Row.key data with
  | MonthKey s => Ok s
  | DateKey _ => Raise KeyError
  end.

(** *** Rich renderables, as far as the views fill them in *)

Record Column := mkColumn {
  header : string;
  col_style : string;
  justify : string;
  width : nat;
}.

(** A cell is a plain [str] or a [Text(s, style=...)]. *)
Inductive cell :=
| Plain (s : string)
| Styled (s : string) (style : string).

Record Table := mkTable {
  title : string;
  title_style : string;
  header_style : string;
  border_style : string;
  columns : list Column;
  rows : list (list cell);
}.

Record Panel := mkPanel {
  panel_title : string;
  panel_border_style : string;
  panel_lines : list text;
}.

Inductive renderable :=
| RTable (t : Table)
| RPanel (p : Panel)
| RBlank
| RMarkup (s : string).

(** What a run does to the outside, in program order. *)
Inductive event :=
| Log (l : level) (msg : text)
| PrintThemed (msg : text) (style : string)
| GetThemedConsole (force_theme : option string)
| SetupTerminal
| RestoreTerminal
| AnalyzeUsage (hours_back : Z) (quick_start use_cache : bool) (data_path : string)
| GetTokenLimit (plan : pyval)
| AggregateDaily
| AggregateMonthly
| CalculateTotals
| ConsoleClear
| ConsolePrint (r : renderable)
| KeepAlive
| CreateLiveDisplay
| CreateLoadingDisplay
| EnterAlternateScreen
| LiveEnter
| LiveUpdate
| LiveExit
| OrchestratorCreate (update_interval : pyval) (data_path : string)
| OrchestratorSetArgs
| RegisterUpdateCallback
| RegisterSessionCallback
| OrchestratorStart
| WaitForInitialData
| MainLoop
| OrchestratorStop
| HandleCleanupAndExit
| HandleErrorAndExit (e : exn).

(** ** Computations with effects

    A computation leaves a trace of events and either returns or raises; the
    events before a [raise] stay in the trace. *)
Record run (A : Type) := Run {
  trace : list event;
  outcome : result A;
}.
Arguments Run {A} trace outcome.
Arguments trace {A} r.
Arguments outcome {A} r.

#[global] Instance run_ret : MRet run := fun A a => Run [] (Ok a).
#[global] Instance run_bind : MBind run := fun A B k m =>
  match outcome m with
  | Ok a => Run (trace m ++ trace (k a)) (outcome (k a))
  | Raise e => Run (trace m) (Raise e)
  end.

Definition emit (e : event) : run unit := Run [e] (Ok tt).
Definition lift {A} (r : result A) : run A := Run [] r.

(** [logger.info(...)], [logger.warning(...)], [logger.error(...)] and
    [print_themed(msg, style=...)] *)
Definition log (l : level) (msg : text) : run unit := emit (Log l msg).
Definition print_themed (msg : text) (style : string) : run unit :=
  emit (PrintThemed msg style).

(** [try: m  except Exception as e: h e] *)
Definition try_except {A} (m : run A) (h : exn -> run A) : run A :=
  match outcome m with
  | Ok a => m
  | Raise e => Run (trace m ++ trace (h e)) (outcome (h e))
  end.

(** [try: m  finally: f] *)
Definition try_finally {A} (m : run A) (f : list event) : run A :=
  Run (trace m ++ f) (outcome m).

(** [v == s] for a str literal [s] *)
Definition py_eq_str (v : pyval) (s : string) : bool :=
  match v with
  | PyStr s' => String.eqb s' s
  | _ => false
  end.

(** [hasattr(args, name) and args.name] *)
Definition attr_set (args : gmap string pyval) (name : string) : bool :=
  match args !! name with
  | Some v => truthy v
  | None => false
  end.

(** [args.name] *)
Definition attr (args : gmap string pyval) (name : string) : result pyval :=
  match args !! name with
  | Some v => Ok v
  | None => Raise AttributeError
  end.

(** ** The totals of the aggregator *)

(** Modelled from the spec: [UsageAggregator.calculate_totals]
    (the source of [claude_monitor.data.aggregator] is not among the files
    verified here).
    Section 4.4: it consumes the aggregate rows and reproduces the exact sums
    of the per-period fields and the overall entry count; over no row at all
    that is a record of zeros whose entry count, zero, is the indicator of
    empty input. *)
Definition calculate_totals (aggregated_data : list Row.t) : Totals.t :=
  foldl (fun acc data =>
           Totals.mk
             (Totals.input_tokens acc + Row.input_tokens data)
             (Totals.output_tokens acc + Row.output_tokens data)
             (Totals.cache_creation_tokens acc + Row.cache_creation_tokens data)
             (Totals.cache_read_tokens acc + Row.cache_read_tokens data)
             (Totals.total_tokens acc
              + (Row.input_tokens data + Row.output_tokens data
                 + Row.cache_creation_tokens data + Row.cache_read_tokens data))
             (Totals.total_cost acc + Row.total_cost data)%float
             (Totals.entries_count acc + Row.entries_count data))
        (Totals.mk 0 0 0 0 0 0%float 0) aggregated_data.

(** ** Stand-ins for the collaborators

    Simple instances of what the embedding takes from outside, and small
    inputs, for the concrete runs at the end. *)

Definition no_int_literal (_ : string) : option Z := None.
Definition no_float_literal (_ : string) : option float := None.
Definition plain_repr (_ : pyval) : string := "?".

(** A timestamp parser that keeps the text of a str. *)
Definition keep_timestamp (v : pyval) : result string :=
  match v with
  | PyStr s => Ok s
  | _ => Raise TypeError
  end.

Definition sample_record : gmap string pyval :=
  list_to_map [("timestamp", PyStr "2024-01-01T10:00:00Z");
               ("inputTokens", PyInt (-5));
               ("outputTokens", PyInt 7);
               ("costUSD", PyFloat (-1.5)%float);
               ("model", PyStr "opus")].

Definition sample_blocks : list pyval :=
  [ PyDict (list_to_map
      [("entries",
        PyList [PyDict sample_record;
                PyDict (delete "timestamp" sample_record);
                PyDict (<["inputTokens" := PyStr "abc"]> sample_record);
                PyInt 3])]);
    PyDict (list_to_map
      [("isGap", PyBool true); ("entries", PyList [PyDict sample_record])]);
    PyNone ].

(** Stand-ins for the analysis and the estimator: no usage data, a fixed
    limit, a default of 19000 tokens; and a data read that fails. *)
Definition no_usage_data (_ : Z) (_ _ : bool) (_ : string)
  : result (option (gmap string pyval)) := Ok None.

Definition data_not_found (_ : Z) (_ _ : bool) (_ : string)
  : result (option (gmap string pyval)) := Raise FileNotFoundError.

Definition data_forbidden (_ : Z) (_ _ : bool) (_ : string)
  : result (option (gmap string pyval)) := Raise PermissionError.

Definition sample_usage (_ : Z) (_ _ : bool) (_ : string)
  : result (option (gmap string pyval)) :=
  Ok (Some {[ "blocks" := PyList sample_blocks ]}).

Definition fixed_limit (_ : pyval) (_ : option pyval) : result Z := Ok 44000.

Definition custom_args (limit : pyval) : gmap string pyval :=
  <["custom_limit_tokens" := limit]> {[ "plan" := PyStr "custom" ]}.

(** Stand-ins for the aggregator, the formatting helpers and the file
    system. *)
Definition no_rows (_ : list (UsageEntry.t string)) : result (list Row.t) :=
  Ok [].

Definition sum_rows (l : list Row.t) : result Totals.t :=
  Ok (calculate_totals l).

Definition decimal (z : Z) : string := pretty z.
Definition dollars (_ : float) : string := "$".
Definition same_path (p : string) : string := p.
Definition resolved (p : string) : result string := Ok p.
Definition everything_exists (_ : string) : result bool := Ok true.
Definition nothing_exists (_ : string) : result bool := Ok false.
Definition name_too_long (_ : string) : result bool := Raise OSError.

Definition sample_rows : list Row.t :=
  [ Row.mk (DateKey "2024-01-02") ["opus"; "sonnet"] 10 20 30 40 0%float 3;
    Row.mk (DateKey "2024-01-01") [] 1 2 3 4 0%float 1 ].

Definition sample_aggregate (_ : list (UsageEntry.t string))
  : result (list Row.t) := Ok sample_rows.

Definition realtime_args : gmap string pyval :=
  list_to_map [("plan", PyStr "pro"); ("timezone", PyStr "UTC");
               ("refresh_rate", PyInt 10)].

(** A machine with the first standard directory only. *)
Definition only_claude_projects (p : string) : result bool :=
  Ok (String.eqb p "~/.claude/projects").

(** ** The update callback and the environment check

    The callback that [_run_monitoring] registers with the orchestrator has
    effects of its own: debug lines, the call of
    [display_controller.create_data_display], the update of the live display,
    and the error report of its handler.  [D] is the type of what
    [create_data_display] returns. *)
Inductive callback_event (D : Type) :=
| LogDebug (msg : text)
| CreateDataDisplay (data : pyval) (token_limit : pyval)
| DisplayUpdate (renderable : D)
| LogError (msg : text)
| ReportError (e : exn) (component context_name : string).
Arguments LogDebug {D} msg.
Arguments CreateDataDisplay {D} data token_limit.
Arguments DisplayUpdate {D} renderable.
Arguments LogError {D} msg.
Arguments ReportError {D} e component context_name.

(** A computation over any type of events. *)
Record act (E A : Type) := Act {
  events : list E;
  returned : result A;
}.
Arguments Act {E A} events returned.
Arguments events {E A} a.
Arguments returned {E A} a.

#[global] Instance act_ret {E} : MRet (act E) := fun A a => Act [] (Ok a).
#[global] Instance act_bind {E} : MBind (act E) := fun A B k m =>
  match returned m with
  | Ok a => Act (events m ++ events (k a)) (returned (k a))
  | Raise e => Act (events m) (Raise e)
  end.

Definition tell {E} (e : E) : act E unit := Act [e] (Ok tt).
Definition pure_step {E A} (r : result A) : act E A := Act [] r.

(** [try: m  except Exception as e: h e], over any events *)
Definition act_try_except {E A} (m : act E A) (h : exn -> act E A) : act E A :=
  match returned m with
  | Ok a => m
  | Raise e => Act (events m ++ events (h e)) (returned (h e))
  end.

(** [len(v)] *)
Definition py_len (v : pyval) : result nat :=
  match v with
  | PyStr s => Ok (String.length s)
  | PyList l => Ok (length l)
  | PyDict m => Ok (size m)
  | _ => Raise TypeError
  end.

Definition is_dict (v : pyval) : bool :=
  match v with
  | PyDict _ => true
  | _ => false
  end.

(** [[b for b in blocks if b.get("isActive")]] *)
Fixpoint active_blocks (blocks : list pyval) : result (list pyval) :=
  match blocks with
  | [] => Ok []
  | b :: blocks' =>
      a ← py_get b "isActive" PyNone;
      rest ← active_blocks blocks';
      mret (if truthy a then b :: rest else rest)
  end.

Definition is_debug_line {D} (ev : callback_event D) : bool :=
  match ev with
  | LogDebug _ => true
  | _ => false
  end.

Definition is_display_update {D} (ev : callback_event D) : bool :=
  match ev with
  | DisplayUpdate _ => true
  | _ => false
  end.

(** What [__import__(module)] does: it returns, raises [ImportError], or
    raises another exception. *)
Inductive imported :=
| ImportOk
| ImportError
| ImportRaised (e : exn).

(** Stand-ins: a display controller that renders everything to the same
    thing, an installation with every module, and one without [pydantic]. *)
Definition blank_display (data : pyval) (args : gmap string pyval)
    (token_limit : pyval) : result unit := Ok tt.

Definition all_installed (module : string) : imported := ImportOk.

Definition without_pydantic (module : string) : imported :=
  if String.eqb module "pydantic" then ImportError else ImportOk.

(** An update whose only block is no dict, and one with an active block. *)
Definition malformed_update : gmap string pyval :=
  {[ "data" := PyDict {[ "blocks" := PyList [PyInt 7] ]} ]}.

Definition active_block : gmap string pyval :=
  list_to_map [("isActive", PyBool true); ("totalTokens", PyInt 1200)].

Definition sample_update : gmap string pyval :=
  {[ "data" := PyDict {[ "blocks" := PyList [PyDict active_block] ]} ]}.

(** Arguments with a refresh rate per second of zero, and with the daily
    view. *)
Definition zero_rate_args : gmap string pyval :=
  list_to_map [("plan", PyStr "pro"); ("timezone", PyStr "UTC");
               ("refresh_rate", PyInt 10); ("refresh_per_second", PyInt 0)].

Definition daily_args : gmap string pyval := {[ "view" := PyStr "daily" ]}.

Section Monitor.

(** *** What the embedding takes from outside

    The interpreter: the literal parsers behind [int(str)] and [float(str)],
    [str(x)] for a value that is not a str already, [str.lower] and
    [str.capitalize]. *)
Variable int_of_literal : string -> option Z.
Variable float_of_literal : string -> option float.
Variable repr : pyval -> string.
Variable str_lower : string -> string.
Variable str_capitalize : string -> string.

(** [claude_monitor.utils.time_utils.TimezoneHandler.parse_timestamp] *)
Variable datetime : Type.
Variable parse_timestamp : pyval -> result datetime.

(** [claude_monitor.utils.formatting] *)
Variable format_number : Z -> string.
Variable format_currency : float -> string.

(** [claude_monitor.data.analysis.analyze_usage] *)
Variable analyze_usage :
  Z -> bool -> bool -> string -> result (option (gmap string pyval)).

(** [claude_monitor.core.plans]: [get_token_limit(plan, blocks=None)],
    [Plans.DEFAULT_TOKEN_LIMIT] and [PlanType.PRO.value] *)
Variable get_token_limit : pyval -> option pyval -> result Z.
Variable DEFAULT_TOKEN_LIMIT : Z.
Variable PRO_value : string.

(** [claude_monitor.data.aggregator.UsageAggregator] *)
Variable aggregate_daily : list (UsageEntry.t datetime) -> result (list Row.t).
Variable aggregate_monthly : list (UsageEntry.t datetime) -> result (list Row.t).
Variable aggregator_calculate_totals : list Row.t -> result Totals.t.

(** The file system as [pathlib.Path] sees it: [expanduser().resolve()],
    [exists()] and [is_dir()], each of which can raise (an [OSError] for a
    name that is too long, a [PermissionError]); and
    [MonitoringOrchestrator.wait_for_initial_data]. *)
Variable resolve : string -> result string.
Variable path_exists : string -> result bool.
Variable path_is_dir : string -> result bool.
Variable wait_for_initial_data : bool.

(** *** Built-in conversions *)

Definition py_int (v : pyval) : result Z :=
  match v with
  | PyInt z => Ok z
  | PyBool b => Ok (if b then 1 else 0)
  | PyFloat f => float_trunc f
  | PyStr s => match int_of_literal s with
               | Some z => Ok z
               | None => Raise ValueError
               end
  | PyNone | PyList _ | PyDict _ => Raise TypeError
  end.

Definition py_float (v : pyval) : result float :=
  match v with
  | PyFloat f => Ok f
  | PyInt z => float_of_Z z
  | PyBool b => Ok (if b then 1%float else 0%float)
  | PyStr s => match float_of_literal s with
               | Some f => Ok f
               | None => Raise ValueError
               end
  | PyNone | PyList _ | PyDict _ => Raise TypeError
  end.

Definition py_str (v : pyval) : string :=
  match v with
  | PyStr s => s
  | _ => repr v
  end.

(** ** [_run_table_view]: extracting the entries of the blocks *)

(** [int(entry_data.get(key, 0))] and [float(entry_data.get("costUSD", 0.0))] *)
Definition raw_tokens (entry_data : pyval) (key : string) : result Z :=
  v ← py_get entry_data key (PyInt 0);
  py_int v.

Definition raw_cost (entry_data : pyval) : result float :=
  v ← py_get entry_data "costUSD" (PyFloat 0%float);
  py_float v.

(** [max(0, int(entry_data.get(key, 0)))] *)
Definition token_field (entry_data : pyval) (key : string) : result Z :=
  n ← raw_tokens entry_data key;
  mret (Z.max 0 n).

(** [max(0.0, float(entry_data.get("costUSD", 0.0)))] *)
Definition cost_field (entry_data : pyval) : result float :=
  c ← raw_cost entry_data;
  mret (float_max0 c).

(** [str(entry_data.get(key, ""))] *)
Definition str_field (entry_data : pyval) (key : string) : result string :=
  v ← py_get entry_data key (PyStr "");
  mret (py_str v).

(** The [UsageEntry(...)] call: the arguments are evaluated in order, the
    first one that raises ends it. *)
Definition make_entry (entry_data : pyval) (ts : datetime)
  : result (UsageEntry.t datetime) :=
  input ← token_field entry_data "inputTokens";
  output ← token_field entry_data "outputTokens";
  cache_creation ← token_field entry_data "cacheCreationTokens";
  cache_read ← token_field entry_data "cacheReadTokens";
  cost ← cost_field entry_data;
  model ← str_field entry_data "model";
  message_id ← str_field entry_data "messageId";
  request_id ← str_field entry_data "requestId";
  mret (UsageEntry.mk ts input output cache_creation cache_read cost
          model message_id request_id).

(** The body of the inner [try]: [None] is the [continue] on a missing
    timestamp. *)
Definition read_entry (entry_data : pyval)
  : result (option (UsageEntry.t datetime)) :=
  timestamp_str ← py_get entry_data "timestamp" (PyStr "");
  if negb (truthy timestamp_str) then mret None
  else
    ts ← parse_timestamp timestamp_str;
    entry ← make_entry entry_data ts;
    mret (Some entry).

Inductive entry_outcome :=
| Accepted (entry : UsageEntry.t datetime)
| Skipped (l : level) (msg : text).

(** One turn of the inner loop, with its [except] clauses. *)
Definition process_entry (block_idx entry_idx : nat) (entry_data : pyval)
  : entry_outcome :=
  match read_entry entry_data with
  | Ok (Some entry) => Accepted entry
  | Ok None =>
      Skipped WARNING [Lit "Missing timestamp in block "; FmtNat block_idx;
                       Lit ", entry "; FmtNat entry_idx]
  | Raise e =>
      if is_value_or_type_error e then
        Skipped WARNING [Lit "Invalid entry data in block "; FmtNat block_idx;
                         Lit ", entry "; FmtNat entry_idx; Lit ": "; FmtExn e]
      else
        Skipped ERROR [Lit "Unexpected error processing entry: "; FmtExn e]
  end.

(** The loop state: the [entries] list and what was logged so far. *)
Record extraction := mkExtraction {
  entries : list (UsageEntry.t datetime);
  logged : list event;
}.

Definition step_entry (block_idx : nat) (st : extraction) (ie : nat * pyval)
  : extraction :=
  match process_entry block_idx ie.1 ie.2 with
  | Accepted entry => mkExtraction (entries st ++ [entry]) (logged st)
  | Skipped l msg => mkExtraction (entries st) (logged st ++ [Log l msg])
  end.

(** What the outer [try] of a block comes to before the inner loop starts:
    [None] is the [continue] on a gap block. *)
Definition block_entries (block : pyval) : result (option (list pyval)) :=
  is_gap ← py_get block "isGap" (PyBool false);
  if truthy is_gap then mret None
  else
    es ← py_get block "entries" (PyList []);
    l ← py_iter es;
    mret (Some l).

Definition process_block (st : extraction) (ib : nat * pyval) : extraction :=
  match block_entries ib.2 with
  | Ok None => st
  | Ok (Some l) => foldl (step_entry ib.1) st (enumerate l)
  | Raise e =>
      mkExtraction (entries st)
        (logged st ++ [Log ERROR [Lit "Error processing block "; FmtNat ib.1;
                                  Lit ": "; FmtExn e]])
  end.

(** [for block_idx, block in enumerate(blocks): ...] from [entries = []] *)
Definition extract_entries (blocks : list pyval) : extraction :=
  foldl process_block (mkExtraction [] []) (enumerate blocks).

(** ** [TableViewsController] *)

(** The styles set in [__init__]. *)
Definition key_style := "cyan".
Definition value_style := "white".
Definition accent_style := "yellow".
Definition success_style := "green".
Definition warning_style := "yellow".

(** ["\n".join(ls)] *)
Definition concat_lines (ls : list string) : string :=
  String.concat (String (Ascii.ascii_of_nat 10) EmptyString) ls.

(** [_format_models] *)
Definition _format_models (models : list string) : string :=
  match models with
  | [] => "No models"
  | [m] => m
  | _ => concat_lines ((fun m => "• " ++ m) <$> models)
  end.

Definition token_columns : list Column :=
  [ mkColumn "Models" value_style "left" 20;
    mkColumn "Input" value_style "right" 12;
    mkColumn "Output" value_style "right" 12;
    mkColumn "Cache Create" value_style "right" 12;
    mkColumn "Cache Read" value_style "right" 12;
    mkColumn "Total Tokens" accent_style "right" 12;
    mkColumn "Cost (USD)" success_style "right" 10 ].

(** One [table.add_row(...)] of the data loop; [period] is [data["date"]] or
    [data["month"]]. *)
Definition data_row (period : Row.t -> result string) (data : Row.t)
  : result (list cell) :=
  let models_text := _format_models (Row.models_used data) in
  let total_tokens :=
    Row.input_tokens data + Row.output_tokens data
    + Row.cache_creation_tokens data + Row.cache_read_tokens data in
  p ← period data;
  mret [ Plain p;
         Plain models_text;
         Plain (format_number (Row.input_tokens data));
         Plain (format_number (Row.output_tokens data));
         Plain (format_number (Row.cache_creation_tokens data));
         Plain (format_number (Row.cache_read_tokens data));
         Plain (format_number total_tokens);
         Plain (format_currency (Row.total_cost data)) ].

Definition separator_row : list cell :=
  [Plain ""; Plain ""; Plain ""; Plain ""; Plain ""; Plain ""; Plain ""; Plain ""].

Definition totals_row (totals : Totals.t) : list cell :=
  [ Styled "Total" accent_style;
    Plain "";
    Styled (format_number (Totals.input_tokens totals)) accent_style;
    Styled (format_number (Totals.output_tokens totals)) accent_style;
    Styled (format_number (Totals.cache_creation_tokens totals)) accent_style;
    Styled (format_number (Totals.cache_read_tokens totals)) accent_style;
    Styled (format_number (Totals.total_tokens totals)) accent_style;
    Styled (format_currency (Totals.total_cost totals)) success_style ].

(** The rows of the data loop, in order; the first row that raises ends it. *)
Fixpoint data_rows (period : Row.t -> result string) (l : list Row.t)
  : result (list (list cell)) :=
  match l with
  | [] => mret []
  | data :: l' =>
      r ← data_row period data;
      rs ← data_rows period l';
      mret (r :: rs)
  end.

Definition create_daily_table (daily_data : list Row.t) (totals : Totals.t)
    (timezone : string) : result Table :=
  rs ← data_rows row_date daily_data;
  mret (mkTable ("Claude Code Token Usage Report - Daily (" ++ timezone ++ ")")
          "bold cyan" "bold" "bright_blue"
          (mkColumn "Date" key_style "left" 12 :: token_columns)
          (rs ++ [separator_row; totals_row totals])).

Definition create_monthly_table (monthly_data : list Row.t) (totals : Totals.t)
    (timezone : string) : result Table :=
  rs ← data_rows row_month monthly_data;
  mret (mkTable ("Claude Code Token Usage Report - Monthly (" ++ timezone ++ ")")
          "bold cyan" "bold" "bright_blue"
          (mkColumn "Month" key_style "left" 10 :: token_columns)
          (rs ++ [separator_row; totals_row totals])).

Definition create_summary_panel (view_type : string) (totals : Totals.t)
    (period : text) : Panel :=
  mkPanel "Summary" "bright_blue"
    [ ([Lit "📊 "; Lit (str_capitalize view_type); Lit " Usage Summary - "]
       ++ period)%list;
      [];
      [Lit "Total Tokens: "; Lit (format_number (Totals.total_tokens totals))];
      [Lit "Total Cost: "; Lit (format_currency (Totals.total_cost totals))];
      [Lit "Entries: "; Lit (format_number (Totals.entries_count totals))] ].

Definition create_aggregate_table (aggregate_data : list Row.t)
    (totals : Totals.t) (view_type : string) (timezone : string)
  : result Table :=
  if String.eqb view_type "daily" then
    create_daily_table aggregate_data totals timezone
  else if String.eqb view_type "monthly" then
    create_monthly_table aggregate_data totals timezone
  else Raise ValueError.

(** ** [_get_initial_token_limit] *)

(** The call of [analyze_usage], recorded. *)
Definition call_analyze_usage (hours_back : Z) (quick_start use_cache : bool)
    (data_path : string) : run (option (gmap string pyval)) :=
  emit (AnalyzeUsage hours_back quick_start use_cache data_path);;
  lift (analyze_usage hours_back quick_start use_cache data_path).

Definition call_get_token_limit (plan : pyval) (blocks : option pyval)
  : run Z :=
  emit (GetTokenLimit plan);;
  lift (get_token_limit plan blocks).

(** [if usage_data and "blocks" in usage_data] gives the blocks. *)
Definition blocks_of (usage_data : option (gmap string pyval)) : option pyval :=
  d ← usage_data;
  if truthy (PyDict d) then d !! "blocks" else None.

(** The body of the [try] of the custom plan: [None] when it falls through
    to the fallback. *)
Definition p90_limit (plan : pyval) (data_path : string) : run (option Z) :=
  usage_data ← call_analyze_usage (96 * 2) false false data_path;
  match blocks_of usage_data with
  | Some blocks =>
      token_limit ← call_get_token_limit plan (Some blocks);
      print_themed [Lit "P90 session limit calculated: ";
                    FmtInt token_limit; Lit " tokens"] "info";;
      mret (Some token_limit)
  | None => mret None
  end.

Definition default_fallback : run Z :=
  print_themed [Lit "Using default limit as fallback"] "warning";;
  mret DEFAULT_TOKEN_LIMIT.

Definition _get_initial_token_limit (args : gmap string pyval)
    (data_path : string) : run Z :=
  let plan := default (PyStr PRO_value) (args !! "plan") in
  if py_eq_str plan "custom" then
    if attr_set args "custom_limit_tokens" then
      v ← lift (attr args "custom_limit_tokens");
      custom_limit ← lift (py_int v);
      print_themed [Lit "Using custom token limit: ";
                    FmtInt custom_limit; Lit " tokens"] "info";;
      mret custom_limit
    else
      print_themed [Lit "Analyzing usage data to determine cost limits..."]
        "info";;
      r ← try_except (p90_limit plan data_path)
            (fun e =>
               log WARNING [Lit "Failed to analyze usage data: "; FmtExn e];;
               mret None);
      match r with
      | Some token_limit => mret token_limit
      | None => default_fallback
      end
  else call_get_token_limit plan None.

(** ** [_run_table_view] *)

(** The inner [try] around [analyze_usage]: [None] when a handler returned. *)
Definition read_usage (data_path : string)
  : run (option (option (gmap string pyval))) :=
  try_except
    (usage_data ← call_analyze_usage (96 * 30) false true data_path;
     mret (Some usage_data))
    (fun e =>
       match e with
       | FileNotFoundError =>
           log ERROR [Lit "Data file not found: "; FmtExn e];;
           print_themed
             [Lit "No Claude usage data files found. Please use Claude Code to generate some data."]
             "warning"
       | PermissionError =>
           log ERROR [Lit "Permission denied accessing data: "; FmtExn e];;
           print_themed
             [Lit "Permission denied accessing usage data. Check file permissions."]
             "error"
       | _ =>
           log ERROR [Lit "Failed to analyze usage data: "; FmtExn e];;
           print_themed [Lit "Failed to analyze usage data: "; FmtExn e] "error"
       end;;
       mret None).

(** [s[:-2]] *)
Definition drop_last2 (s : string) : string :=
  String.substring 0 (String.length s - 2) s.

(** [getattr(args, "timezone", "UTC")], and ["UTC"] again when that is
    falsy. *)
Definition display_timezone (args : gmap string pyval) : string :=
  let timezone := default (PyStr "UTC") (args !! "timezone") in
  if truthy timezone then py_str timezone else "UTC".

(** The last [try]: the table, the summary, the screen, and the wait for
    Ctrl+C that ends the view. *)
Definition render_view (view_mode : string) (aggregated_data : list Row.t)
    (totals : Totals.t) (timezone : string) : run unit :=
  table ← lift (if String.eqb view_mode "daily"
                then create_daily_table aggregated_data totals timezone
                else create_monthly_table aggregated_data totals timezone);
  let period :=
    [Lit "Last "; FmtNat (length aggregated_data); Lit " ";
     Lit (drop_last2 view_mode);
     Lit (if String.eqb view_mode "daily" then "y" else ""); Lit " entries"] in
  let summary := create_summary_panel view_mode totals period in
  emit ConsoleClear;;
  emit (ConsolePrint (RPanel summary));;
  emit (ConsolePrint RBlank);;
  emit (ConsolePrint (RTable table));;
  emit (ConsolePrint RBlank);;
  emit (ConsolePrint (RMarkup "[dim]Press Ctrl+C to exit[/dim]"));;
  emit KeepAlive;;
  log INFO [Lit "User interrupted table view"].

Definition call_aggregate (view_mode : string)
    (es : list (UsageEntry.t datetime)) : run (list Row.t) :=
  if String.eqb view_mode "daily"
  then emit AggregateDaily;; lift (aggregate_daily es)
  else emit AggregateMonthly;; lift (aggregate_monthly es).

Definition call_calculate_totals (aggregated_data : list Row.t)
  : run Totals.t :=
  emit CalculateTotals;;
  lift (aggregator_calculate_totals aggregated_data).

(** From [if not entries] to the end of the outer [try]. *)
Definition show_entries (args : gmap string pyval) (view_mode : string)
    (es : list (UsageEntry.t datetime)) : run unit :=
  match es with
  | [] =>
      log INFO [Lit "No valid entries extracted from blocks"];;
      print_themed [Lit "No valid usage entries found in the data"] "warning"
  | _ =>
      log INFO [Lit "Extracted "; FmtNat (length es); Lit " valid entries"];;
      a ← try_except
            (aggregated_data ← call_aggregate view_mode es;
             mret (Some aggregated_data))
            (fun e =>
               log ERROR [Lit "Failed to aggregate data: "; FmtExn e];;
               print_themed [Lit "Failed to aggregate "; Lit view_mode;
                             Lit " data: "; FmtExn e] "error";;
               mret None);
      match a with
      | None => mret tt
      | Some [] =>
          print_themed [Lit "No "; Lit view_mode;
                        Lit " data to display after aggregation"] "warning"
      | Some aggregated_data =>
          t ← try_except
                (totals ← call_calculate_totals aggregated_data;
                 mret (Some totals))
                (fun e =>
                   log ERROR [Lit "Failed to calculate totals: "; FmtExn e];;
                   print_themed [Lit "Failed to calculate totals: "; FmtExn e]
                     "error";;
                   mret None);
          match t with
          | None => mret tt
          | Some totals =>
              try_except
                (render_view view_mode aggregated_data totals
                   (display_timezone args))
                (fun e =>
                   log ERROR [Lit "Failed to render "; Lit view_mode;
                              Lit " view: "; FmtExn e];;
                   print_themed [Lit "Failed to render "; Lit view_mode;
                                 Lit " view: "; FmtExn e] "error")
          end
      end
  end.

(** The body of the outer [try]. *)
Definition table_view_body (args : gmap string pyval)
    (data_path view_mode : string) : run unit :=
  r ← read_usage data_path;
  match r with
  | None => mret tt
  | Some usage_data =>
      match usage_data with
      | Some d =>
          if truthy (PyDict d) then
            match d !! "blocks" with
            | None =>
                log WARNING [Lit "Usage data missing 'blocks' key"];;
                print_themed
                  [Lit "Usage data format is invalid (missing blocks)"] "error"
            | Some blocks =>
                if truthy blocks then
                  bl ← lift (py_iter blocks);
                  let ex := extract_entries bl in
                  Run (logged ex) (Ok tt);;
                  show_entries args view_mode (entries ex)
                else
                  log INFO [Lit "No blocks found in usage data"];;
                  print_themed [Lit "No usage blocks found in the data"]
                    "warning"
            end
          else
            log INFO [Lit "No usage data returned from analysis"];;
            print_themed [Lit "No usage data found for "; Lit view_mode;
                          Lit " view"] "warning"
      | None =>
          log INFO [Lit "No usage data returned from analysis"];;
          print_themed [Lit "No usage data found for "; Lit view_mode;
                        Lit " view"] "warning"
      end
  end.

Definition _run_table_view (args : gmap string pyval)
    (data_path view_mode : string) : run unit :=
  log INFO [Lit "Running "; Lit view_mode; Lit " view mode"];;
  if negb (String.eqb view_mode "daily" || String.eqb view_mode "monthly") then
    log ERROR [Lit "Invalid view mode: "; Lit view_mode];;
    print_themed [Lit "Invalid view mode: "; Lit view_mode;
                  Lit ". Must be 'daily' or 'monthly'"] "error"
  else
    found ← lift (path_exists data_path);
    if negb found then
      log ERROR [Lit "Data path does not exist: "; Lit data_path];;
      print_themed [Lit "Data path does not exist: "; Lit data_path] "error"
    else
      is_dir ← lift (path_is_dir data_path);
      if negb is_dir then
        log ERROR [Lit "Data path is not a directory: "; Lit data_path];;
        print_themed [Lit "Data path is not a directory: "; Lit data_path]
          "error"
      else
        try_except (table_view_body args data_path view_mode)
          (fun e =>
             log ERROR [Lit "Unexpected error in "; Lit view_mode;
                        Lit " view: "; FmtExn e];;
             print_themed [Lit "Unexpected error displaying "; Lit view_mode;
                           Lit " data: "; FmtExn e] "error").

(** ** [discover_claude_data_paths] and [_run_monitoring] *)

Definition get_standard_claude_paths : list string :=
  ["~/.claude/projects"; "~/.config/claude/projects"].

(** [path.exists() and path.is_dir()] *)
Definition is_directory (path : string) : result bool :=
  found ← path_exists path;
  if (found : bool) then path_is_dir path else mret false.

(** The loop over [paths_to_check]; the first call that raises ends it. *)
Fixpoint discover_paths (paths_to_check : list string) : result (list string) :=
  match paths_to_check with
  | [] => mret []
  | path_str :: rest =>
      path ← resolve path_str;
      keep ← is_directory path;
      discovered ← discover_paths rest;
      mret (if (keep : bool) then path :: discovered else discovered)
  end.

Definition discover_claude_data_paths (custom_paths : option (list string))
  : result (list string) :=
  let paths_to_check :=
    match custom_paths with
    | Some (p :: l) => p :: l
    | _ => get_standard_claude_paths
    end in
  discover_paths paths_to_check.

(** The console of the run: [args.theme.lower()] needs a str. *)
Definition themed_console (args : gmap string pyval) : run unit :=
  if attr_set args "theme" then
    match args !! "theme" with
    | Some (PyStr s) => emit (GetThemedConsole (Some (str_lower s)))
    | _ => lift (Raise AttributeError)
    end
  else emit (GetThemedConsole None).

(** [1000 / x] inside the f-string of the refresh rate. *)
Definition check_divisor (x : pyval) : result unit :=
  match x with
  | PyInt z => if z =? 0 then Raise ZeroDivisionError else Ok tt
  | PyBool b => if b then Ok tt else Raise ZeroDivisionError
  | PyFloat f => if PrimFloat.eqb f 0%float then Raise ZeroDivisionError else Ok tt
  | _ => Raise TypeError
  end.

(** From [_get_initial_token_limit] to the two rate messages: no live
    display exists yet. *)
Definition realtime_setup (args : gmap string pyval) (data_path : string)
  : run unit :=
  _get_initial_token_limit args data_path;;
  let refresh_per_second :=
    default (PyFloat 0.75%float) (args !! "refresh_per_second") in
  lift (check_divisor refresh_per_second);;
  log INFO [Lit "Display refresh rate: "; FmtVal refresh_per_second;
            Lit " Hz ("; FmtPer 1000 refresh_per_second; Lit "ms)"];;
  refresh_rate ← lift (attr args "refresh_rate");
  log INFO [Lit "Data refresh rate: "; FmtVal refresh_rate; Lit " seconds"].

(** The live display, the loading display ([args.plan], [args.timezone]) and
    the alternate screen. *)
Definition realtime_displays (args : gmap string pyval) : run unit :=
  emit CreateLiveDisplay;;
  lift (attr args "plan");;
  lift (attr args "timezone");;
  emit CreateLoadingDisplay;;
  emit EnterAlternateScreen.

(** The inner [try] up to the main loop, which only Ctrl+C ends. *)
Definition realtime_session (args : gmap string pyval) (data_path : string)
  : run unit :=
  emit LiveEnter;;
  emit LiveUpdate;;
  emit (OrchestratorCreate (default (PyInt 10) (args !! "refresh_rate"))
          data_path);;
  emit OrchestratorSetArgs;;
  emit RegisterUpdateCallback;;
  emit RegisterSessionCallback;;
  emit OrchestratorStart;;
  log INFO [Lit "Waiting for initial data..."];;
  emit WaitForInitialData;;
  (if wait_for_initial_data then mret tt
   else log WARNING [Lit "Timeout waiting for initial data"]);;
  emit MainLoop.

(** The realtime branch.  An exception raised once the live display exists
    is handled after leaving it ([if "live_display" in locals()]); an earlier
    one is left to the handler of [_run_monitoring].  The Ctrl+C that ends
    the main loop runs the inner [finally] and then
    [handle_cleanup_and_exit]. *)
Definition monitor_realtime (args : gmap string pyval) (data_path : string)
  : run unit :=
  realtime_setup args data_path;;
  try_except
    (realtime_displays args;;
     realtime_session args data_path;;
     emit OrchestratorStop;;
     emit LiveExit;;
     emit LiveExit;;
     emit HandleCleanupAndExit)
    (fun e => emit LiveExit;; emit (HandleErrorAndExit e)).

(** The body of the outer [try] of [_run_monitoring]. *)
Definition monitoring_body (args : gmap string pyval) : run unit :=
  let view_mode := default (PyStr "realtime") (args !! "view") in
  data_paths ← lift (discover_claude_data_paths None);
  match data_paths with
  | [] => print_themed [Lit "No Claude data directory found"] "error"
  | data_path :: _ =>
      log INFO [Lit "Using data path: "; Lit data_path];;
      match view_mode with
      | PyStr "daily" => _run_table_view args data_path "daily"
      | PyStr "monthly" => _run_table_view args data_path "monthly"
      | _ => monitor_realtime args data_path
      end
  end.

Definition _run_monitoring (args : gmap string pyval) : run unit :=
  themed_console args;;
  emit SetupTerminal;;
  try_finally
    (try_except (monitoring_body args)
       (fun e => emit (HandleErrorAndExit e)))
    [RestoreTerminal].

(** ** Reading the extraction

    What a record, and a block, add to [entries], whatever their place in the
    batch. *)
Definition accepted_of (entry_data : pyval) : list (UsageEntry.t datetime) :=
  match read_entry entry_data with
  | Ok (Some entry) => [entry]
  | _ => []
  end.

Definition block_accepted (block : pyval) : list (UsageEntry.t datetime) :=
  match block_entries block with
  | Ok (Some l) => flat_map accepted_of l
  | _ => []
  end.

(** A block the loop takes for a gap block: [block.get("isGap", False)] is
    truthy. *)
Definition is_gap (block : pyval) : bool :=
  match py_get block "isGap" (PyBool false) with
  | Ok g => truthy g
  | Raise _ => false
  end.

(** A record (a dict) with no timestamp: the key is absent or its value is
    falsy. *)
Definition timestamp_missing (record : gmap string pyval) : Prop :=
  truthy (default (PyStr "") (record !! "timestamp")) = false.

(** A record whose timestamp is read, and whose token and cost fields then
    fail to convert with a [ValueError] or a [TypeError]. *)
Definition conversion_fails (record : gmap string pyval) : Prop :=
  exists ts e,
    truthy (default (PyStr "") (record !! "timestamp")) = true /\
    parse_timestamp (default (PyStr "") (record !! "timestamp")) = Ok ts /\
    make_entry (PyDict record) ts = Raise e /\
    is_value_or_type_error e = true.

(** Modelled from the spec: the contract of the Token Limit Estimator
    ([get_token_limit] and [Plans.DEFAULT_TOKEN_LIMIT] of
    [claude_monitor.core.plans], whose source is not among the files verified
    here).
    Section 4.3: "Result is always a positive integer", the fixed default
    limit included. *)
Definition positive_limits : Prop :=
  0 < DEFAULT_TOKEN_LIMIT /\
  forall plan blocks n, get_token_limit plan blocks = Ok n -> 0 < n.

(** Aggregation, totals and rendering, as events. *)
Definition is_processing_event (ev : event) : bool :=
  match ev with
  | AggregateDaily | AggregateMonthly | CalculateTotals
  | ConsoleClear | ConsolePrint _ | KeepAlive => true
  | _ => false
  end.

(** The orchestrator and the live session around it, as events. *)
Definition is_monitoring_event (ev : event) : bool :=
  match ev with
  | OrchestratorCreate _ _ | OrchestratorSetArgs
  | RegisterUpdateCallback | RegisterSessionCallback
  | OrchestratorStart | WaitForInitialData | MainLoop | OrchestratorStop
  | LiveEnter | LiveUpdate => true
  | _ => false
  end.

(** Log lines and themed messages; and the call of [analyze_usage]. *)
Definition is_report_event (ev : event) : bool :=
  match ev with
  | Log _ _ | PrintThemed _ _ => true
  | _ => false
  end.

Definition is_analysis_event (ev : event) : bool :=
  match ev with
  | AnalyzeUsage _ _ _ _ => true
  | _ => false
  end.

(** What a table view does after its data read: it reports, aggregates,
    totals and draws. *)
Definition is_view_event (ev : event) : bool :=
  is_report_event ev || is_processing_event ev.

(** Drawing the view: the screen is cleared, printed on, and kept. *)
Definition is_render_event (ev : event) : bool :=
  match ev with
  | ConsoleClear | ConsolePrint _ | KeepAlive => true
  | _ => false
  end.

(** The entries a table view extracts from the usage data it reads under
    [data_path]. *)
Definition extracted (data_path : string) (es : list (UsageEntry.t datetime))
  : Prop :=
  exists d blocks bl,
    analyze_usage (96 * 30) false true data_path = Ok (Some d) /\
    d !! "blocks" = Some blocks /\
    py_iter blocks = Ok bl /\
    es = entries (extract_entries bl).

(** The table of a view mode, as [_run_table_view] builds it. *)
Definition view_table (view_mode : string) (aggregated_data : list Row.t)
    (totals : Totals.t) (timezone : string) : result Table :=
  if String.eqb view_mode "daily"
  then create_daily_table aggregated_data totals timezone
  else create_monthly_table aggregated_data totals timezone.

(** The call of the estimator, and the terminal. *)
Definition is_estimate_event (ev : event) : bool :=
  match ev with
  | GetTokenLimit _ => true
  | _ => false
  end.

Definition is_terminal_event (ev : event) : bool :=
  match ev with
  | SetupTerminal | RestoreTerminal => true
  | _ => false
  end.

(** [view_mode in ["daily", "monthly"]] *)
Definition is_table_view (view_mode : pyval) : bool :=
  py_eq_str view_mode "daily" || py_eq_str view_mode "monthly".

(** What the realtime branch needs before it enters the live display: a
    token limit, a refresh rate per second that 1000 can be divided by, and
    the attributes [refresh_rate], [plan] and [timezone]. *)
Definition session_ready (args : gmap string pyval) (data_path : string)
  : Prop :=
  (exists n, outcome (_get_initial_token_limit args data_path) = Ok n) /\
  check_divisor (default (PyFloat 0.75%float) (args !! "refresh_per_second"))
    = Ok tt /\
  is_Some (args !! "refresh_rate") /\
  is_Some (args !! "plan") /\
  is_Some (args !! "timezone").

(** What [_run_monitoring] needs to get there: its console, a data
    directory, and a view that is no table view. *)
Definition realtime_ready (args : gmap string pyval) (data_path : string)
  : Prop :=
  outcome (themed_console args) = Ok tt /\
  (exists rest, discover_claude_data_paths None = Ok (data_path :: rest)) /\
  is_table_view (default (PyStr "realtime") (args !! "view")) = false /\
  session_ready args data_path.

(** The events of a realtime session from the two rate messages on, until
    Ctrl+C has ended the main loop and both handlers have run. *)
Definition session_trace (args : gmap string pyval) (refresh_rate : pyval)
    (data_path : string) : list event :=
  let refresh_per_second :=
    default (PyFloat 0.75%float) (args !! "refresh_per_second") in
  ([Log INFO [Lit "Display refresh rate: "; FmtVal refresh_per_second;
              Lit " Hz ("; FmtPer 1000 refresh_per_second; Lit "ms)"];
    Log INFO [Lit "Data refresh rate: "; FmtVal refresh_rate; Lit " seconds"];
    CreateLiveDisplay; CreateLoadingDisplay; EnterAlternateScreen;
    LiveEnter; LiveUpdate; OrchestratorCreate refresh_rate data_path;
    OrchestratorSetArgs; RegisterUpdateCallback; RegisterSessionCallback;
    OrchestratorStart; Log INFO [Lit "Waiting for initial data..."];
    WaitForInitialData]
   ++ (if wait_for_initial_data then []
       else [Log WARNING [Lit "Timeout waiting for initial data"]])
   ++ [MainLoop; OrchestratorStop; LiveExit; LiveExit;
       HandleCleanupAndExit])%list.

Definition is_console_event (ev : event) : bool :=
  match ev with
  | GetThemedConsole _ => true
  | _ => false
  end.

(** A file-system check that returned [True]. *)
Definition returns_true (r : result bool) : bool :=
  match r with
  | Ok b => b
  | Raise _ => false
  end.

(** The live display of the realtime branch, and the exit by Ctrl+C. *)
Definition is_live_session_event (ev : event) : bool :=
  match ev with
  | CreateLiveDisplay | CreateLoadingDisplay | EnterAlternateScreen
  | LiveExit | HandleCleanupAndExit => true
  | _ => false
  end.

(** The period key of a row, as the first cell of its table row shows it. *)
Definition key_text (k : period_key) : string :=
  match k with
  | DateKey s | MonthKey s => s
  end.

(** [table.add_row(...)] of the data loop, for a row with its period key. *)
Definition data_cells (data : Row.t) : list cell :=
  [ Plain (key_text (Row.key data));
    Plain (_format_models (Row.models_used data));
    Plain (format_number (Row.input_tokens data));
    Plain (format_number (Row.output_tokens data));
    Plain (format_number (Row.cache_creation_tokens data));
    Plain (format_number (Row.cache_read_tokens data));
    Plain (format_number
             (Row.input_tokens data + Row.output_tokens data
              + Row.cache_creation_tokens data + Row.cache_read_tokens data));
    Plain (format_currency (Row.total_cost data)) ].

(** ** The update callback [on_data_update]

    The closure of [_run_monitoring] over [args], [token_limit], the display
    controller and the live display. *)
Variable data_display : Type.
Variable create_data_display :
  pyval -> gmap string pyval -> pyval -> result data_display.

(** The truth value of the live display object in [if live_display:]. *)
Variable live_display : bool.

(** The debug lines about the blocks, from [len(blocks)] on. *)
Definition log_blocks (blocks : pyval) : act (callback_event data_display) unit :=
  n ← pure_step (py_len blocks);
  tell (LogDebug [Lit "Display data has "; FmtNat n; Lit " blocks"]);;
  if truthy blocks then
    bl ← pure_step (py_iter blocks);
    active ← pure_step (active_blocks bl);
    tell (LogDebug [Lit "Active blocks: "; FmtNat (length active)]);;
    match active with
    | b :: _ =>
        total_tokens ← pure_step (py_get b "totalTokens" (PyInt 0));
        tell (LogDebug [Lit "Active block tokens: "; FmtVal total_tokens])
    | [] => mret tt
    end
  else mret tt.

(** The body of the [try]. *)
Definition update_display (args : gmap string pyval) (token_limit : Z)
    (monitoring_data : pyval) : act (callback_event data_display) unit :=
  data ← pure_step (py_get monitoring_data "data" (PyDict ∅));
  blocks ← pure_step (py_get data "blocks" (PyList []));
  log_blocks blocks;;
  limit ← pure_step (py_get monitoring_data "token_limit" (PyInt token_limit));
  tell (CreateDataDisplay data limit);;
  renderable ← pure_step (create_data_display data args limit);
  if live_display then tell (DisplayUpdate renderable) else mret tt.

Definition on_data_update (args : gmap string pyval) (token_limit : Z)
    (monitoring_data : pyval) : act (callback_event data_display) unit :=
  act_try_except (update_display args token_limit monitoring_data)
    (fun e =>
       tell (LogError [Lit "Display update error: "; FmtExn e]);;
       tell (ReportError e "cli_main" "display_update_error")).

(** ** [validate_cli_environment] *)

(** [(sys.version_info.major, sys.version_info.minor)], and [__import__]. *)
Variable version_info : Z * Z.
Variable import_module : string -> imported.

(** [sys.version_info < (major, minor)]: the five fields of
    [sys.version_info] are compared with the pair in order, and a longer
    tuple with an equal start is not less. *)
Definition version_before (major minor : Z) : bool :=
  (version_info.1 <? major)
  || ((version_info.1 =? major) && (version_info.2 <? minor)).

Definition required_modules : list string := ["rich"; "pydantic"; "watchdog"].

(** The import loop; an exception that is no [ImportError] ends it. *)
Fixpoint missing_modules (modules : list string) : result (list string) :=
  match modules with
  | [] => Ok []
  | module :: modules' =>
      match import_module module with
      | ImportOk => missing_modules modules'
      | ImportError =>
          rest ← missing_modules modules';
          mret (module :: rest)
      | ImportRaised e => Raise e
      end
  end.

Definition validate_cli_environment : option text :=
  if version_before 3 8 then
    Some [Lit "Python 3.8+ required, found "; FmtInt version_info.1; Lit ".";
          FmtInt version_info.2]
  else
    match missing_modules required_modules with
    | Ok [] => None
    | Ok missing =>
        Some [Lit "Missing required modules: "; Lit (String.concat ", " missing)]
    | Raise e => Some [Lit "Environment validation failed: "; FmtExn e]
    end.

(** The records of a block that the inner loop visits, and the blocks the
    outer [except] catches (no dict, or [entries] that cannot be iterated). *)
Definition block_records (block : pyval) : list pyval :=
  match block_entries block with
  | Ok (Some l) => l
  | _ => []
  end.

Definition block_fails (block : pyval) : bool :=
  match block_entries block with
  | Raise _ => true
  | Ok _ => false
  end.

(** * Properties *)

(** ** Fallible computations *)

Lemma bind_Ok {A B} (r : result A) (k : A -> result B) (b : B) :
  r ≫= k = Ok b <-> exists a, r = Ok a /\ k a = Ok b.
Proof.
  destruct r as [a|e]; simpl; split.
  - intros H. exists a. split; [reflexivity | exact H].
  - intros (a' & Ha & Hk). injection Ha as ->. exact Hk.
  - discriminate.
  - intros (a' & Ha & _). discriminate.
Qed.

Lemma bind_Raise {A B} (r : result A) (k : A -> result B) (e : exn) :
  r ≫= k = Raise e <->
  r = Raise e \/ exists a, r = Ok a /\ k a = Raise e.
Proof.
  destruct r as [a|e']; simpl; split.
  - intros H. right. exists a. split; [reflexivity | exact H].
  - intros [H | (a' & Ha & Hk)]; [discriminate |].
    injection Ha as ->. exact Hk.
  - intros [= ->]. left. reflexivity.
  - intros [[= ->] | (a' & Ha & _)]; [reflexivity | discriminate].
Qed.

Lemma py_get_dict (m : gmap string pyval) (key : string) (dflt : pyval) :
  py_get (PyDict m) key dflt = Ok (default dflt (m !! key)).
Proof. reflexivity. Qed.

(** ** Entry extraction *)

(** [make_entry] returns when all five numeric fields convert, and then with
    the clamped values. *)
Lemma make_entry_Ok (entry_data : pyval) (ts : datetime)
    (entry : UsageEntry.t datetime) :
  make_entry entry_data ts = Ok entry <->
  exists i o cc cr c m mid rid,
    raw_tokens entry_data "inputTokens" = Ok i /\
    raw_tokens entry_data "outputTokens" = Ok o /\
    raw_tokens entry_data "cacheCreationTokens" = Ok cc /\
    raw_tokens entry_data "cacheReadTokens" = Ok cr /\
    raw_cost entry_data = Ok c /\
    str_field entry_data "model" = Ok m /\
    str_field entry_data "messageId" = Ok mid /\
    str_field entry_data "requestId" = Ok rid /\
    entry = UsageEntry.mk ts (Z.max 0 i) (Z.max 0 o) (Z.max 0 cc) (Z.max 0 cr)
              (float_max0 c) m mid rid.
Proof.
  unfold make_entry, token_field, cost_field. split.
  - intros Hm.
    repeat match type of Hm with
           | _ ≫= _ = Ok _ =>
               let x := fresh "x" in let Hx := fresh "Hx" in
               apply bind_Ok in Hm as (x & Hx & Hm)
           end.
    repeat match goal with
           | H : _ ≫= _ = Ok _ |- _ =>
               let y := fresh "y" in let Hy := fresh "Hy" in
               apply bind_Ok in H as (y & Hy & H)
           end.
    repeat match goal with H : mret _ = Ok _ |- _ => injection H as <- end.
    do 8 eexists. repeat split; eassumption.
  - intros (i & o & cc & cr & c & m & mid & rid & Hi & Ho & Hcc & Hcr & Hc
            & Hm & Hmid & Hrid & ->).
    rewrite Hi, Ho, Hcc, Hcr, Hc, Hm, Hmid, Hrid. reflexivity.
Qed.

(** The one way through [process_entry] that appends an entry. *)
Lemma process_entry_Accepted (block_idx entry_idx : nat) (entry_data : pyval)
    (entry : UsageEntry.t datetime) :
  process_entry block_idx entry_idx entry_data = Accepted entry <->
  exists timestamp_str ts,
    py_get entry_data "timestamp" (PyStr "") = Ok timestamp_str /\
    truthy timestamp_str = true /\
    parse_timestamp timestamp_str = Ok ts /\
    make_entry entry_data ts = Ok entry.
Proof.
  unfold process_entry. split.
  - destruct (read_entry entry_data) as [[e'|]|e] eqn:Hr;
      [| discriminate | destruct (is_value_or_type_error e); discriminate].
    intros [= ->]. unfold read_entry in Hr.
    apply bind_Ok in Hr as (tsv & Hts & Hr).
    destruct (truthy tsv) eqn:Ht; simpl in Hr; [| discriminate].
    apply bind_Ok in Hr as (ts & Hp & Hr).
    apply bind_Ok in Hr as (e' & Hm & [= ->]).
    exists tsv, ts. repeat split; assumption.
  - intros (tsv & ts & Hts & Ht & Hp & Hm).
    unfold read_entry. rewrite Hts. simpl. rewrite Ht. simpl.
    rewrite Hp. simpl. rewrite Hm. reflexivity.
Qed.

(** C1.  A record is accepted exactly when its timestamp is present and
    parses and every numeric field converts; the entry built from it then
    holds [max(0, int(raw))] in each of the four token fields and
    [max(0.0, float(raw))] as its cost.  The sign of a raw value plays no
    part in the acceptance: a negative one is clamped, not rejected. *)
Theorem accepted_entry_fields_clamped
    (block_idx entry_idx : nat) (entry_data : pyval)
    (entry : UsageEntry.t datetime) :
  process_entry block_idx entry_idx entry_data = Accepted entry <->
  exists timestamp_str ts i o cc cr c,
    py_get entry_data "timestamp" (PyStr "") = Ok timestamp_str /\
    truthy timestamp_str = true /\
    parse_timestamp timestamp_str = Ok ts /\
    raw_tokens entry_data "inputTokens" = Ok i /\
    raw_tokens entry_data "outputTokens" = Ok o /\
    raw_tokens entry_data "cacheCreationTokens" = Ok cc /\
    raw_tokens entry_data "cacheReadTokens" = Ok cr /\
    raw_cost entry_data = Ok c /\
    UsageEntry.timestamp entry = ts /\
    UsageEntry.input_tokens entry = Z.max 0 i /\
    UsageEntry.output_tokens entry = Z.max 0 o /\
    UsageEntry.cache_creation_tokens entry = Z.max 0 cc /\
    UsageEntry.cache_read_tokens entry = Z.max 0 cr /\
    UsageEntry.cost_usd entry = float_max0 c /\
    str_field entry_data "model" = Ok (UsageEntry.model entry) /\
    str_field entry_data "messageId" = Ok (UsageEntry.message_id entry) /\
    str_field entry_data "requestId" = Ok (UsageEntry.request_id entry).
Proof.
  rewrite process_entry_Accepted. split.
  - intros (tsv & ts & Hts & Ht & Hp & Hm).
    apply make_entry_Ok in Hm
      as (i & o & cc & cr & c & m & mid & rid & Hi & Ho & Hcc & Hcr & Hc
          & Hmo & Hmid & Hrid & ->).
    exists tsv, ts, i, o, cc, cr, c. simpl. repeat split; assumption.
  - intros (tsv & ts & i & o & cc & cr & c & Hts & Ht & Hp & Hi & Ho & Hcc
            & Hcr & Hc & Ets & Ei & Eo & Ecc & Ecr & Ec & Hm & Hmi & Hri).
    exists tsv, ts. repeat split; try assumption.
    apply make_entry_Ok.
    exists i, o, cc, cr, c, (UsageEntry.model entry),
      (UsageEntry.message_id entry), (UsageEntry.request_id entry).
    repeat split; try assumption.
    destruct entry; simpl in *; subst. reflexivity.
Qed.

(** The entries of the inner loop do not depend on the indices. *)
Lemma entries_step_entries (block_idx : nat) (l : list pyval) :
  forall (k : nat) (st : extraction),
    entries (foldl (step_entry block_idx) st (enumerate_from k l)) =
    (entries st ++ flat_map accepted_of l)%list.
Proof.
  induction l as [|x l IH]; intros k st; simpl.
  - symmetry. apply app_nil_r.
  - rewrite IH. unfold step_entry, process_entry, accepted_of. simpl.
    destruct (read_entry x) as [[e|]|e]; simpl.
    + rewrite <- app_assoc. reflexivity.
    + reflexivity.
    + destruct (is_value_or_type_error e); reflexivity.
Qed.

Lemma entries_process_block (st : extraction) (ib : nat * pyval) :
  entries (process_block st ib) = (entries st ++ block_accepted ib.2)%list.
Proof.
  unfold process_block, block_accepted.
  destruct (block_entries ib.2) as [[l|]|e]; simpl.
  - apply entries_step_entries.
  - symmetry. apply app_nil_r.
  - symmetry. apply app_nil_r.
Qed.

Lemma entries_blocks (bs : list pyval) :
  forall (k : nat) (st : extraction),
    entries (foldl process_block st (enumerate_from k bs)) =
    (entries st ++ flat_map block_accepted bs)%list.
Proof.
  induction bs as [|b bs IH]; intros k st; simpl.
  - symmetry. apply app_nil_r.
  - rewrite IH, entries_process_block. simpl.
    rewrite <- app_assoc. reflexivity.
Qed.

(** The extracted entries are those of the blocks, block after block. *)
Lemma entries_extract_entries (blocks : list pyval) :
  entries (extract_entries blocks) = flat_map block_accepted blocks.
Proof. unfold extract_entries, enumerate. apply entries_blocks. Qed.

(** Nothing logged is lost along the loops. *)
Lemma logged_step_entries_mono (block_idx : nat) (ev : event) (l : list pyval) :
  forall (k : nat) (st : extraction),
    ev ∈ logged st ->
    ev ∈ logged (foldl (step_entry block_idx) st (enumerate_from k l)).
Proof.
  induction l as [|x l IH]; intros k st Hin; simpl; [exact Hin |].
  apply IH. unfold step_entry.
  destruct (process_entry block_idx _ _); simpl; [exact Hin |].
  apply elem_of_app. left. exact Hin.
Qed.

Lemma logged_process_block_mono (ev : event) (st : extraction)
    (ib : nat * pyval) :
  ev ∈ logged st -> ev ∈ logged (process_block st ib).
Proof.
  intros Hin. unfold process_block.
  destruct (block_entries ib.2) as [[l|]|e]; simpl.
  - apply logged_step_entries_mono. exact Hin.
  - exact Hin.
  - apply elem_of_app. left. exact Hin.
Qed.

Lemma logged_blocks_mono (ev : event) (bs : list pyval) :
  forall (k : nat) (st : extraction),
    ev ∈ logged st ->
    ev ∈ logged (foldl process_block st (enumerate_from k bs)).
Proof.
  induction bs as [|b bs IH]; intros k st Hin; simpl; [exact Hin |].
  apply IH, logged_process_block_mono. exact Hin.
Qed.

(** A skipped record leaves its message in the log, under its own indices. *)
Lemma logged_skipped_entry (block_idx : nat) (l1 l2 : list pyval) (x : pyval)
    (lv : level) (msg : text) :
  forall (k : nat) (st : extraction),
    process_entry block_idx (k + length l1) x = Skipped lv msg ->
    Log lv msg ∈ logged (foldl (step_entry block_idx) st
                           (enumerate_from k (l1 ++ x :: l2))).
Proof.
  induction l1 as [|y l1 IH]; intros k st Hs; simpl.
  - apply logged_step_entries_mono. unfold step_entry. simpl.
    rewrite Nat.add_0_r in Hs. rewrite Hs. simpl.
    apply elem_of_app. right. apply list_elem_of_singleton. reflexivity.
  - apply IH. simpl in Hs. rewrite <- Nat.add_succ_comm in Hs. exact Hs.
Qed.

Lemma logged_block_at (bs1 bs2 : list pyval) (b : pyval) (ev : event) :
  forall (k : nat) (st : extraction),
    (forall st', ev ∈ logged (process_block st' ((k + length bs1)%nat, b))) ->
    ev ∈ logged (foldl process_block st (enumerate_from k (bs1 ++ b :: bs2))).
Proof.
  induction bs1 as [|y bs1 IH]; intros k st Hb; simpl.
  - apply logged_blocks_mono. rewrite <- (Nat.add_0_r k). apply Hb.
  - apply IH. intros st'. simpl in Hb.
    rewrite Nat.add_succ_comm. apply Hb.
Qed.

Lemma read_entry_missing (record : gmap string pyval) :
  timestamp_missing record -> read_entry (PyDict record) = Ok None.
Proof.
  unfold timestamp_missing, read_entry. intros H.
  rewrite py_get_dict. simpl. rewrite H. reflexivity.
Qed.

Lemma read_entry_conversion_fails (record : gmap string pyval) :
  conversion_fails record ->
  exists e, read_entry (PyDict record) = Raise e /\
            is_value_or_type_error e = true.
Proof.
  intros (ts & e & Ht & Hp & Hm & He). exists e. split; [| exact He].
  unfold read_entry. rewrite py_get_dict. simpl.
  rewrite Ht. simpl. rewrite Hp. simpl. rewrite Hm. reflexivity.
Qed.

Lemma block_entries_list (blk : gmap string pyval) (l : list pyval) :
  truthy (default (PyBool false) (blk !! "isGap")) = false ->
  blk !! "entries" = Some (PyList l) ->
  block_entries (PyDict blk) = Ok (Some l).
Proof.
  intros Hg He. unfold block_entries. rewrite !py_get_dict. simpl.
  rewrite Hg, He. reflexivity.
Qed.

(** C2.  In any batch of blocks, a record with no timestamp, or one whose
    token or cost fields fail to convert with a [ValueError] or [TypeError],
    leaves a warning in the log under its block and entry index, and the
    entries extracted from the batch are those extracted from the batch
    without that record: every other record is still processed, and the
    extraction, a total function, returns. *)
Theorem malformed_record_skipped
    (bs1 bs2 : list pyval) (blk : gmap string pyval)
    (es1 es2 : list pyval) (record : gmap string pyval) :
  truthy (default (PyBool false) (blk !! "isGap")) = false ->
  blk !! "entries" = Some (PyList (es1 ++ PyDict record :: es2)) ->
  timestamp_missing record \/ conversion_fails record ->
  let blocks := (bs1 ++ PyDict blk :: bs2)%list in
  let without :=
    (bs1 ++ PyDict (<["entries" := PyList (es1 ++ es2)]> blk) :: bs2)%list in
  (Log WARNING [Lit "Missing timestamp in block "; FmtNat (length bs1);
                Lit ", entry "; FmtNat (length es1)]
     ∈ logged (extract_entries blocks) \/
   exists e, is_value_or_type_error e = true /\
     Log WARNING [Lit "Invalid entry data in block "; FmtNat (length bs1);
                  Lit ", entry "; FmtNat (length es1); Lit ": "; FmtExn e]
       ∈ logged (extract_entries blocks)) /\
  entries (extract_entries blocks) = entries (extract_entries without).
Proof.
  intros Hgap Hes Hbad blocks without. split.
  - assert (Hblk := block_entries_list blk _ Hgap Hes).
    assert (Hat : forall ev,
               (forall st, ev ∈ logged (foldl (step_entry (length bs1)) st
                  (enumerate_from 0 (es1 ++ PyDict record :: es2)))) ->
               ev ∈ logged (extract_entries blocks)).
    { intros ev Hev. unfold extract_entries, enumerate, blocks.
      apply logged_block_at. intros st'. unfold process_block. simpl.
      rewrite Hblk. apply Hev. }
    destruct Hbad as [Hmiss | Hconv].
    + left. apply Hat. intros st. apply logged_skipped_entry.
      unfold process_entry. rewrite (read_entry_missing _ Hmiss). reflexivity.
    + right. destruct (read_entry_conversion_fails _ Hconv) as (e & Hr & He).
      exists e. split; [exact He |].
      apply Hat. intros st. apply logged_skipped_entry.
      unfold process_entry. rewrite Hr, He. reflexivity.
  - rewrite !entries_extract_entries. unfold blocks, without.
    rewrite !flat_map_app. simpl. f_equal. f_equal.
    unfold block_accepted.
    rewrite (block_entries_list blk _ Hgap Hes).
    rewrite (block_entries_list _ (es1 ++ es2)).
    + rewrite !flat_map_app. simpl. f_equal.
      replace (accepted_of (PyDict record)) with (@nil (UsageEntry.t datetime));
        [reflexivity |].
      unfold accepted_of. destruct Hbad as [Hmiss | Hconv].
      * rewrite (read_entry_missing _ Hmiss). reflexivity.
      * destruct (read_entry_conversion_fails _ Hconv) as (e & -> & _).
        reflexivity.
    + rewrite lookup_insert_ne; [exact Hgap | discriminate].
    + apply lookup_insert_eq.
Qed.

Lemma gap_block_accepted (block : pyval) :
  is_gap block = true -> block_accepted block = [].
Proof.
  unfold is_gap, block_accepted, block_entries.
  destruct (py_get block "isGap" (PyBool false)) as [g|e]; simpl;
    [| discriminate].
  intros ->. reflexivity.
Qed.

Lemma flat_map_block_accepted_filter (blocks : list pyval) :
  flat_map block_accepted blocks =
  flat_map block_accepted (List.filter (fun b => negb (is_gap b)) blocks).
Proof.
  induction blocks as [|b bs IH]; simpl; [reflexivity |].
  destruct (is_gap b) eqn:Hg; simpl.
  - rewrite (gap_block_accepted _ Hg). exact IH.
  - rewrite IH. reflexivity.
Qed.

(** C9.  A block whose [isGap] flag is set adds no entry, whatever it lists
    under [entries]; the extracted entries, and with them the daily or
    monthly aggregation, are those of the blocks that are not gap blocks. *)
Theorem gap_blocks_skipped (blocks : list pyval) (view_mode : string) :
  let kept := List.filter (fun b => negb (is_gap b)) blocks in
  (forall b, b ∈ blocks -> is_gap b = true -> block_accepted b = []) /\
  entries (extract_entries blocks) = entries (extract_entries kept) /\
  call_aggregate view_mode (entries (extract_entries blocks)) =
  call_aggregate view_mode (entries (extract_entries kept)).
Proof.
  intros kept.
  assert (H : entries (extract_entries blocks) = entries (extract_entries kept)).
  { rewrite !entries_extract_entries. apply flat_map_block_accepted_filter. }
  split; [| split].
  - intros b _. apply gap_block_accepted.
  - exact H.
  - rewrite H. reflexivity.
Qed.

Lemma float_max0_nonneg (x : float) :
  PrimFloat.leb 0%float (float_max0 x) = true.
Proof.
  unfold float_max0. destruct (PrimFloat.ltb 0%float x) eqn:Hlt.
  - rewrite FloatAxioms.ltb_spec in Hlt. rewrite FloatAxioms.leb_spec.
    unfold SFltb in Hlt. unfold SFleb.
    destruct (SFcompare (Prim2SF 0%float) (Prim2SF x)) as [[]|];
      first [reflexivity | discriminate].
  - reflexivity.
Qed.

(** X1.  The invariant of [UsageEntry]: whatever the raw record held, the
    token counts and the cost of an accepted entry are not negative. *)
Theorem accepted_entry_nonneg
    (block_idx entry_idx : nat) (entry_data : pyval)
    (entry : UsageEntry.t datetime) :
  process_entry block_idx entry_idx entry_data = Accepted entry ->
  0 <= UsageEntry.input_tokens entry /\
  0 <= UsageEntry.output_tokens entry /\
  0 <= UsageEntry.cache_creation_tokens entry /\
  0 <= UsageEntry.cache_read_tokens entry /\
  PrimFloat.leb 0%float (UsageEntry.cost_usd entry) = true.
Proof.
  intros H. apply process_entry_Accepted in H as (tsv & ts & _ & _ & _ & Hm).
  apply make_entry_Ok in Hm
    as (i & o & cc & cr & c & m & mid & rid & _ & _ & _ & _ & _ & _ & _ & _
        & ->).
  simpl. repeat split; try apply Z.le_max_l. apply float_max0_nonneg.
Qed.

(** ** Table views *)

Lemma data_row_Ok (period : Row.t -> result string) (data : Row.t)
    (r : list cell) :
  data_row period data = Ok r ->
  r !! 6%nat =
    Some (Plain (format_number
                   (Row.input_tokens data + Row.output_tokens data
                    + Row.cache_creation_tokens data
                    + Row.cache_read_tokens data))).
Proof.
  unfold data_row. intros H. apply bind_Ok in H as (p & _ & [= <-]).
  reflexivity.
Qed.

Lemma data_rows_lookup (period : Row.t -> result string) (l : list Row.t) :
  forall (rs : list (list cell)) (i : nat) (data : Row.t),
    data_rows period l = Ok rs ->
    l !! i = Some data ->
    exists r, data_row period data = Ok r /\ rs !! i = Some r.
Proof.
  induction l as [|x l IH]; intros rs i data Hrs Hi; [discriminate |].
  simpl in Hrs.
  apply bind_Ok in Hrs as (r & Hr & Hrs).
  apply bind_Ok in Hrs as (rs' & Hrs' & [= <-]).
  destruct i as [|i]; simpl in Hi.
  - injection Hi as ->. exists r. split; [exact Hr | reflexivity].
  - apply (IH rs' i data Hrs' Hi).
Qed.

Lemma data_rows_length (period : Row.t -> result string) (l : list Row.t) :
  forall rs, data_rows period l = Ok rs -> length rs = length l.
Proof.
  induction l as [|x l IH]; intros rs Hrs; simpl in Hrs.
  - injection Hrs as <-. reflexivity.
  - apply bind_Ok in Hrs as (r & _ & Hrs).
    apply bind_Ok in Hrs as (rs' & Hrs' & [= <-]).
    simpl. f_equal. apply IH, Hrs'.
Qed.

(** The only exception of the data loop is the [KeyError] of a row that
    lacks the period key of the view. *)
Lemma data_rows_Raise (period : Row.t -> result string) (l : list Row.t)
    (e : exn) :
  (forall data e', period data = Raise e' -> e' = KeyError) ->
  data_rows period l = Raise e -> e = KeyError.
Proof.
  intros Hp. induction l as [|x l IH]; simpl; [discriminate |].
  intros H. apply bind_Raise in H as [H | (r & _ & H)].
  - unfold data_row in H. apply bind_Raise in H as [H | (p & _ & H)].
    + apply (Hp _ _ H).
    + discriminate.
  - apply bind_Raise in H as [H | (rs & _ & H)]; [apply IH, H | discriminate].
Qed.

Lemma create_daily_table_Raise (data : list Row.t) (totals : Totals.t)
    (timezone : string) (e : exn) :
  create_daily_table data totals timezone = Raise e -> e = KeyError.
Proof.
  unfold create_daily_table. intros H.
  apply bind_Raise in H as [H | (rs & _ & H)]; [| discriminate].
  apply (data_rows_Raise row_date data e); [| exact H].
  intros d e'. unfold row_date. destruct (Row.key d); congruence.
Qed.

Lemma create_monthly_table_Raise (data : list Row.t) (totals : Totals.t)
    (timezone : string) (e : exn) :
  create_monthly_table data totals timezone = Raise e -> e = KeyError.
Proof.
  unfold create_monthly_table. intros H.
  apply bind_Raise in H as [H | (rs & _ & H)]; [| discriminate].
  apply (data_rows_Raise row_month data e); [| exact H].
  intros d e'. unfold row_month. destruct (Row.key d); congruence.
Qed.

(** C5.  [create_aggregate_table] is [create_daily_table] for ['daily'] and
    [create_monthly_table] for ['monthly'], and it raises [ValueError]
    exactly when the view type is neither, before any table is built. *)
Theorem create_aggregate_table_view_type
    (aggregate_data : list Row.t) (totals : Totals.t)
    (view_type timezone : string) :
  create_aggregate_table aggregate_data totals "daily" timezone =
    create_daily_table aggregate_data totals timezone /\
  create_aggregate_table aggregate_data totals "monthly" timezone =
    create_monthly_table aggregate_data totals timezone /\
  (create_aggregate_table aggregate_data totals view_type timezone =
     Raise ValueError <->
   view_type <> "daily" /\ view_type <> "monthly").
Proof.
  split; [reflexivity | split; [reflexivity |]].
  unfold create_aggregate_table.
  destruct (String.eqb_spec view_type "daily") as [-> | Hd].
  - split.
    + intros H. apply create_daily_table_Raise in H. discriminate.
    + intros [H _]. contradiction.
  - destruct (String.eqb_spec view_type "monthly") as [-> | Hm].
    + split.
      * intros H. apply create_monthly_table_Raise in H. discriminate.
      * intros [_ H]. contradiction.
    + split; [intros _; split; assumption | reflexivity].
Qed.

(** C10.  In the daily and in the monthly table, the cell of a data row under
    the seventh column, "Total Tokens", is the formatted sum of the row's
    input, output, cache-creation and cache-read tokens. *)
Theorem total_tokens_cell_is_sum
    (aggregated_data : list Row.t) (totals : Totals.t) (timezone : string)
    (table : Table) (i : nat) (data : Row.t) :
  create_daily_table aggregated_data totals timezone = Ok table \/
  create_monthly_table aggregated_data totals timezone = Ok table ->
  aggregated_data !! i = Some data ->
  header <$> columns table !! 6%nat = Some "Total Tokens" /\
  exists row,
    rows table !! i = Some row /\
    row !! 6%nat =
      Some (Plain (format_number
                     (Row.input_tokens data + Row.output_tokens data
                      + Row.cache_creation_tokens data
                      + Row.cache_read_tokens data))).
Proof.
  intros Ht Hi.
  assert (Hrows : exists period rs cols,
             data_rows period aggregated_data = Ok rs /\
             rows table = (rs ++ [separator_row; totals_row totals])%list /\
             columns table = cols :: token_columns).
  { destruct Ht as [Ht | Ht];
      [unfold create_daily_table in Ht | unfold create_monthly_table in Ht];
      apply bind_Ok in Ht as (rs & Hrs & [= <-]); simpl; eauto 6. }
  destruct Hrows as (period & rs & cols & Hrs & -> & ->).
  split; [reflexivity |].
  destruct (data_rows_lookup period _ rs i data Hrs Hi) as (r & Hr & Hri).
  exists r. split.
  - rewrite lookup_app_l; [exact Hri |].
    apply lookup_lt_Some in Hri. exact Hri.
  - apply (data_row_Ok _ _ _ Hr).
Qed.

(** C8.  Over no row at all, [calculate_totals] returns the record whose
    numeric fields are all zero; its entry count, zero, tells that nothing
    was summed.  It is a total function: there is nothing to raise. *)
Theorem calculate_totals_empty :
  calculate_totals [] = Totals.mk 0 0 0 0 0 0%float 0 /\
  Totals.entries_count (calculate_totals []) = 0.
Proof. split; reflexivity. Qed.

(** ** The initial token limit *)

(** C3.  For the plan ['custom'], a token-limit override supplied in
    [custom_limit_tokens], a positive integer as every limit is, is returned
    unchanged after one message; the usage data is neither read nor
    analyzed. *)
Theorem custom_limit_override
    (args : gmap string pyval) (data_path : string) (n : Z) :
  args !! "plan" = Some (PyStr "custom") ->
  args !! "custom_limit_tokens" = Some (PyInt n) ->
  0 < n ->
  _get_initial_token_limit args data_path =
    Run [PrintThemed [Lit "Using custom token limit: "; FmtInt n;
                      Lit " tokens"] "info"]
        (Ok n).
Proof.
  intros Hplan Hv Hpos.
  assert (Ht : truthy (PyInt n) = true).
  { simpl. apply negb_true_iff, Z.eqb_neq. lia. }
  unfold _get_initial_token_limit, attr_set, attr.
  rewrite Hplan, Hv, Ht. reflexivity.
Qed.

(** C4.  For the plan ['custom'] with no usable override (the attribute is
    absent or falsy), [_get_initial_token_limit] returns: it never raises.
    When [analyze_usage] raises, or [get_token_limit] does on the blocks read,
    the exception is logged as a warning and [Plans.DEFAULT_TOKEN_LIMIT] is
    returned.  Under the estimator's contract the limit returned is
    positive. *)
Theorem custom_plan_limit_never_raises
    (args : gmap string pyval) (data_path : string) :
  args !! "plan" = Some (PyStr "custom") ->
  attr_set args "custom_limit_tokens" = false ->
  let r := _get_initial_token_limit args data_path in
  (exists n, outcome r = Ok n /\ (positive_limits -> 0 < n)) /\
  (forall e,
     analyze_usage (96 * 2) false false data_path = Raise e ->
     outcome r = Ok DEFAULT_TOKEN_LIMIT /\
     Log WARNING [Lit "Failed to analyze usage data: "; FmtExn e] ∈ trace r) /\
  (forall usage_data blocks e,
     analyze_usage (96 * 2) false false data_path = Ok usage_data ->
     blocks_of usage_data = Some blocks ->
     get_token_limit (PyStr "custom") (Some blocks) = Raise e ->
     outcome r = Ok DEFAULT_TOKEN_LIMIT /\
     Log WARNING [Lit "Failed to analyze usage data: "; FmtExn e] ∈ trace r).
Proof.
  intros Hplan Hset r. subst r.
  unfold _get_initial_token_limit. rewrite Hplan, Hset. simpl.
  unfold p90_limit, call_analyze_usage, call_get_token_limit, default_fallback.
  split; [| split].
  - destruct (analyze_usage (96 * 2) false false data_path) as [ud|e] eqn:Ha;
      cbn; rewrite ?Ha; cbn.
    + destruct (blocks_of ud) as [blocks|] eqn:Hb; cbn.
      * destruct (get_token_limit (PyStr "custom") (Some blocks)) as [n|e]
          eqn:Hg; cbn; rewrite ?Hg; cbn.
        -- exists n. split; [reflexivity |]. intros [_ Hpos]. apply (Hpos _ _ _ Hg).
        -- exists DEFAULT_TOKEN_LIMIT. split; [reflexivity |]. intros [H _]. exact H.
      * exists DEFAULT_TOKEN_LIMIT. split; [reflexivity |]. intros [H _]. exact H.
    + exists DEFAULT_TOKEN_LIMIT. split; [reflexivity |]. intros [H _]. exact H.
  - intros e Ha. cbn. rewrite Ha. cbn. split; [reflexivity |].
    repeat (apply elem_of_cons; first [left; reflexivity | right]).
  - intros ud blocks e Ha Hb Hg. cbn. rewrite Ha. cbn. rewrite Hb. cbn.
    rewrite Hg. cbn. split; [reflexivity |].
    repeat (apply elem_of_cons; first [left; reflexivity | right]).
Qed.

(** ** The table view and the monitor *)

(** C6.  When the data read of the table view is reached (the view mode is
    valid, the data path is an existing directory) and [analyze_usage] raises
    [FileNotFoundError] or [PermissionError], [_run_table_view] logs the
    error, prints the message of that kind of error and returns: the run
    aggregates nothing, computes no totals and renders nothing. *)
Theorem table_view_source_error
    (args : gmap string pyval) (data_path view_mode : string) :
  view_mode = "daily" \/ view_mode = "monthly" ->
  path_exists data_path = Ok true ->
  path_is_dir data_path = Ok true ->
  let r := _run_table_view args data_path view_mode in
  (analyze_usage (96 * 30) false true data_path = Raise FileNotFoundError ->
   r = Run [Log INFO [Lit "Running "; Lit view_mode; Lit " view mode"];
            AnalyzeUsage (96 * 30) false true data_path;
            Log ERROR [Lit "Data file not found: "; FmtExn FileNotFoundError];
            PrintThemed
              [Lit "No Claude usage data files found. Please use Claude Code to generate some data."]
              "warning"]
           (Ok tt)) /\
  (analyze_usage (96 * 30) false true data_path = Raise PermissionError ->
   r = Run [Log INFO [Lit "Running "; Lit view_mode; Lit " view mode"];
            AnalyzeUsage (96 * 30) false true data_path;
            Log ERROR [Lit "Permission denied accessing data: ";
                       FmtExn PermissionError];
            PrintThemed
              [Lit "Permission denied accessing usage data. Check file permissions."]
              "error"]
           (Ok tt)) /\
  (analyze_usage (96 * 30) false true data_path = Raise FileNotFoundError \/
   analyze_usage (96 * 30) false true data_path = Raise PermissionError ->
   outcome r = Ok tt /\
   forall ev, ev ∈ trace r -> is_processing_event ev = false).
Proof.
  intros Hmode Hex Hdir r.
  assert (Hvalid : negb (String.eqb view_mode "daily"
                         || String.eqb view_mode "monthly") = false).
  { destruct Hmode as [-> | ->]; reflexivity. }
  assert (Hfnf : analyze_usage (96 * 30) false true data_path
                 = Raise FileNotFoundError ->
                 r = Run [Log INFO [Lit "Running "; Lit view_mode;
                                    Lit " view mode"];
                          AnalyzeUsage (96 * 30) false true data_path;
                          Log ERROR [Lit "Data file not found: ";
                                     FmtExn FileNotFoundError];
                          PrintThemed
                            [Lit "No Claude usage data files found. Please use Claude Code to generate some data."]
                            "warning"]
                         (Ok tt)).
  { intros Ha. subst r. unfold _run_table_view.
    cbn. rewrite Hvalid, Hex. cbn. rewrite Hdir. cbn.
    unfold table_view_body, read_usage, call_analyze_usage. cbn.
    rewrite Ha. reflexivity. }
  assert (Hperm : analyze_usage (96 * 30) false true data_path
                  = Raise PermissionError ->
                  r = Run [Log INFO [Lit "Running "; Lit view_mode;
                                     Lit " view mode"];
                           AnalyzeUsage (96 * 30) false true data_path;
                           Log ERROR [Lit "Permission denied accessing data: ";
                                      FmtExn PermissionError];
                           PrintThemed
                             [Lit "Permission denied accessing usage data. Check file permissions."]
                             "error"]
                          (Ok tt)).
  { intros Ha. subst r. unfold _run_table_view.
    cbn. rewrite Hvalid, Hex. cbn. rewrite Hdir. cbn.
    unfold table_view_body, read_usage, call_analyze_usage. cbn.
    rewrite Ha. reflexivity. }
  split; [exact Hfnf | split; [exact Hperm |]].
  intros [Ha | Ha]; [rewrite (Hfnf Ha) | rewrite (Hperm Ha)];
    (split; [reflexivity |]); simpl; intros ev Hev;
    repeat (apply elem_of_cons in Hev as [-> | Hev]; [reflexivity |]);
    apply elem_of_nil in Hev; contradiction.
Qed.

Lemma themed_console_trace (args : gmap string pyval) (ev : event) :
  ev ∈ trace (themed_console args) -> is_monitoring_event ev = false.
Proof.
  unfold themed_console.
  destruct (attr_set args "theme"); [destruct (args !! "theme") as [[]|] |];
    simpl; intros Hev;
    repeat (apply elem_of_cons in Hev as [-> | Hev]; [reflexivity |]);
    apply elem_of_nil in Hev; contradiction.
Qed.

(** C7.  When [discover_claude_data_paths] finds no data directory,
    [_run_monitoring], once it has its console, sets the terminal up, prints
    "No Claude data directory found" as an error, once, restores the terminal
    and returns.  No orchestrator is constructed or started and the main loop
    is never entered. *)
Theorem no_data_directory_no_monitoring (args : gmap string pyval) :
  discover_claude_data_paths None = Ok [] ->
  _run_monitoring args =
    (themed_console args;;
     Run [SetupTerminal;
          PrintThemed [Lit "No Claude data directory found"] "error";
          RestoreTerminal]
         (Ok tt)) /\
  forall ev, ev ∈ trace (_run_monitoring args) -> is_monitoring_event ev = false.
Proof.
  intros Hnone.
  assert (Heq : _run_monitoring args =
                (themed_console args;;
                 Run [SetupTerminal;
                      PrintThemed [Lit "No Claude data directory found"] "error";
                      RestoreTerminal]
                     (Ok tt))).
  { unfold _run_monitoring, monitoring_body. rewrite Hnone. reflexivity. }
  split; [exact Heq |].
  rewrite Heq. intros ev. unfold mbind, run_bind.
  destruct (outcome (themed_console args)) as [[]|e]; simpl.
  - rewrite elem_of_app. intros [Hev | Hev].
    + apply (themed_console_trace _ _ Hev).
    + repeat (apply elem_of_cons in Hev as [-> | Hev]; [reflexivity |]).
      apply elem_of_nil in Hev. contradiction.
  - apply themed_console_trace.
Qed.

(** ** Further properties of the entry points *)

(** X4.  The entries of a batch are those of its first blocks followed by
    those of the rest: the loop keeps the order of the blocks. *)
Theorem extracted_entries_in_order (bs1 bs2 : list pyval) :
  entries (extract_entries (bs1 ++ bs2)) =
  (entries (extract_entries bs1) ++ entries (extract_entries bs2))%list.
Proof. rewrite !entries_extract_entries. apply flat_map_app. Qed.

(** X2.  A view mode that is neither ['daily'] nor ['monthly'] is reported
    and [_run_table_view] returns before it looks at the data path or reads
    any data. *)
Theorem invalid_view_mode_rejected
    (args : gmap string pyval) (data_path view_mode : string) :
  view_mode <> "daily" ->
  view_mode <> "monthly" ->
  _run_table_view args data_path view_mode =
    Run [Log INFO [Lit "Running "; Lit view_mode; Lit " view mode"];
         Log ERROR [Lit "Invalid view mode: "; Lit view_mode];
         PrintThemed [Lit "Invalid view mode: "; Lit view_mode;
                      Lit ". Must be 'daily' or 'monthly'"] "error"]
        (Ok tt).
Proof.
  intros Hd Hm. unfold _run_table_view.
  apply String.eqb_neq in Hd, Hm. rewrite Hd, Hm. reflexivity.
Qed.

(** X3.  Every path [discover_claude_data_paths] returns exists and is a
    directory. *)
Theorem discovered_paths_are_directories
    (custom_paths : option (list string)) (discovered : list string)
    (path : string) :
  discover_claude_data_paths custom_paths = Ok discovered ->
  In path discovered ->
  path_exists path = Ok true /\ path_is_dir path = Ok true.
Proof.
  unfold discover_claude_data_paths.
  generalize (match custom_paths with
              | Some (p :: l) => p :: l
              | _ => get_standard_claude_paths
              end).
  intros paths. revert discovered.
  induction paths as [|path_str paths IH]; simpl; intros discovered Hd Hin.
  - injection Hd as <-. destruct Hin.
  - destruct (resolve path_str) as [p|e]; [| discriminate]. simpl in Hd.
    unfold is_directory in Hd.
    destruct (path_exists p) as [[]|e] eqn:Hex; simpl in Hd;
      try discriminate.
    + destruct (path_is_dir p) as [[]|e] eqn:Hdir; simpl in Hd;
        try discriminate;
        (destruct (discover_paths paths) as [found|e]; [| discriminate]);
        simpl in Hd; injection Hd as <-.
      * destruct Hin as [<- | Hin]; [split; assumption |].
        apply (IH found eq_refl Hin).
      * apply (IH found eq_refl Hin).
    + destruct (discover_paths paths) as [found|e]; [| discriminate].
      simpl in Hd. injection Hd as <-. apply (IH found eq_refl Hin).
Qed.

(** X5.  For a plan other than ['custom'], the limit is what
    [get_token_limit] gives for the plan; no usage data is read. *)
Theorem standard_plan_limit
    (args : gmap string pyval) (data_path plan : string) :
  args !! "plan" = Some (PyStr plan) ->
  plan <> "custom" ->
  _get_initial_token_limit args data_path =
    Run [GetTokenLimit (PyStr plan)] (get_token_limit (PyStr plan) None).
Proof.
  intros Hplan Hne. unfold _get_initial_token_limit. rewrite Hplan. simpl.
  apply String.eqb_neq in Hne. rewrite Hne.
  unfold call_get_token_limit, lift. cbn.
  destruct (get_token_limit (PyStr plan) None); reflexivity.
Qed.

Lemma data_rows_cells (period : Row.t -> result string) (l : list Row.t) :
  (forall data p, period data = Ok p -> key_text (Row.key data) = p) ->
  forall rs, data_rows period l = Ok rs -> rs = data_cells <$> l.
Proof.
  intros Hkey. induction l as [|data l IH]; intros rs Hrs; simpl in Hrs.
  - injection Hrs as <-. reflexivity.
  - apply bind_Ok in Hrs as (r & Hr & Hrs).
    apply bind_Ok in Hrs as (rs' & Hrs' & [= <-]).
    rewrite fmap_cons, <- (IH rs' Hrs'). f_equal.
    unfold data_row in Hr. apply bind_Ok in Hr as (p & Hp & [= <-]).
    unfold data_cells. rewrite (Hkey _ _ Hp). reflexivity.
Qed.

(** X6.  A daily or monthly table built from n aggregate rows has n + 2
    rows: one row for each aggregate row, in input order, showing its period
    key, its models and its formatted sums; then the empty separator row;
    then the totals row. *)
Theorem tables_end_with_totals
    (aggregated_data : list Row.t) (totals : Totals.t) (timezone : string)
    (table : Table) :
  create_daily_table aggregated_data totals timezone = Ok table \/
  create_monthly_table aggregated_data totals timezone = Ok table ->
  rows table =
    ((data_cells <$> aggregated_data)
     ++ [separator_row; totals_row totals])%list /\
  length (rows table) = (length aggregated_data + 2)%nat.
Proof.
  intros Ht.
  assert (Hrows : rows table =
                  ((data_cells <$> aggregated_data)
                   ++ [separator_row; totals_row totals])%list).
  { destruct Ht as [Ht | Ht];
      [unfold create_daily_table in Ht | unfold create_monthly_table in Ht];
      apply bind_Ok in Ht as (rs & Hrs & [= <-]); simpl; f_equal;
      [apply (data_rows_cells row_date) | apply (data_rows_cells row_month)];
      try exact Hrs;
      intros data p; [unfold row_date | unfold row_month];
      destruct (Row.key data); simpl; congruence. }
  split; [exact Hrows |].
  rewrite Hrows, length_app, length_fmap. reflexivity.
Qed.

(** ** Traces *)

Lemma trace_bind {A B} (m : run A) (k : A -> run B) :
  trace (m ≫= k) =
  match outcome m with
  | Ok a => (trace m ++ trace (k a))%list
  | Raise _ => trace m
  end.
Proof. unfold mbind, run_bind. destruct (outcome m); reflexivity. Qed.

Lemma outcome_bind {A B} (m : run A) (k : A -> run B) :
  outcome (m ≫= k) =
  match outcome m with
  | Ok a => outcome (k a)
  | Raise e => Raise e
  end.
Proof. unfold mbind, run_bind. destruct (outcome m); reflexivity. Qed.

Lemma trace_try_except {A} (m : run A) (h : exn -> run A) :
  trace (try_except m h) =
  match outcome m with
  | Ok _ => trace m
  | Raise e => (trace m ++ trace (h e))%list
  end.
Proof. unfold try_except. destruct (outcome m); reflexivity. Qed.

Lemma outcome_try_except {A} (m : run A) (h : exn -> run A) :
  outcome (try_except m h) =
  match outcome m with
  | Ok a => Ok a
  | Raise e => outcome (h e)
  end.
Proof. unfold try_except. destruct (outcome m) eqn:E; [exact E | reflexivity]. Qed.

(** Every event of a sequence has a property that the events of its parts
    have. *)
Lemma Forall_trace_bind {A B} (P : event -> Prop) (m : run A) (k : A -> run B) :
  Forall P (trace m) ->
  (forall a, outcome m = Ok a -> Forall P (trace (k a))) ->
  Forall P (trace (m ≫= k)).
Proof.
  intros Hm Hk. rewrite trace_bind. destruct (outcome m) as [a|e]; [| exact Hm].
  apply Forall_app. split; [exact Hm | apply Hk; reflexivity].
Qed.

Lemma Forall_trace_try_except {A} (P : event -> Prop) (m : run A)
    (h : exn -> run A) :
  Forall P (trace m) ->
  (forall e, outcome m = Raise e -> Forall P (trace (h e))) ->
  Forall P (trace (try_except m h)).
Proof.
  intros Hm Hh. rewrite trace_try_except.
  destruct (outcome m) as [a|e]; [exact Hm |].
  apply Forall_app. split; [exact Hm | apply Hh; reflexivity].
Qed.

Lemma Forall_trace_emit (P : event -> Prop) (ev : event) :
  P ev -> Forall P (trace (emit ev)).
Proof. intros H. simpl. apply Forall_cons. split; [exact H | apply Forall_nil_2]. Qed.

Lemma Forall_trace_lift {A} (P : event -> Prop) (r : result A) :
  Forall P (trace (lift r)).
Proof. apply Forall_nil_2. Qed.

Lemma Forall_trace_ret {A} (P : event -> Prop) (a : A) :
  Forall P (trace (mret a : run A)).
Proof. apply Forall_nil_2. Qed.

Ltac trace_step :=
  lazymatch goal with
  | |- Forall _ (trace (mbind _ _)) =>
      apply Forall_trace_bind; [| intros ? ?]
  | |- Forall _ (trace (try_except _ _)) =>
      apply Forall_trace_try_except; [| intros ? ?]
  | |- Forall _ (trace (emit _)) => apply Forall_trace_emit; reflexivity
  | |- Forall _ (trace (log _ _)) => apply Forall_trace_emit; reflexivity
  | |- Forall _ (trace (print_themed _ _)) =>
      apply Forall_trace_emit; reflexivity
  | |- Forall _ (trace (lift _)) => apply Forall_trace_lift
  | |- Forall _ (trace (mret _)) => apply Forall_nil_2
  | |- Forall _ (trace (match ?x with _ => _ end)) => destruct x
  end.

Ltac trace_events := repeat trace_step.

(** The extraction only logs. *)
Lemma logged_step_entries_report (block_idx : nat) (l : list pyval) :
  forall (k : nat) (st : extraction),
    Forall (fun ev => is_report_event ev = true) (logged st) ->
    Forall (fun ev => is_report_event ev = true)
      (logged (foldl (step_entry block_idx) st (enumerate_from k l))).
Proof.
  induction l as [|x l IH]; intros k st Hst; simpl; [exact Hst |].
  apply IH. unfold step_entry.
  destruct (process_entry block_idx _ _); simpl; [exact Hst |].
  apply Forall_app. split; [exact Hst |].
  apply Forall_cons. split; [reflexivity | apply Forall_nil_2].
Qed.

Lemma logged_blocks_report (bs : list pyval) :
  forall (k : nat) (st : extraction),
    Forall (fun ev => is_report_event ev = true) (logged st) ->
    Forall (fun ev => is_report_event ev = true)
      (logged (foldl process_block st (enumerate_from k bs))).
Proof.
  induction bs as [|b bs IH]; intros k st Hst; simpl; [exact Hst |].
  apply IH. unfold process_block.
  destruct (block_entries _) as [[l|]|e]; simpl.
  - apply logged_step_entries_report. exact Hst.
  - exact Hst.
  - apply Forall_app. split; [exact Hst |].
    apply Forall_cons. split; [reflexivity | apply Forall_nil_2].
Qed.

Lemma logged_extract_entries_report (blocks : list pyval) :
  Forall (fun ev => is_report_event ev = true)
    (logged (extract_entries blocks)).
Proof. apply logged_blocks_report. apply Forall_nil_2. Qed.

Lemma render_view_events (view_mode : string) (aggregated_data : list Row.t)
    (totals : Totals.t) (timezone : string) :
  Forall (fun ev => is_view_event ev = true)
    (trace (render_view view_mode aggregated_data totals timezone)).
Proof. unfold render_view. trace_events. Qed.

Lemma show_entries_events (args : gmap string pyval) (view_mode : string)
    (es : list (UsageEntry.t datetime)) :
  Forall (fun ev => is_view_event ev = true)
    (trace (show_entries args view_mode es)).
Proof.
  unfold show_entries, call_aggregate, call_calculate_totals.
  destruct es; trace_events; apply render_view_events.
Qed.

(** After the call of [analyze_usage], the body of the table view reports,
    aggregates, totals and draws, and never reads again. *)
Lemma table_view_body_trace (args : gmap string pyval)
    (data_path view_mode : string) :
  exists rest,
    trace (table_view_body args data_path view_mode) =
      AnalyzeUsage (96 * 30) false true data_path :: rest /\
    Forall (fun ev => is_view_event ev = true) rest.
Proof.
  unfold table_view_body. rewrite trace_bind.
  unfold read_usage at 1 2. rewrite trace_try_except, outcome_try_except.
  unfold call_analyze_usage.
  destruct (analyze_usage (96 * 30) false true data_path) as [ud|e] eqn:Ha;
    cbn; rewrite ?Ha; cbn.
  - eexists. split; [reflexivity |].
    repeat lazymatch goal with
           | |- Forall _ (trace (match ?x with _ => _ end)) => destruct x
           end;
      simpl;
      try (repeat (apply Forall_cons; split; [reflexivity |]);
           apply Forall_nil_2).
    apply Forall_app. split.
    + eapply Forall_impl; [apply logged_extract_entries_report |].
      intros ev Hev. unfold is_view_event. rewrite Hev. reflexivity.
    + apply show_entries_events.
  - destruct e; cbn; (eexists; split; [reflexivity |]);
      repeat (apply Forall_cons; split; [reflexivity |]); apply Forall_nil_2.
Qed.

(** The two path checks stand before the [try]: what they raise leaves
    [_run_table_view]; nothing else does. *)
Lemma table_view_outcome
    (args : gmap string pyval) (data_path view_mode : string) :
  outcome (_run_table_view args data_path view_mode) =
    if String.eqb view_mode "daily" || String.eqb view_mode "monthly" then
      match path_exists data_path with
      | Raise e => Raise e
      | Ok false => Ok tt
      | Ok true =>
          match path_is_dir data_path with
          | Raise e => Raise e
          | Ok _ => Ok tt
          end
      end
    else Ok tt.
Proof.
  unfold _run_table_view. rewrite outcome_bind. simpl.
  destruct (String.eqb view_mode "daily" || String.eqb view_mode "monthly");
    [| reflexivity].
  simpl. destruct (path_exists data_path) as [[]|e]; cbn; try reflexivity.
  destruct (path_is_dir data_path) as [[]|e]; cbn; try reflexivity.
  rewrite outcome_try_except.
  destruct (outcome (table_view_body args data_path view_mode)) as [[]|e'];
    reflexivity.
Qed.

(** Either the read is reached, and the run is the first log line, the body
    of the [try] and what its handler reports; or the run only reports. *)
Lemma table_view_cases
    (args : gmap string pyval) (data_path view_mode : string) :
  let r := _run_table_view args data_path view_mode in
  let reached :=
    (String.eqb view_mode "daily" || String.eqb view_mode "monthly")
    && returns_true (path_exists data_path)
    && returns_true (path_is_dir data_path) in
  (reached = true /\
   exists rest,
     trace r =
       (Log INFO [Lit "Running "; Lit view_mode; Lit " view mode"]
        :: trace (table_view_body args data_path view_mode) ++ rest)%list /\
     Forall (fun ev => is_report_event ev = true) rest) \/
  (reached = false /\
   Forall (fun ev => is_report_event ev = true) (trace r)).
Proof.
  intros r reached. subst r reached. unfold _run_table_view.
  rewrite trace_bind. simpl.
  destruct (String.eqb view_mode "daily" || String.eqb view_mode "monthly");
    simpl; [| right; split; [reflexivity | repeat constructor]].
  destruct (path_exists data_path) as [[]|e]; cbn;
    [| right; split; [reflexivity | repeat constructor]
     | right; split; [reflexivity | repeat constructor]].
  destruct (path_is_dir data_path) as [[]|e]; cbn;
    [| right; split; [reflexivity | repeat constructor]
     | right; split; [reflexivity | repeat constructor]].
  left. split; [reflexivity |].
  rewrite trace_try_except.
  destruct (outcome (table_view_body args data_path view_mode)) as [[]|e].
  - exists []. rewrite app_nil_r. split; [reflexivity | constructor].
  - eexists. split; [reflexivity |]. simpl. repeat constructor.
Qed.

(** X7.  [_run_table_view] raises in one case only: the view mode is valid
    and [data_path.exists()] or, after it returned [True],
    [data_path.is_dir()] raises; both stand before the [try], and the
    exception is theirs.  Whatever happens after them (a failing read,
    malformed blocks, a failing aggregation or rendering) ends in a message
    and a normal return. *)
Theorem table_view_raises_iff
    (args : gmap string pyval) (data_path view_mode : string) (e : exn) :
  outcome (_run_table_view args data_path view_mode) = Raise e <->
  String.eqb view_mode "daily" || String.eqb view_mode "monthly" = true /\
  (path_exists data_path = Raise e \/
   path_exists data_path = Ok true /\ path_is_dir data_path = Raise e).
Proof.
  rewrite table_view_outcome.
  destruct (String.eqb view_mode "daily" || String.eqb view_mode "monthly");
    [| split; [discriminate | intros [H _]; discriminate]].
  destruct (path_exists data_path) as [[]|e1].
  - destruct (path_is_dir data_path) as [b|e2]; split.
    + discriminate.
    + intros [_ [H | [_ H]]]; discriminate.
    + intros [= ->]. auto.
    + intros [_ [H | [_ H]]]; [discriminate | congruence].
  - split; [discriminate |].
    intros [_ [H | [H _]]]; discriminate.
  - split.
    + intros [= ->]. auto.
    + intros [_ [H | [H _]]]; [congruence | discriminate].
Qed.

(** X8.  [_run_table_view] reads the usage data exactly when the view mode is
    valid and the data path is an existing directory, and then once: 30 times
    96 hours back, with the cache, without quick start, from that path. *)
Theorem table_view_reads_once
    (args : gmap string pyval) (data_path view_mode : string) :
  let r := _run_table_view args data_path view_mode in
  let reached :=
    (String.eqb view_mode "daily" || String.eqb view_mode "monthly")
    && returns_true (path_exists data_path)
    && returns_true (path_is_dir data_path) in
  List.filter is_analysis_event (trace r) =
    if reached then [AnalyzeUsage (96 * 30) false true data_path] else [].
Proof.
  intros r reached. subst r reached.
  assert (Hnone : forall l,
            Forall (fun ev => is_view_event ev = true) l ->
            List.filter is_analysis_event l = []).
  { intros l Hl. induction Hl as [|ev l Hev _ IH]; [reflexivity |].
    simpl. rewrite IH.
    destruct ev; try discriminate; reflexivity. }
  assert (Hview : forall ev, is_report_event ev = true ->
                             is_view_event ev = true).
  { intros ev Hev. unfold is_view_event. rewrite Hev. reflexivity. }
  destruct (table_view_cases args data_path view_mode)
    as [(-> & rest & -> & Hrest) | (-> & Hrep)].
  - destruct (table_view_body_trace args data_path view_mode)
      as (rest' & -> & Hrest').
    simpl. rewrite List.filter_app, (Hnone _ Hrest').
    rewrite (Hnone _ (Forall_impl _ _ _ Hrest Hview)). reflexivity.
  - apply Hnone. exact (Forall_impl _ _ _ Hrep Hview).
Qed.

Ltac not_in_trace H Hp :=
  repeat (apply elem_of_cons in H as [-> | H]; [simpl in Hp; discriminate |]);
  apply elem_of_nil in H; contradiction.

(** One event of an explicit trace of [show_entries], with the equations of
    the branch in the context. *)
Ltac stage_event Hp :=
  first
    [ solve [simpl in Hp; discriminate]
    | solve [intros [Hs | Hs]; simpl in Hs; discriminate]
    | solve [intros _; eexists; split; [reflexivity |];
             split; [discriminate |];
             intros Hr;
             first [ simpl in Hr; discriminate
                   | do 2 eexists; split; eassumption ]] ].

Ltac stage_events H Hp :=
  repeat (apply elem_of_cons in H as [-> | H]; [stage_event Hp |]);
  apply elem_of_nil in H; contradiction.

Lemma report_not_processing (ev : event) :
  is_report_event ev = true -> is_processing_event ev = false.
Proof. destruct ev; simpl; congruence. Qed.

(** The stages of [show_entries]: nothing is aggregated from no entry, totals
    are computed from rows only, the screen is touched only with a table. *)
Lemma show_entries_stages (args : gmap string pyval) (view_mode : string)
    (es : list (UsageEntry.t datetime)) (ev : event) :
  ev ∈ trace (show_entries args view_mode es) ->
  is_processing_event ev = true ->
  es <> [] /\
  (ev = CalculateTotals \/ is_render_event ev = true ->
   exists rows,
     outcome (call_aggregate view_mode es) = Ok rows /\ rows <> [] /\
     (is_render_event ev = true ->
      exists totals table,
        aggregator_calculate_totals rows = Ok totals /\
        view_table view_mode rows totals (display_timezone args) = Ok table)).
Proof.
  intros Hin Hp.
  destruct es as [|e0 es']; [simpl in Hin; not_in_trace Hin Hp |].
  split; [discriminate |].
  unfold view_table. unfold show_entries, call_aggregate in *.
  destruct (String.eqb view_mode "daily") eqn:Hvm;
    [ destruct (aggregate_daily (e0 :: es')) as [rows|e] eqn:Hagg
    | destruct (aggregate_monthly (e0 :: es')) as [rows|e] eqn:Hagg ];
    cbn in Hin; rewrite ?Hagg in Hin; cbn in Hin;
    try (stage_events Hin Hp);
    (destruct rows as [|row rows']; cbn in Hin; [stage_events Hin Hp |]);
    (destruct (aggregator_calculate_totals (row :: rows')) as [totals|e]
       eqn:Htot; cbn in Hin; rewrite ?Htot in Hin; cbn in Hin;
     [| stage_events Hin Hp]);
    unfold render_view in Hin; rewrite Hvm in Hin.
  - destruct (create_daily_table (row :: rows') totals (display_timezone args))
      as [table|e] eqn:Htab; cbn in Hin; rewrite ?Htab in Hin; cbn in Hin;
      stage_events Hin Hp.
  - destruct (create_monthly_table (row :: rows') totals
                (display_timezone args))
      as [table|e] eqn:Htab; cbn in Hin; rewrite ?Htab in Hin; cbn in Hin;
      stage_events Hin Hp.
Qed.

(** Whatever a table view aggregates, totals or draws, it does in
    [show_entries], on the entries extracted from the usage data. *)
Lemma table_view_stages (args : gmap string pyval)
    (data_path view_mode : string) (ev : event) :
  ev ∈ trace (_run_table_view args data_path view_mode) ->
  is_processing_event ev = true ->
  exists es, extracted data_path es /\
             ev ∈ trace (show_entries args view_mode es).
Proof.
  intros Hin Hp.
  assert (Hbody : ev ∈ trace (table_view_body args data_path view_mode)).
  { destruct (table_view_cases args data_path view_mode)
      as [(_ & rest & Hr & Hrest) | (_ & Hrep)].
    - rewrite Hr in Hin.
      apply elem_of_cons in Hin as [-> | Hin]; [simpl in Hp; discriminate |].
      apply elem_of_app in Hin as [Hin | Hin]; [exact Hin |].
      rewrite Forall_forall in Hrest.
      apply Hrest, report_not_processing in Hin. congruence.
    - rewrite Forall_forall in Hrep.
      apply Hrep, report_not_processing in Hin. congruence. }
  clear Hin. unfold table_view_body, read_usage, call_analyze_usage in Hbody.
  destruct (analyze_usage (96 * 30) false true data_path) as [ud|e] eqn:Ha;
    cbn in Hbody; rewrite ?Ha in Hbody; cbn in Hbody.
  - apply elem_of_cons in Hbody as [-> | Hbody]; [simpl in Hp; discriminate |].
    destruct ud as [d|]; [| not_in_trace Hbody Hp].
    destruct (negb (bool_decide (d = ∅))); [| not_in_trace Hbody Hp].
    destruct (d !! "blocks") as [blocks|] eqn:Hb; [| not_in_trace Hbody Hp].
    destruct (truthy blocks); [| not_in_trace Hbody Hp].
    destruct (py_iter blocks) as [bl|e] eqn:Hit;
      cbn in Hbody; [| not_in_trace Hbody Hp].
    apply elem_of_app in Hbody as [Hbody | Hbody].
    + pose proof (logged_extract_entries_report bl) as Hlog.
      rewrite Forall_forall in Hlog.
      apply Hlog, report_not_processing in Hbody. congruence.
    + exists (entries (extract_entries bl)). split; [| exact Hbody].
      exists d, blocks, bl. repeat split; assumption.
  - destruct e; cbn in Hbody; not_in_trace Hbody Hp.
Qed.

(** X9.  A table view aggregates, totals and draws only entries it has
    extracted from the blocks of the usage data it read, and only when there
    is at least one: with no usage data, no blocks or no valid entry the
    aggregator is never called. *)
Theorem aggregation_needs_entries
    (args : gmap string pyval) (data_path view_mode : string) (ev : event) :
  ev ∈ trace (_run_table_view args data_path view_mode) ->
  is_processing_event ev = true ->
  exists es, extracted data_path es /\ es <> [].
Proof.
  intros Hin Hp.
  destruct (table_view_stages _ _ _ _ Hin Hp) as (es & Hes & Hshow).
  exists es. split; [exact Hes |].
  apply (show_entries_stages _ _ _ _ Hshow Hp).
Qed.

(** X10.  A table view computes totals only from a non-empty list of rows
    that the aggregator returned for the extracted entries; and it touches
    the screen only when, in addition, the totals were computed and the table
    was built: a failure on the way leaves the screen as it was. *)
Theorem rendering_needs_rows_and_totals
    (args : gmap string pyval) (data_path view_mode : string) (ev : event) :
  ev ∈ trace (_run_table_view args data_path view_mode) ->
  ev = CalculateTotals \/ is_render_event ev = true ->
  exists es rows,
    extracted data_path es /\
    outcome (call_aggregate view_mode es) = Ok rows /\ rows <> [] /\
    (is_render_event ev = true ->
     exists totals table,
       aggregator_calculate_totals rows = Ok totals /\
       view_table view_mode rows totals (display_timezone args) = Ok table).
Proof.
  intros Hin Hs.
  assert (Hp : is_processing_event ev = true).
  { destruct Hs as [-> | Hs]; [reflexivity |].
    destruct ev; simpl in Hs; try discriminate; reflexivity. }
  destruct (table_view_stages _ _ _ _ Hin Hp) as (es & Hes & Hshow).
  destruct (show_entries_stages _ _ _ _ Hshow Hp) as [_ Hst].
  destruct (Hst Hs) as (rows & Hagg & Hne & Hr).
  exists es, rows. repeat split; assumption.
Qed.

(** ** More on the initial token limit *)

(** X11.  [_get_initial_token_limit] raises in two cases only: for the plan
    ['custom'], when a truthy [custom_limit_tokens] does not convert with
    [int()] (the conversion stands outside the [try]); for another plan, when
    [get_token_limit] raises.  The exception is then the one of that call. *)
Theorem token_limit_raises_iff
    (args : gmap string pyval) (data_path : string) (e : exn) :
  let plan := default (PyStr PRO_value) (args !! "plan") in
  outcome (_get_initial_token_limit args data_path) = Raise e <->
  (py_eq_str plan "custom" = true /\
   exists v, args !! "custom_limit_tokens" = Some v /\ truthy v = true /\
             py_int v = Raise e) \/
  (py_eq_str plan "custom" = false /\ get_token_limit plan None = Raise e).
Proof.
  intros plan. unfold _get_initial_token_limit. fold plan.
  destruct (py_eq_str plan "custom") eqn:Hc.
  - unfold attr_set, attr.
    destruct (args !! "custom_limit_tokens") as [v|] eqn:Hv;
      [destruct (truthy v) eqn:Ht |].
    + cbn. destruct (py_int v) as [n|e'] eqn:Hn; cbn; split.
      * discriminate.
      * intros [(_ & v' & [= <-] & _ & Hn') | [? _]]; congruence.
      * intros [= ->]. left. split; [reflexivity |]. exists v. auto.
      * intros [(_ & v' & [= <-] & _ & Hn') | [? _]]; congruence.
    + split.
      * intros H. exfalso. revert H.
        rewrite outcome_bind. simpl. rewrite outcome_bind, outcome_try_except.
        destruct (outcome (p90_limit plan data_path)) as [[n|]|e']; simpl;
          discriminate.
      * intros [(_ & v' & [= <-] & Ht' & _) | [? _]]; congruence.
    + split.
      * intros H. exfalso. revert H.
        rewrite outcome_bind. simpl. rewrite outcome_bind, outcome_try_except.
        destruct (outcome (p90_limit plan data_path)) as [[n|]|e']; simpl;
          discriminate.
      * intros [(_ & v' & Hv' & _) | [? _]]; congruence.
  - unfold call_get_token_limit. rewrite outcome_bind. simpl. split.
    + intros H. right. split; [reflexivity | exact H].
    + intros [[? _] | [_ H]]; [discriminate | exact H].
Qed.

(** X12.  [_get_initial_token_limit] reads the usage data at most once, and
    exactly when the plan is ['custom'] and [custom_limit_tokens] is absent
    or falsy: then 192 hours back, without quick start and without the
    cache. *)
Theorem token_limit_reads_once
    (args : gmap string pyval) (data_path : string) :
  let plan := default (PyStr PRO_value) (args !! "plan") in
  List.filter is_analysis_event
    (trace (_get_initial_token_limit args data_path)) =
  if py_eq_str plan "custom" && negb (attr_set args "custom_limit_tokens")
  then [AnalyzeUsage (96 * 2) false false data_path]
  else [].
Proof.
  intros plan. unfold _get_initial_token_limit. fold plan.
  destruct (py_eq_str plan "custom"); simpl.
  - destruct (attr_set args "custom_limit_tokens"); simpl.
    + unfold attr. destruct (args !! "custom_limit_tokens") as [v|]; cbn;
        [| reflexivity].
      destruct (py_int v); reflexivity.
    + unfold p90_limit, call_analyze_usage, call_get_token_limit,
        default_fallback.
      destruct (analyze_usage (96 * 2) false false data_path) as [ud|e] eqn:Ha;
        cbn; rewrite ?Ha; cbn; [| reflexivity].
      destruct (blocks_of ud) as [blocks|]; cbn; [| reflexivity].
      destruct (get_token_limit plan (Some blocks)) as [n|e] eqn:Hg;
        cbn; rewrite ?Hg; reflexivity.
  - unfold call_get_token_limit. cbn.
    destruct (get_token_limit plan None); reflexivity.
Qed.

(** X13.  For the plan ['custom'] with no usable override, usage data with
    no blocks (no data at all, an empty mapping, or no ['blocks'] key) gives
    the default limit, announced as a fallback; the estimator is not
    asked. *)
Theorem token_limit_without_blocks
    (args : gmap string pyval) (data_path : string)
    (usage_data : option (gmap string pyval)) :
  args !! "plan" = Some (PyStr "custom") ->
  attr_set args "custom_limit_tokens" = false ->
  analyze_usage (96 * 2) false false data_path = Ok usage_data ->
  blocks_of usage_data = None ->
  _get_initial_token_limit args data_path =
    Run [PrintThemed [Lit "Analyzing usage data to determine cost limits..."]
           "info";
         AnalyzeUsage (96 * 2) false false data_path;
         PrintThemed [Lit "Using default limit as fallback"] "warning"]
        (Ok DEFAULT_TOKEN_LIMIT).
Proof.
  intros Hplan Hset Ha Hb. unfold _get_initial_token_limit.
  rewrite Hplan, Hset. simpl.
  unfold p90_limit, call_analyze_usage. cbn. rewrite Ha. cbn. rewrite Hb.
  reflexivity.
Qed.

(** ** More on the monitor *)

Lemma view_dispatch {A} (v : pyval) (a b c : A) :
  match v with
  | PyStr "daily" => a
  | PyStr "monthly" => b
  | _ => c
  end =
  if py_eq_str v "daily" then a
  else if py_eq_str v "monthly" then b else c.
Proof.
  destruct v as [| | | |s| |]; try reflexivity. simpl.
  do 8 (destruct s as [|[[] [] [] [] [] [] [] []] s]; try reflexivity).
Qed.

Lemma token_limit_events (args : gmap string pyval) (data_path : string) :
  Forall (fun ev => is_report_event ev || is_analysis_event ev
                    || is_estimate_event ev = true)
    (trace (_get_initial_token_limit args data_path)).
Proof.
  unfold _get_initial_token_limit, p90_limit, call_analyze_usage,
    call_get_token_limit, default_fallback.
  trace_events.
Qed.

Lemma table_view_events (args : gmap string pyval)
    (data_path view_mode : string) :
  Forall (fun ev => is_report_event ev || is_analysis_event ev
                    || is_processing_event ev = true)
    (trace (_run_table_view args data_path view_mode)).
Proof.
  assert (Hview : forall ev, is_view_event ev = true ->
                    is_report_event ev || is_analysis_event ev
                    || is_processing_event ev = true).
  { intros ev. unfold is_view_event.
    destruct (is_report_event ev), (is_analysis_event ev),
      (is_processing_event ev); simpl; congruence. }
  assert (Hrep : forall ev, is_report_event ev = true ->
                   is_report_event ev || is_analysis_event ev
                   || is_processing_event ev = true).
  { intros ev ->. reflexivity. }
  destruct (table_view_cases args data_path view_mode)
    as [(_ & rest & -> & Hrest) | (_ & Hall)];
    [| exact (Forall_impl _ _ _ Hall Hrep)].
  destruct (table_view_body_trace args data_path view_mode)
    as (rest' & -> & Hrest').
  apply Forall_cons. split; [reflexivity |].
  simpl. apply Forall_cons. split; [reflexivity |].
  apply Forall_app. split.
  - exact (Forall_impl _ _ _ Hrest' Hview).
  - exact (Forall_impl _ _ _ Hrest Hrep).
Qed.

(** A trace made of explicit events around one part that is known by [Hev]
    and [Himpl]. *)
Ltac classify_events Hev Himpl :=
  repeat first
    [ apply Forall_nil_2
    | apply Forall_cons; split; [repeat split; reflexivity |]
    | exact (Forall_impl _ _ _ Hev Himpl)
    | apply Forall_app; split ].

(** The realtime branch either has all it needs, and then runs a whole
    session, or never touches the orchestrator. *)
Lemma monitor_realtime_run (args : gmap string pyval) (data_path : string) :
  (session_ready args data_path /\
   exists refresh_rate,
     args !! "refresh_rate" = Some refresh_rate /\
     monitor_realtime args data_path =
       Run (trace (_get_initial_token_limit args data_path)
            ++ session_trace args refresh_rate data_path)
           (Ok tt)) \/
  (~ session_ready args data_path /\
   Forall (fun ev => is_monitoring_event ev = false /\
                     is_terminal_event ev = false /\
                     is_processing_event ev = false)
     (trace (monitor_realtime args data_path))).
Proof.
  pose proof (token_limit_events args data_path) as Hev.
  assert (Hlimit : forall ev,
            is_report_event ev || is_analysis_event ev
            || is_estimate_event ev = true ->
            is_monitoring_event ev = false /\ is_terminal_event ev = false /\
            is_processing_event ev = false).
  { intros ev. destruct ev; simpl; intros H; try discriminate; auto. }
  unfold session_ready, session_trace.
  unfold monitor_realtime, realtime_setup, realtime_displays, realtime_session,
    attr.
  destruct (_get_initial_token_limit args data_path) as [ttl [n|e]];
    simpl in Hev.
  - destruct (check_divisor _) as [[]|e];
      [destruct (args !! "refresh_rate") as [rr|];
       [destruct (args !! "plan") as [pl|];
        [destruct (args !! "timezone") as [tz|] |] |] |].
    + left. split.
      * repeat split; eauto.
      * exists rr. split; [reflexivity |].
        destruct wait_for_initial_data; cbn; rewrite <- ?app_assoc;
          reflexivity.
    + right. split; [intros (_ & _ & _ & _ & [? H]); discriminate |].
      cbn. classify_events Hev Hlimit.
    + right. split; [intros (_ & _ & _ & [? H] & _); discriminate |].
      cbn. classify_events Hev Hlimit.
    + right. split; [intros (_ & _ & [? H] & _); discriminate |].
      cbn. classify_events Hev Hlimit.
    + right. split; [intros (_ & H & _); discriminate |].
      cbn. classify_events Hev Hlimit.
  - right. split; [intros ([? H] & _); discriminate |].
    cbn. classify_events Hev Hlimit.
Qed.

Lemma themed_console_events (args : gmap string pyval) :
  Forall (fun ev => is_console_event ev = true) (trace (themed_console args)).
Proof. unfold themed_console. trace_events. Qed.

Lemma lift_bind_Ok {A B} (a : A) (k : A -> run B) : lift (Ok a) ≫= k = k a.
Proof. unfold mbind, run_bind, lift. simpl. destruct (k a); reflexivity. Qed.

(** [except Exception as e: handle_error_and_exit(old_terminal_settings, e)] *)
Lemma handled_run (m : run unit) :
  try_except m (fun e => emit (HandleErrorAndExit e)) =
    Run (trace m ++ match outcome m with
                    | Ok _ => []
                    | Raise e => [HandleErrorAndExit e]
                    end)
        (Ok tt).
Proof.
  unfold try_except. destruct m as [t [[]|e]]; simpl;
    [rewrite app_nil_r |]; reflexivity.
Qed.

(** The body of the [try] of [_run_monitoring], by what was discovered. *)
Lemma monitoring_body_eq (args : gmap string pyval) :
  monitoring_body args =
    match discover_claude_data_paths None with
    | Raise e => Run [] (Raise e)
    | Ok [] => print_themed [Lit "No Claude data directory found"] "error"
    | Ok (data_path :: _) =>
        log INFO [Lit "Using data path: "; Lit data_path];;
        if py_eq_str (default (PyStr "realtime") (args !! "view")) "daily"
        then _run_table_view args data_path "daily"
        else if py_eq_str (default (PyStr "realtime") (args !! "view"))
                  "monthly"
        then _run_table_view args data_path "monthly"
        else monitor_realtime args data_path
    end.
Proof.
  unfold monitoring_body.
  destruct (discover_claude_data_paths None) as [[|dp rest]|e];
    [rewrite lift_bind_Ok; reflexivity | | reflexivity].
  rewrite lift_bind_Ok, view_dispatch. reflexivity.
Qed.

(** The whole run around that body. *)
Lemma run_monitoring_trace (args : gmap string pyval) :
  _run_monitoring args =
    match outcome (themed_console args) with
    | Ok _ =>
        Run (trace (themed_console args)
             ++ SetupTerminal
                :: (trace (monitoring_body args)
                    ++ match outcome (monitoring_body args) with
                       | Ok _ => []
                       | Raise e => [HandleErrorAndExit e]
                       end)
                ++ [RestoreTerminal])
            (Ok tt)
    | Raise e => Run (trace (themed_console args)) (Raise e)
    end.
Proof.
  unfold _run_monitoring. rewrite handled_run.
  unfold mbind at 1, run_bind at 1.
  destruct (outcome (themed_console args)) as [[]|e]; reflexivity.
Qed.

Lemma session_trace_events (args : gmap string pyval) (refresh_rate : pyval)
    (data_path : string) :
  Forall (fun ev => is_terminal_event ev = false /\
                    is_processing_event ev = false)
    (session_trace args refresh_rate data_path).
Proof.
  unfold session_trace. destruct wait_for_initial_data; simpl;
    repeat (apply Forall_cons; split; [split; reflexivity |]);
    apply Forall_nil_2.
Qed.

(** Neither the body nor its handler touches the terminal settings. *)
Lemma monitoring_body_events (args : gmap string pyval) :
  Forall (fun ev => is_terminal_event ev = false)
    (trace (monitoring_body args)
     ++ match outcome (monitoring_body args) with
        | Ok _ => []
        | Raise e => [HandleErrorAndExit e]
        end).
Proof.
  assert (Htab : forall ev,
            is_report_event ev || is_analysis_event ev
            || is_processing_event ev = true ->
            is_terminal_event ev = false).
  { intros ev. destruct ev; simpl; congruence. }
  assert (Hlim : forall ev,
            is_report_event ev || is_analysis_event ev
            || is_estimate_event ev = true ->
            is_terminal_event ev = false).
  { intros ev. destruct ev; simpl; congruence. }
  apply Forall_app. split;
    [| destruct (outcome (monitoring_body args)); repeat constructor].
  rewrite monitoring_body_eq.
  destruct (discover_claude_data_paths None) as [[|dp rest]|e];
    [repeat constructor | | constructor].
  apply Forall_trace_bind; [apply Forall_trace_emit; reflexivity |].
  intros _ _.
  repeat lazymatch goal with
         | |- Forall _ (trace (if ?x then _ else _)) => destruct x
         end;
    try exact (Forall_impl _ _ _ (table_view_events _ _ _) Htab).
  destruct (monitor_realtime_run args dp)
    as [(_ & rr & _ & ->) | (_ & Hno)].
  - simpl. apply Forall_app. split;
      [exact (Forall_impl _ _ _ (token_limit_events _ _) Hlim) |].
    eapply Forall_impl; [apply session_trace_events |].
    intros ev [H _]. exact H.
  - eapply Forall_impl; [exact Hno |]. intros ev (_ & H & _). exact H.
Qed.

(** [_run_monitoring] either runs a whole realtime session, or never touches
    the orchestrator. *)
Lemma run_monitoring_cases (args : gmap string pyval) :
  (exists data_path refresh_rate,
     realtime_ready args data_path /\
     args !! "refresh_rate" = Some refresh_rate /\
     _run_monitoring args =
       Run (trace (themed_console args)
            ++ SetupTerminal
               :: (Log INFO [Lit "Using data path: "; Lit data_path]
                   :: trace (_get_initial_token_limit args data_path)
                      ++ session_trace args refresh_rate data_path)
               ++ [RestoreTerminal])
           (Ok tt)) \/
  ((forall data_path, ~ realtime_ready args data_path) /\
   Forall (fun ev => is_monitoring_event ev = false)
     (trace (_run_monitoring args))).
Proof.
  rewrite run_monitoring_trace.
  pose proof (themed_console_events args) as Hc.
  assert (Hcm : forall ev, is_console_event ev = true ->
                           is_monitoring_event ev = false).
  { intros ev. destruct ev; simpl; congruence. }
  assert (Htab : forall ev,
            is_report_event ev || is_analysis_event ev
            || is_processing_event ev = true ->
            is_monitoring_event ev = false).
  { intros ev. destruct ev; simpl; congruence. }
  assert (Hhandled : forall m : run unit,
            Forall (fun ev => is_monitoring_event ev = false)
              match outcome m with
              | Ok _ => []
              | Raise e => [HandleErrorAndExit e]
              end).
  { intros m. destruct (outcome m); repeat constructor. }
  assert (Hrest : forall body : run unit,
            Forall (fun ev => is_monitoring_event ev = false) (trace body) ->
            Forall (fun ev => is_monitoring_event ev = false)
              (trace (themed_console args)
               ++ SetupTerminal
                  :: (trace body
                      ++ match outcome body with
                         | Ok _ => []
                         | Raise e => [HandleErrorAndExit e]
                         end)
                  ++ [RestoreTerminal])).
  { intros body Hb. apply Forall_app. split;
      [exact (Forall_impl _ _ _ Hc Hcm) |].
    apply Forall_cons. split; [reflexivity |].
    apply Forall_app. split; [| repeat constructor].
    apply Forall_app. split; [exact Hb | apply Hhandled]. }
  unfold realtime_ready, is_table_view.
  destruct (outcome (themed_console args)) as [[]|e];
    [| right; split;
       [intros dp (H & _); discriminate
       | simpl; exact (Forall_impl _ _ _ Hc Hcm)]].
  rewrite monitoring_body_eq.
  destruct (discover_claude_data_paths None) as [[|dp rest]|e].
  { right. split; [intros dp' (_ & [? H] & _); discriminate |].
    apply Hrest. repeat constructor. }
  2:{ right. split; [intros dp' (_ & [? H] & _); discriminate |].
      apply Hrest. constructor. }
  destruct (py_eq_str (default (PyStr "realtime") (args !! "view")) "daily")
    eqn:Hd.
  { right. split; [intros dp' (_ & _ & H & _); discriminate |].
    apply Hrest. rewrite trace_bind.
    apply Forall_app. split; [repeat constructor |].
    simpl. exact (Forall_impl _ _ _ (table_view_events _ _ _) Htab). }
  destruct (py_eq_str (default (PyStr "realtime") (args !! "view")) "monthly")
    eqn:Hm.
  { right. split; [intros dp' (_ & _ & H & _); discriminate |].
    apply Hrest. rewrite trace_bind.
    apply Forall_app. split; [repeat constructor |].
    simpl. exact (Forall_impl _ _ _ (table_view_events _ _ _) Htab). }
  destruct (monitor_realtime_run args dp)
    as [(Hready & rr & Hrr & Hrun) | (Hnot & Hno)].
  - left. exists dp, rr. split; [| split; [exact Hrr |]].
    + split; [reflexivity |]. split; [exists rest; reflexivity |].
      split; [reflexivity | exact Hready].
    + rewrite Hrun. cbn. rewrite app_nil_r. reflexivity.
  - right. split.
    + intros dp' (_ & [rest' Hdp] & _ & Hs).
      injection Hdp as <- _. contradiction.
    + apply Hrest. rewrite trace_bind.
      apply Forall_app. split; [repeat constructor |].
      simpl. eapply Forall_impl; [exact Hno |]. intros ev (H & _). exact H.
Qed.

(** X14.  Once [_run_monitoring] has its console it sets the terminal up
    once and restores it as the very last thing it does, whatever happened in
    between; when the console cannot be had ([args.theme] is truthy and no
    str) it raises before it has touched the terminal. *)
Theorem terminal_restored_last (args : gmap string pyval) :
  (outcome (themed_console args) = Ok tt ->
   exists body,
     trace (_run_monitoring args) =
       (trace (themed_console args)
        ++ SetupTerminal :: body ++ [RestoreTerminal])%list /\
     Forall (fun ev => is_terminal_event ev = false)
       (trace (themed_console args) ++ body)) /\
  (forall e, outcome (themed_console args) = Raise e ->
             _run_monitoring args = Run [] (Raise e)).
Proof.
  pose proof (run_monitoring_trace args) as Hrun.
  split.
  - intros Hc. rewrite Hc in Hrun. eexists.
    split; [rewrite Hrun; reflexivity |].
    assert (Hcon : forall ev, is_console_event ev = true ->
                              is_terminal_event ev = false).
    { intros ev. destruct ev; simpl; congruence. }
    apply Forall_app. split;
      [exact (Forall_impl _ _ _ (themed_console_events args) Hcon) |].
    apply monitoring_body_events.
  - intros e He. rewrite He in Hrun. rewrite Hrun. f_equal.
    unfold themed_console in *.
    destruct (attr_set args "theme"); [| discriminate].
    destruct (args !! "theme") as [[]|]; try discriminate; reflexivity.
Qed.

(** X15.  With the view ['daily'] or ['monthly'], [_run_monitoring] neither
    asks for a token limit nor creates a live display or an orchestrator, and
    it does not call [handle_cleanup_and_exit].  It calls
    [handle_error_and_exit] in one case only: a file-system call raises,
    either in [discover_claude_data_paths] or in [_run_table_view] on the
    first discovered directory; and then with that exception. *)
Theorem table_views_do_not_monitor (args : gmap string pyval)
    (view_mode : string) :
  default (PyStr "realtime") (args !! "view") = PyStr view_mode ->
  view_mode = "daily" \/ view_mode = "monthly" ->
  outcome (themed_console args) = Ok tt ->
  Forall (fun ev => is_monitoring_event ev = false /\
                    is_estimate_event ev = false /\
                    is_live_session_event ev = false)
    (trace (_run_monitoring args)) /\
  forall e,
    HandleErrorAndExit e ∈ trace (_run_monitoring args) <->
    discover_claude_data_paths None = Raise e \/
    exists data_path rest,
      discover_claude_data_paths None = Ok (data_path :: rest) /\
      outcome (_run_table_view args data_path view_mode) = Raise e.
Proof.
  intros Hview Hmode Hcon.
  rewrite run_monitoring_trace, Hcon. cbn [trace].
  pose proof (themed_console_events args) as Hc.
  assert (Hcn : forall ev, is_console_event ev = true ->
                           is_monitoring_event ev = false /\
                           is_estimate_event ev = false /\
                           is_live_session_event ev = false).
  { intros ev. destruct ev; simpl; try discriminate; auto. }
  assert (Htab : forall ev,
            is_report_event ev || is_analysis_event ev
            || is_processing_event ev = true ->
            is_monitoring_event ev = false /\
            is_estimate_event ev = false /\
            is_live_session_event ev = false).
  { intros ev. destruct ev; simpl; try discriminate; auto. }
  assert (Hbody : monitoring_body args =
            match discover_claude_data_paths None with
            | Raise e => Run [] (Raise e)
            | Ok [] => print_themed [Lit "No Claude data directory found"] "error"
            | Ok (data_path :: _) =>
                log INFO [Lit "Using data path: "; Lit data_path];;
                _run_table_view args data_path view_mode
            end).
  { rewrite monitoring_body_eq, Hview.
    destruct (discover_claude_data_paths None) as [[|dp rest]|e];
      try reflexivity.
    destruct Hmode as [-> | ->]; reflexivity. }
  rewrite Hbody. clear Hbody.
  assert (Hno : forall (t : list event) (e : exn),
            Forall (fun ev => is_report_event ev || is_analysis_event ev
                              || is_processing_event ev = true) t ->
            HandleErrorAndExit e ∈ t -> False).
  { intros t e Ht Hin. rewrite Forall_forall in Ht.
    apply Ht in Hin. discriminate. }
  assert (Hcne : forall e, HandleErrorAndExit e ∈ trace (themed_console args)
                           -> False).
  { intros e Hin. rewrite Forall_forall in Hc. apply Hc in Hin.
    discriminate. }
  destruct (discover_claude_data_paths None) as [[|dp rest]|e0].
  - split.
    + simpl. apply Forall_app. split; [exact (Forall_impl _ _ _ Hc Hcn) |].
      repeat constructor.
    + intros e. split.
      * simpl. intros Hin. exfalso.
        apply elem_of_app in Hin as [Hin | Hin]; [exact (Hcne _ Hin) |].
        repeat (apply elem_of_cons in Hin as [Hin | Hin]; [discriminate |]).
        apply elem_of_nil in Hin. exact Hin.
      * intros [H | (dp & rest & H & _)]; discriminate.
  - pose proof (table_view_events args dp view_mode) as Ht.
    rewrite trace_bind, outcome_bind.
    remember (_run_table_view args dp view_mode) as tv eqn:Htv.
    simpl.
    split.
    + apply Forall_app. split; [exact (Forall_impl _ _ _ Hc Hcn) |].
      apply Forall_cons. split; [repeat split; reflexivity |].
      apply Forall_cons. split; [repeat split; reflexivity |].
      apply Forall_app. split; [| repeat constructor].
      apply Forall_app. split;
        [| destruct (outcome tv); repeat constructor].
      exact (Forall_impl _ _ _ Ht Htab).
    + intros e. split.
      * intros Hin. right. exists dp, rest. split; [reflexivity |].
        change (outcome (_run_table_view args dp view_mode) = Raise e).
        rewrite <- Htv.
        apply elem_of_app in Hin as [Hin | Hin];
          [destruct (Hcne _ Hin) |].
        apply elem_of_cons in Hin as [Hin | Hin]; [discriminate |].
        apply elem_of_cons in Hin as [Hin | Hin]; [discriminate |].
        apply elem_of_app in Hin as [Hin | Hin];
          [| apply elem_of_cons in Hin as [Hin | Hin];
             [discriminate | apply elem_of_nil in Hin; destruct Hin]].
        apply elem_of_app in Hin as [Hin | Hin].
        -- destruct (Hno _ _ Ht Hin).
        -- destruct (outcome tv) as [[]|e1];
             [apply elem_of_nil in Hin; destruct Hin |].
           apply elem_of_cons in Hin as [Hin | Hin];
             [congruence | apply elem_of_nil in Hin; destruct Hin].
      * intros [H | (dp' & rest' & [= <- <-] & Hr)]; [discriminate |].
        change (outcome (_run_table_view args dp view_mode) = Raise e) in Hr.
        rewrite <- Htv in Hr.
        rewrite Hr. apply elem_of_app. right.
        do 2 (apply elem_of_cons; right). apply elem_of_app. left.
        apply elem_of_app. right. apply elem_of_cons. left. reflexivity.
  - split.
    + simpl. apply Forall_app. split; [exact (Forall_impl _ _ _ Hc Hcn) |].
      repeat constructor.
    + intros e. split.
      * simpl. intros Hin. left.
        apply elem_of_app in Hin as [Hin | Hin]; [destruct (Hcne _ Hin) |].
        apply elem_of_cons in Hin as [Hin | Hin]; [discriminate |].
        apply elem_of_cons in Hin as [Hin | Hin]; [congruence |].
        apply elem_of_cons in Hin as [Hin | Hin]; [discriminate |].
        apply elem_of_nil in Hin. destruct Hin.
      * intros [[= <-] | (dp & rest & H & _)]; [| discriminate].
        simpl. apply elem_of_app. right.
        apply elem_of_cons. right. apply elem_of_cons. left. reflexivity.
Qed.

(** X16.  Whatever [_run_monitoring] does with the orchestrator or inside the
    live display, it does only after all of this held: the console was had,
    the first discovered data directory is [data_path], the view is no table
    view, a token limit was obtained, [1000 / refresh_per_second] could be
    computed, and [args] has [refresh_rate], [plan] and [timezone]. *)
Theorem monitoring_needs_ready (args : gmap string pyval) (ev : event) :
  ev ∈ trace (_run_monitoring args) ->
  is_monitoring_event ev = true ->
  exists data_path, realtime_ready args data_path.
Proof.
  intros Hin Hm.
  destruct (run_monitoring_cases args) as [(dp & rr & Hr & _) | [_ Hno]].
  - exists dp. exact Hr.
  - rewrite Forall_forall in Hno. specialize (Hno ev Hin). congruence.
Qed.

(** X17.  The orchestrator is created with [args.refresh_rate] itself as its
    update interval, and with the first discovered data directory: the
    default of 10 in [args.refresh_rate if hasattr(args, "refresh_rate") else
    10] is never used, since [args.refresh_rate] has been read before. *)
Theorem orchestrator_interval_is_refresh_rate (args : gmap string pyval)
    (update_interval : pyval) (data_path : string) :
  OrchestratorCreate update_interval data_path ∈ trace (_run_monitoring args) ->
  args !! "refresh_rate" = Some update_interval /\
  exists rest, discover_claude_data_paths None = Ok (data_path :: rest).
Proof.
  intros Hin.
  destruct (run_monitoring_cases args)
    as [(dp & rr & Hr & Hrr & Hrun) | [_ Hno]].
  - rewrite Hrun in Hin. cbn [trace] in Hin.
    pose proof (themed_console_events args) as Hc.
    pose proof (token_limit_events args dp) as Hl.
    rewrite Forall_forall in Hc. rewrite Forall_forall in Hl.
    apply elem_of_app in Hin as [Hin | Hin];
      [apply Hc in Hin; discriminate |].
    apply elem_of_cons in Hin as [Hin | Hin]; [discriminate |].
    apply elem_of_app in Hin as [Hin | Hin];
      [| apply elem_of_cons in Hin as [Hin | Hin];
         [discriminate | apply elem_of_nil in Hin; contradiction]].
    apply elem_of_cons in Hin as [Hin | Hin]; [discriminate |].
    apply elem_of_app in Hin as [Hin | Hin];
      [apply Hl in Hin; discriminate |].
    unfold session_trace in Hin.
    assert (Heq : OrchestratorCreate update_interval data_path =
                  OrchestratorCreate rr dp).
    { destruct wait_for_initial_data; simpl in Hin;
        repeat (apply elem_of_cons in Hin as [Hin | Hin];
                [first [discriminate | exact Hin] |]);
        apply elem_of_nil in Hin; contradiction. }
    injection Heq as -> ->. split; [exact Hrr |].
    destruct Hr as (_ & Hd & _). exact Hd.
  - rewrite Forall_forall in Hno. specialize (Hno _ Hin). discriminate.
Qed.

(** X18.  When [1000 / refresh_per_second] cannot be computed for the log
    line of the display rate ([refresh_per_second] is zero, or no number),
    the realtime monitor ends there: the exception goes to
    [handle_error_and_exit], the terminal is restored, and neither a display
    nor the orchestrator has been created. *)
Theorem refresh_per_second_must_divide (args : gmap string pyval)
    (data_path : string) (rest : list string) (n : Z) (e : exn) :
  outcome (themed_console args) = Ok tt ->
  discover_claude_data_paths None = Ok (data_path :: rest) ->
  is_table_view (default (PyStr "realtime") (args !! "view")) = false ->
  outcome (_get_initial_token_limit args data_path) = Ok n ->
  check_divisor (default (PyFloat 0.75%float) (args !! "refresh_per_second"))
    = Raise e ->
  trace (_run_monitoring args) =
    (trace (themed_console args)
     ++ SetupTerminal
        :: Log INFO [Lit "Using data path: "; Lit data_path]
        :: trace (_get_initial_token_limit args data_path)
     ++ [HandleErrorAndExit e; RestoreTerminal])%list.
Proof.
  intros Hc Hd Hv Hn Hdiv.
  rewrite run_monitoring_trace, Hc, monitoring_body_eq, Hd.
  unfold is_table_view in Hv.
  apply orb_false_elim in Hv as [-> ->].
  cbn [trace]. f_equal. f_equal.
  assert (Hrt : monitor_realtime args data_path =
                Run (trace (_get_initial_token_limit args data_path))
                    (Raise e)).
  { unfold monitor_realtime, realtime_setup.
    destruct (_get_initial_token_limit args data_path) as [ttl [n'|e']];
      simpl in Hn; [| discriminate].
    rewrite Hdiv. cbn. rewrite app_nil_r. reflexivity. }
  rewrite trace_bind, outcome_bind, Hrt. simpl.
  rewrite <- app_assoc. reflexivity.
Qed.

(** X19.  A realtime session that got as far as its main loop is ended by
    Ctrl+C, and then shuts down in this order: the orchestrator is stopped,
    the live display is left (by the inner [finally], and once more by the
    [KeyboardInterrupt] handler), [handle_cleanup_and_exit] is called, and
    the terminal is restored last. *)
Theorem session_shutdown_order (args : gmap string pyval)
    (data_path : string) :
  realtime_ready args data_path ->
  exists pre,
    trace (_run_monitoring args) =
      (pre ++ [MainLoop; OrchestratorStop; LiveExit; LiveExit;
               HandleCleanupAndExit; RestoreTerminal])%list /\
    OrchestratorStart ∈ pre /\
    Forall (fun ev => ev <> OrchestratorStop /\ ev <> LiveExit) pre.
Proof.
  intros Hready.
  destruct (run_monitoring_cases args)
    as [(dp & rr & Hr & Hrr & Hrun) | [Hnot _]];
    [| destruct (Hnot _ Hready)].
  rewrite Hrun. cbn [trace]. unfold session_trace.
  pose proof (themed_console_events args) as Hc.
  pose proof (token_limit_events args dp) as Hl.
  assert (Hcon : forall ev, is_console_event ev = true ->
                            ev <> OrchestratorStop /\ ev <> LiveExit).
  { intros ev. destruct ev; simpl; intros; split; congruence. }
  assert (Hlim : forall ev,
            is_report_event ev || is_analysis_event ev
            || is_estimate_event ev = true ->
            ev <> OrchestratorStop /\ ev <> LiveExit).
  { intros ev. destruct ev; simpl; intros; split; congruence. }
  set (refresh_per_second :=
         default (PyFloat 0.75%float) (args !! "refresh_per_second")).
  exists (trace (themed_console args)
          ++ SetupTerminal
             :: Log INFO [Lit "Using data path: "; Lit dp]
             :: trace (_get_initial_token_limit args dp)
          ++ [Log INFO [Lit "Display refresh rate: ";
                        FmtVal refresh_per_second; Lit " Hz (";
                        FmtPer 1000 refresh_per_second; Lit "ms)"];
              Log INFO [Lit "Data refresh rate: "; FmtVal rr;
                        Lit " seconds"];
              CreateLiveDisplay; CreateLoadingDisplay; EnterAlternateScreen;
              LiveEnter; LiveUpdate; OrchestratorCreate rr dp;
              OrchestratorSetArgs; RegisterUpdateCallback;
              RegisterSessionCallback; OrchestratorStart;
              Log INFO [Lit "Waiting for initial data..."];
              WaitForInitialData]
          ++ (if wait_for_initial_data then []
              else [Log WARNING [Lit "Timeout waiting for initial data"]]))%list.
  split; [| split].
  - rewrite <- app_assoc. f_equal. cbn [app]. f_equal. f_equal.
    rewrite <- !app_assoc. f_equal.
    destruct wait_for_initial_data; reflexivity.
  - apply elem_of_app. right. do 2 (apply elem_of_cons; right).
    apply elem_of_app. right.
    destruct wait_for_initial_data;
      repeat (apply elem_of_cons; first [left; reflexivity | right]).
  - apply Forall_app. split; [exact (Forall_impl _ _ _ Hc Hcon) |].
    apply Forall_cons. split; [split; discriminate |].
    apply Forall_cons. split; [split; discriminate |].
    apply Forall_app. split; [exact (Forall_impl _ _ _ Hl Hlim) |].
    destruct wait_for_initial_data;
      repeat (apply Forall_cons; split; [split; discriminate |]);
      apply Forall_nil_2.
Qed.

(** ** What a table view puts on the screen *)

Lemma table_view_mode_checked (args : gmap string pyval)
    (data_path view_mode : string) (ev : event) :
  ev ∈ trace (_run_table_view args data_path view_mode) ->
  is_processing_event ev = true ->
  String.eqb view_mode "daily" || String.eqb view_mode "monthly" = true.
Proof.
  intros Hin Hp. unfold _run_table_view in Hin.
  rewrite trace_bind in Hin. simpl in Hin.
  apply elem_of_cons in Hin as [-> | Hin]; [simpl in Hp; discriminate |].
  destruct (String.eqb view_mode "daily" || String.eqb view_mode "monthly");
    [reflexivity |].
  simpl in Hin. not_in_trace Hin Hp.
Qed.

Ltac printed_events H :=
  repeat (apply elem_of_cons in H as [H' | H];
          [first [ discriminate
                 | injection H' as ->; do 3 eexists;
                   repeat (split; [eassumption || reflexivity |]);
                   auto 6 ] |]);
  apply elem_of_nil in H; contradiction.

Lemma show_entries_prints (args : gmap string pyval) (view_mode : string)
    (es : list (UsageEntry.t datetime)) (r : renderable) :
  ConsolePrint r ∈ trace (show_entries args view_mode es) ->
  exists rows totals table,
    outcome (call_aggregate view_mode es) = Ok rows /\
    aggregator_calculate_totals rows = Ok totals /\
    view_table view_mode rows totals (display_timezone args) = Ok table /\
    (r = RPanel (create_summary_panel view_mode totals
                   [Lit "Last "; FmtNat (length rows); Lit " ";
                    Lit (drop_last2 view_mode);
                    Lit (if String.eqb view_mode "daily" then "y" else "");
                    Lit " entries"]) \/
     r = RBlank \/ r = RTable table \/
     r = RMarkup "[dim]Press Ctrl+C to exit[/dim]").
Proof.
  intros Hin.
  destruct es as [|e0 es']; [simpl in Hin; printed_events Hin |].
  unfold view_table. unfold show_entries, call_aggregate in *.
  destruct (String.eqb view_mode "daily") eqn:Hvm;
    [ destruct (aggregate_daily (e0 :: es')) as [rows|e] eqn:Hagg
    | destruct (aggregate_monthly (e0 :: es')) as [rows|e] eqn:Hagg ];
    cbn in Hin; rewrite ?Hagg in Hin; cbn in Hin;
    try (printed_events Hin);
    (destruct rows as [|row rows']; cbn in Hin; [printed_events Hin |]);
    (destruct (aggregator_calculate_totals (row :: rows')) as [totals|e]
       eqn:Htot; cbn in Hin; rewrite ?Htot in Hin; cbn in Hin;
     [| printed_events Hin]);
    unfold render_view in Hin; rewrite Hvm in Hin.
  - destruct (create_daily_table (row :: rows') totals (display_timezone args))
      as [table|e] eqn:Htab; cbn in Hin; rewrite ?Htab in Hin; cbn in Hin;
      printed_events Hin.
  - destruct (create_monthly_table (row :: rows') totals
                (display_timezone args))
      as [table|e] eqn:Htab; cbn in Hin; rewrite ?Htab in Hin; cbn in Hin;
      printed_events Hin.
Qed.

(** X20.  Whatever a table view prints on the console comes from the usage
    data it read: the table is the one built from the totals and the rows the
    aggregator returned for the extracted entries, in the display timezone;
    the summary panel is the one of these totals, with the period label
    "Last n daiy entries" in the daily view and "Last n month entries" in the
    monthly one, n the number of rows; the rest is blank lines and the Ctrl+C
    hint. *)
Theorem printed_view_is_of_extracted_entries
    (args : gmap string pyval) (data_path view_mode : string)
    (r : renderable) :
  ConsolePrint r ∈ trace (_run_table_view args data_path view_mode) ->
  exists es rows totals table,
    extracted data_path es /\
    outcome (call_aggregate view_mode es) = Ok rows /\
    aggregator_calculate_totals rows = Ok totals /\
    view_table view_mode rows totals (display_timezone args) = Ok table /\
    (r = RPanel (create_summary_panel view_mode totals
                   [Lit "Last "; FmtNat (length rows); Lit " ";
                    Lit (if String.eqb view_mode "daily"
                         then "dai" else "month");
                    Lit (if String.eqb view_mode "daily" then "y" else "");
                    Lit " entries"]) \/
     r = RBlank \/ r = RTable table \/
     r = RMarkup "[dim]Press Ctrl+C to exit[/dim]").
Proof.
  intros Hin.
  pose proof (table_view_mode_checked _ _ _ _ Hin eq_refl) as Hmode.
  destruct (table_view_stages _ _ _ _ Hin eq_refl) as (es & Hes & Hshow).
  destruct (show_entries_prints _ _ _ _ Hshow)
    as (rows & totals & table & Hagg & Htot & Htab & Hr).
  exists es, rows, totals, table.
  repeat (split; [assumption |]).
  assert (Hlabel : drop_last2 view_mode =
                   if String.eqb view_mode "daily" then "dai" else "month").
  { destruct (String.eqb view_mode "daily") eqn:Hd.
    - apply String.eqb_eq in Hd. subst view_mode. reflexivity.
    - simpl in Hmode. apply String.eqb_eq in Hmode. subst view_mode.
      reflexivity. }
  rewrite <- Hlabel. exact Hr.
Qed.

(** ** The shape of the tables *)

Lemma data_rows_width (period : Row.t -> result string) (l : list Row.t) :
  forall rs, data_rows period l = Ok rs -> Forall (fun r => length r = 8%nat) rs.
Proof.
  induction l as [|data l IH]; simpl; intros rs Hrs.
  - injection Hrs as <-. apply Forall_nil_2.
  - unfold data_row in Hrs. destruct (period data) as [p|e]; [| discriminate].
    simpl in Hrs. destruct (data_rows period l) as [rs'|e]; [| discriminate].
    simpl in Hrs. injection Hrs as <-.
    apply Forall_cons. split; [reflexivity | apply IH; reflexivity].
Qed.

(** X21.  A daily or monthly table has eight columns, and each of its rows
    (data rows, separator and totals row) has exactly one cell for each
    column. *)
Theorem table_rows_fit_columns (aggregate_data : list Row.t)
    (totals : Totals.t) (view_type timezone : string) (table : Table) :
  create_aggregate_table aggregate_data totals view_type timezone = Ok table ->
  length (columns table) = 8%nat /\
  Forall (fun r => length r = length (columns table)) (rows table).
Proof.
  unfold create_aggregate_table, create_daily_table, create_monthly_table.
  intros H.
  destruct (String.eqb view_type "daily");
    [| destruct (String.eqb view_type "monthly"); [| discriminate]];
    lazymatch type of H with
    | context [data_rows ?p ?l] =>
        pose proof (data_rows_width p l) as Hw;
        destruct (data_rows p l) as [rs|e]; [| discriminate]
    end;
    simpl in H; injection H as <-; simpl;
    (split; [reflexivity |]);
    (apply Forall_app; split; [apply Hw; reflexivity |]);
    repeat (apply Forall_cons; split; [reflexivity |]); apply Forall_nil_2.
Qed.

(** ** The update callback *)

Lemma log_blocks_events (blocks : pyval) :
  Forall (fun ev => is_debug_line ev = true) (events (log_blocks blocks)).
Proof.
  unfold log_blocks.
  destruct (py_len blocks) as [n|e]; cbn; [| apply Forall_nil_2].
  destruct (truthy blocks); cbn;
    [| apply Forall_cons; split; [reflexivity | apply Forall_nil_2]].
  destruct (py_iter blocks) as [bl|e]; cbn;
    [| apply Forall_cons; split; [reflexivity | apply Forall_nil_2]].
  destruct (active_blocks bl) as [[|b active]|e]; cbn;
    try (destruct (py_get b "totalTokens" (PyInt 0)); cbn);
    repeat (apply Forall_cons; split; [reflexivity |]); apply Forall_nil_2.
Qed.

Lemma debug_line_no_update (ev : callback_event data_display) :
  is_debug_line ev = true -> is_display_update ev = false.
Proof. destruct ev; simpl; congruence. Qed.

(** X22.  [on_data_update] never raises, and each call ends in one of two
    ways.  Either the display is created from [monitoring_data["data"]] (or
    [{}]) and [monitoring_data["token_limit"]] (or the initial token limit)
    and, when the live display is there, updated with it, after debug lines
    only; or the error is logged and reported once as
    [display_update_error] of [cli_main], and the live display has not been
    updated. *)
Theorem data_update_or_error_report (args : gmap string pyval)
    (token_limit : Z) (monitoring_data : pyval) :
  let r := on_data_update args token_limit monitoring_data in
  returned r = Ok tt /\
  ((exists debug data limit renderable,
      py_get monitoring_data "data" (PyDict ∅) = Ok data /\
      py_get monitoring_data "token_limit" (PyInt token_limit) = Ok limit /\
      create_data_display data args limit = Ok renderable /\
      Forall (fun ev => is_debug_line ev = true) debug /\
      events r =
        (debug ++ CreateDataDisplay data limit
               :: (if live_display then [DisplayUpdate renderable] else []))%list)
   \/
   (exists before e,
      Forall (fun ev => is_display_update ev = false) before /\
      events r =
        (before ++ [LogError [Lit "Display update error: "; FmtExn e];
                    ReportError e "cli_main" "display_update_error"])%list)).
Proof.
  intros r. subst r. unfold on_data_update, update_display, act_try_except.
  destruct (py_get monitoring_data "data" (PyDict ∅)) as [data|e] eqn:Hd; cbn;
    [| split; [reflexivity |]; right; exists [], e; split;
       [apply Forall_nil_2 | reflexivity]].
  destruct (py_get data "blocks" (PyList [])) as [blocks|e]; cbn;
    [| split; [reflexivity |]; right; exists [], e; split;
       [apply Forall_nil_2 | reflexivity]].
  pose proof (log_blocks_events blocks) as Hdbg.
  destruct (log_blocks blocks) as [dbg [[]|e]]; cbn in *;
    [| split; [reflexivity |]; right; exists dbg, e; split;
       [exact (Forall_impl _ _ _ Hdbg debug_line_no_update) | reflexivity]].
  destruct (py_get monitoring_data "token_limit" (PyInt token_limit))
    as [limit|e] eqn:Hl; cbn;
    [| split; [reflexivity |]; right; exists dbg, e; split;
       [exact (Forall_impl _ _ _ Hdbg debug_line_no_update)
       | rewrite app_nil_r; reflexivity]].
  destruct (create_data_display data args limit) as [renderable|e] eqn:Hc; cbn.
  - split; [destruct live_display; reflexivity |].
    left. exists dbg, data, limit, renderable.
    repeat (split; [first [reflexivity | assumption] |]).
    destruct live_display; reflexivity.
  - split; [reflexivity |]. right.
    exists (dbg ++ [CreateDataDisplay data limit])%list, e. split.
    + apply Forall_app. split;
        [exact (Forall_impl _ _ _ Hdbg debug_line_no_update) |].
      apply Forall_cons. split; [reflexivity | apply Forall_nil_2].
    + rewrite <- !app_assoc. reflexivity.
Qed.

Lemma active_blocks_Raise (blocks : list pyval) (b : pyval) :
  b ∈ blocks -> is_dict b = false ->
  active_blocks blocks = Raise AttributeError.
Proof.
  intros Hin Hb. induction blocks as [|b' blocks IH];
    [apply elem_of_nil in Hin; contradiction |].
  apply elem_of_cons in Hin as [<- | Hin]; simpl.
  - destruct b; try discriminate; reflexivity.
  - rewrite (IH Hin). destruct b'; reflexivity.
Qed.

(** X23.  One block of [data["blocks"]] that is no dict keeps the display
    from being updated, although the blocks are only read for debug lines:
    [b.get("isActive")] raises [AttributeError], which is logged and
    reported, and [create_data_display] is not called. *)
Theorem malformed_block_stops_update (args : gmap string pyval)
    (token_limit : Z) (monitoring_data data : gmap string pyval)
    (blocks : list pyval) (b : pyval) :
  monitoring_data !! "data" = Some (PyDict data) ->
  data !! "blocks" = Some (PyList blocks) ->
  b ∈ blocks ->
  is_dict b = false ->
  events (on_data_update args token_limit (PyDict monitoring_data)) =
    [LogDebug [Lit "Display data has "; FmtNat (length blocks); Lit " blocks"];
     LogError [Lit "Display update error: "; FmtExn AttributeError];
     ReportError AttributeError "cli_main" "display_update_error"].
Proof.
  intros Hd Hb Hin Hdict.
  unfold on_data_update, update_display, act_try_except, log_blocks.
  simpl. rewrite Hd. simpl. rewrite Hb. simpl.
  assert (Ht : match blocks with [] => false | _ :: _ => true end = true).
  { destruct blocks; [apply elem_of_nil in Hin; contradiction | reflexivity]. }
  cbn. rewrite Ht. cbn.
  rewrite (active_blocks_Raise _ _ Hin Hdict). reflexivity.
Qed.

(** X24.  When every block is a dict (or there is none), the blocks stand in
    a list, and [create_data_display] returns, the live display is updated
    with what it returned, and no error is reported. *)
Theorem wellformed_update_reaches_display (args : gmap string pyval)
    (token_limit : Z) (monitoring_data data : gmap string pyval)
    (blocks : list pyval) (renderable : data_display) :
  monitoring_data !! "data" = Some (PyDict data) ->
  data !! "blocks" = Some (PyList blocks) ->
  Forall (fun b => is_dict b = true) blocks ->
  create_data_display (PyDict data) args
    (default (PyInt token_limit) (monitoring_data !! "token_limit"))
    = Ok renderable ->
  live_display = true ->
  exists debug,
    Forall (fun ev => is_debug_line ev = true) debug /\
    events (on_data_update args token_limit (PyDict monitoring_data)) =
      (debug ++ [CreateDataDisplay (PyDict data)
                   (default (PyInt token_limit)
                      (monitoring_data !! "token_limit"));
                 DisplayUpdate renderable])%list.
Proof.
  intros Hd Hb Hall Hc Hlive.
  assert (Hact : exists active, active_blocks blocks = Ok active /\
                                Forall (fun b => is_dict b = true) active).
  { clear -Hall.
    induction Hall as [|b bs Hb0 _ IH]; [exists []; split; constructor |].
    destruct IH as (active & Ha & Hfa). simpl. rewrite Ha.
    destruct b as [| | | | | |m]; try discriminate. simpl.
    destruct (truthy (default PyNone (m !! "isActive")));
      eexists; (split; [reflexivity |]); [constructor |]; assumption. }
  destruct Hact as (active & Ha & Hfa).
  pose proof (log_blocks_events (PyList blocks)) as Hdbg.
  assert (Hret : returned (log_blocks (PyList blocks)) = Ok tt).
  { unfold log_blocks. cbn -[active_blocks].
    destruct blocks as [|b0 bs]; [reflexivity |].
    cbn -[active_blocks]. rewrite Ha. cbn.
    destruct Hfa as [|b active Hb1 _]; [reflexivity |].
    destruct b; try discriminate. reflexivity. }
  unfold on_data_update, update_display, act_try_except.
  cbn -[log_blocks]. rewrite Hd. cbn -[log_blocks]. rewrite Hb.
  cbn -[log_blocks].
  destruct (log_blocks (PyList blocks)) as [dbg [[]|e]];
    [| discriminate Hret].
  cbn in *. rewrite Hc. cbn. rewrite Hlive. cbn.
  exists dbg. split; [exact Hdbg |].
  rewrite <- ?app_assoc. reflexivity.
Qed.

(** ** The environment check *)

Lemma missing_modules_none (modules : list string) :
  missing_modules modules = Ok [] <->
  Forall (fun module => import_module module = ImportOk) modules.
Proof.
  induction modules as [|module modules IH]; simpl.
  - split; [intros _; apply Forall_nil_2 | reflexivity].
  - rewrite Forall_cons. destruct (import_module module) eqn:Hi.
    + rewrite IH. split; [intros H; split; [reflexivity | exact H] |].
      intros [_ H]. exact H.
    + split; [| intros [H _]; discriminate].
      destruct (missing_modules modules); simpl; discriminate.
    + split; [discriminate | intros [H _]; discriminate].
Qed.

(** X25.  [validate_cli_environment] returns [None] exactly when the Python
    version is at least 3.8 and each of [rich], [pydantic] and [watchdog]
    can be imported; in every other case it returns a message, and it never
    raises. *)
Theorem environment_valid_iff :
  validate_cli_environment = None <->
  (3 < version_info.1 \/ (version_info.1 = 3 /\ 8 <= version_info.2)) /\
  import_module "rich" = ImportOk /\
  import_module "pydantic" = ImportOk /\
  import_module "watchdog" = ImportOk.
Proof.
  unfold validate_cli_environment, version_before.
  assert (Hmods : missing_modules required_modules = Ok [] <->
                  import_module "rich" = ImportOk /\
                  import_module "pydantic" = ImportOk /\
                  import_module "watchdog" = ImportOk).
  { rewrite missing_modules_none. unfold required_modules.
    rewrite !Forall_cons. split.
    - intros (H1 & H2 & H3 & _). auto.
    - intros (H1 & H2 & H3). repeat split; auto. }
  destruct ((version_info.1 <? 3)
            || ((version_info.1 =? 3) && (version_info.2 <? 8))) eqn:Hv.
  - split; [discriminate |]. intros [Hver _]. exfalso.
    apply orb_true_iff in Hv as [Hv | Hv].
    + apply Z.ltb_lt in Hv. lia.
    + apply andb_true_iff in Hv as [H1 H2].
      apply Z.eqb_eq in H1. apply Z.ltb_lt in H2. lia.
  - apply orb_false_iff in Hv as [H1 H2].
    apply Z.ltb_ge in H1.
    assert (Hver : 3 < version_info.1 \/
                   (version_info.1 = 3 /\ 8 <= version_info.2)).
    { apply andb_false_iff in H2 as [H2 | H2].
      - apply Z.eqb_neq in H2. lia.
      - apply Z.ltb_ge in H2. lia. }
    rewrite <- Hmods.
    destruct (missing_modules required_modules) as [[|m ms]|e].
    + split; [intros _; split; [exact Hver | reflexivity] | reflexivity].
    + split; [discriminate | intros [_ H]; discriminate].
    + split; [discriminate | intros [_ H]; discriminate].
Qed.

(** ** More on the extraction *)

(** X26.  A block that cannot be processed (it is no dict, or its [entries]
    cannot be iterated) is skipped with an ERROR line naming its index, and
    the entries extracted are those of the batch without it. *)
Theorem failing_block_skipped (bs1 bs2 : list pyval) (b : pyval) (e : exn) :
  block_entries b = Raise e ->
  entries (extract_entries (bs1 ++ b :: bs2)) =
    entries (extract_entries (bs1 ++ bs2)) /\
  Log ERROR [Lit "Error processing block "; FmtNat (length bs1); Lit ": ";
             FmtExn e]
    ∈ logged (extract_entries (bs1 ++ b :: bs2)).
Proof.
  intros Hb. split.
  - rewrite !entries_extract_entries, !flat_map_app. simpl.
    unfold block_accepted at 2. rewrite Hb. reflexivity.
  - unfold extract_entries, enumerate. apply logged_block_at.
    intros st'. unfold process_block. simpl. rewrite Hb. simpl.
    apply elem_of_app. right. apply elem_of_cons. left. reflexivity.
Qed.

Lemma step_entries_count (block_idx : nat) (l : list pyval) :
  forall (k : nat) (st : extraction),
    let st' := foldl (step_entry block_idx) st (enumerate_from k l) in
    (length (entries st') + length (logged st') =
     length (entries st) + length (logged st) + length l)%nat.
Proof.
  induction l as [|x l IH]; intros k st; simpl; [lia |].
  rewrite IH. unfold step_entry.
  destruct (process_entry block_idx _ _); simpl; rewrite length_app; simpl; lia.
Qed.

Lemma blocks_count (bs : list pyval) :
  forall (k : nat) (st : extraction),
    let st' := foldl process_block st (enumerate_from k bs) in
    (length (entries st') + length (logged st') =
     length (entries st) + length (logged st)
     + length (flat_map block_records bs)
     + length (List.filter block_fails bs))%nat.
Proof.
  induction bs as [|b bs IH]; intros k st; simpl; [lia |].
  rewrite IH. unfold process_block, block_records, block_fails. simpl.
  destruct (block_entries b) as [[l|]|e]; simpl.
  - pose proof (step_entries_count k l 0 st) as Hl. simpl in Hl.
    unfold enumerate. rewrite length_app. lia.
  - lia.
  - rewrite length_app. simpl. lia.
Qed.

(** X27.  The extraction drops nothing silently but gap blocks: every record
    of a block it can read gives either one entry or one log line, and every
    block it cannot read gives one log line. *)
Theorem every_record_accounted_for (blocks : list pyval) :
  (length (entries (extract_entries blocks))
   + length (logged (extract_entries blocks)) =
   length (flat_map block_records blocks)
   + length (List.filter block_fails blocks))%nat.
Proof.
  unfold extract_entries, enumerate. rewrite blocks_count. simpl. lia.
Qed.
End Monitor.

Arguments entries {datetime} e.
Arguments logged {datetime} e.
Arguments mkExtraction {datetime} entries logged.
Arguments Accepted {datetime} entry.
Arguments Skipped {datetime} l msg.

(** * Concrete runs

    The collaborators are fixed to simple stand-ins, and the theorems above
    are applied to small inputs. *)

(** A record with a negative token count and a negative cost is accepted,
    both clamped to zero. *)
Example negative_fields_clamped :
  process_entry no_int_literal no_float_literal plain_repr string
    keep_timestamp 0 0 (PyDict sample_record) =
  Accepted
    (UsageEntry.mk "2024-01-01T10:00:00Z" 0 7 0 0 0%float "opus" "" "").
Proof. vm_compute. reflexivity. Qed.

(** One good record, one with no timestamp, one with a token field that does
    not convert, one that is no dict, then a gap block and a block that is no
    dict: one entry, two warnings and two errors. *)
Example sample_extraction :
  extract_entries no_int_literal no_float_literal plain_repr string
    keep_timestamp sample_blocks =
  mkExtraction
    [UsageEntry.mk "2024-01-01T10:00:00Z" 0 7 0 0 0%float "opus" "" ""]
    [Log WARNING [Lit "Missing timestamp in block "; FmtNat 0;
                  Lit ", entry "; FmtNat 1];
     Log WARNING [Lit "Invalid entry data in block "; FmtNat 0;
                  Lit ", entry "; FmtNat 2; Lit ": "; FmtExn ValueError];
     Log ERROR [Lit "Unexpected error processing entry: ";
                FmtExn AttributeError];
     Log ERROR [Lit "Error processing block "; FmtNat 2; Lit ": ";
                FmtExn AttributeError]].
Proof. vm_compute. reflexivity. Qed.

(** The batch with and without its record that has no timestamp. *)
Lemma malformed_record_skipped_witness :
  entries (extract_entries no_int_literal no_float_literal plain_repr string
             keep_timestamp
             [PyDict {[ "entries" :=
                          PyList [PyDict sample_record;
                                  PyDict (delete "timestamp" sample_record);
                                  PyDict sample_record] ]}]) =
  entries (extract_entries no_int_literal no_float_literal plain_repr string
             keep_timestamp
             [PyDict (<["entries" :=
                          PyList [PyDict sample_record; PyDict sample_record]]>
                        {[ "entries" :=
                             PyList [PyDict sample_record;
                                     PyDict (delete "timestamp" sample_record);
                                     PyDict sample_record] ]})]).
Proof.
  refine (proj2 (malformed_record_skipped no_int_literal no_float_literal
                   plain_repr string keep_timestamp
                   [] []
                   {[ "entries" :=
                        PyList [PyDict sample_record;
                                PyDict (delete "timestamp" sample_record);
                                PyDict sample_record] ]}
                   [PyDict sample_record] [PyDict sample_record]
                   (delete "timestamp" sample_record) _ _ _)).
  - vm_compute. reflexivity.
  - vm_compute. reflexivity.
  - left. vm_compute. reflexivity.
Defined.

(** A custom limit of 50000 tokens is returned as it is. *)
Lemma custom_limit_override_witness :
  _get_initial_token_limit no_int_literal no_usage_data fixed_limit 19000 "pro"
    (custom_args (PyInt 50000)) "/data" =
  Run [PrintThemed [Lit "Using custom token limit: "; FmtInt 50000;
                    Lit " tokens"] "info"]
      (Ok 50000).
Proof.
  refine (custom_limit_override no_int_literal no_usage_data fixed_limit
            19000 "pro" (custom_args (PyInt 50000)) "/data" 50000 _ _ _).
  - vm_compute. reflexivity.
  - vm_compute. reflexivity.
  - reflexivity.
Defined.

(** A [custom_limit_tokens] of zero, which is no limit: the usage data is
    analyzed and, with none to analyze, the default of 19000 is the limit. *)
Example custom_limit_zero_is_analyzed :
  _get_initial_token_limit no_int_literal no_usage_data fixed_limit 19000 "pro"
    (custom_args (PyInt 0)) "/data" =
  Run [PrintThemed [Lit "Analyzing usage data to determine cost limits..."]
         "info";
       AnalyzeUsage 192 false false "/data";
       PrintThemed [Lit "Using default limit as fallback"] "warning"]
      (Ok 19000).
Proof. vm_compute. reflexivity. Qed.

(** With no override and a data read that fails, the default, positive, is
    returned. *)
Lemma custom_plan_limit_never_raises_witness :
  exists n,
    outcome (_get_initial_token_limit no_int_literal data_not_found
               fixed_limit 19000 "pro" {[ "plan" := PyStr "custom" ]} "/data")
    = Ok n /\ 0 < n.
Proof.
  assert (Hplan : ({[ "plan" := PyStr "custom" ]} : gmap string pyval)
                  !! "plan" = Some (PyStr "custom"))
    by (vm_compute; reflexivity).
  assert (Hnone : attr_set {[ "plan" := PyStr "custom" ]} "custom_limit_tokens"
                  = false)
    by (vm_compute; reflexivity).
  destruct (proj1 (custom_plan_limit_never_raises no_int_literal data_not_found
                     fixed_limit 19000 "pro" {[ "plan" := PyStr "custom" ]}
                     "/data" Hplan Hnone))
    as (n & Hn & Hpos).
  exists n. split; [exact Hn |].
  apply Hpos. split; [reflexivity |].
  intros plan blocks m [= <-]. reflexivity.
Defined.

(** The daily view over a data directory whose files are gone. *)
Lemma table_view_source_error_witness :
  _run_table_view no_int_literal no_float_literal plain_repr same_path string
    keep_timestamp decimal dollars data_not_found no_rows no_rows sum_rows
    everything_exists everything_exists ∅ "/data" "daily" =
  Run [Log INFO [Lit "Running "; Lit "daily"; Lit " view mode"];
       AnalyzeUsage (96 * 30) false true "/data";
       Log ERROR [Lit "Data file not found: "; FmtExn FileNotFoundError];
       PrintThemed
         [Lit "No Claude usage data files found. Please use Claude Code to generate some data."]
         "warning"]
      (Ok tt).
Proof.
  refine (proj1 (table_view_source_error no_int_literal no_float_literal
                   plain_repr same_path string keep_timestamp decimal dollars
                   data_not_found no_rows no_rows sum_rows
                   everything_exists everything_exists ∅ "/data" "daily"
                   _ _ _) _).
  - left. reflexivity.
  - reflexivity.
  - reflexivity.
  - reflexivity.
Defined.

(** A machine with neither of the standard data directories. *)
Lemma no_data_directory_no_monitoring_witness :
  _run_monitoring no_int_literal no_float_literal plain_repr same_path
    same_path string keep_timestamp decimal dollars no_usage_data fixed_limit
    19000 "pro" no_rows no_rows sum_rows resolved nothing_exists
    nothing_exists true ∅ =
  Run [GetThemedConsole None;
       SetupTerminal;
       PrintThemed [Lit "No Claude data directory found"] "error";
       RestoreTerminal]
      (Ok tt).
Proof.
  refine (eq_trans
            (proj1 (no_data_directory_no_monitoring no_int_literal
                      no_float_literal plain_repr same_path same_path string
                      keep_timestamp decimal dollars no_usage_data fixed_limit
                      19000 "pro" no_rows no_rows sum_rows resolved
                      nothing_exists nothing_exists true ∅ _))
            _).
  - reflexivity.
  - vm_compute. reflexivity.
Defined.

(** The daily table of two rows: the second row totals 1 + 2 + 3 + 4. *)
Lemma total_tokens_cell_is_sum_witness :
  exists table,
    create_daily_table decimal dollars sample_rows (calculate_totals sample_rows)
      "UTC" = Ok table /\
    exists row,
      rows table !! 1%nat = Some row /\
      row !! 6%nat = Some (Plain "10").
Proof.
  eexists. split; [vm_compute; reflexivity |].
  refine (proj2 (total_tokens_cell_is_sum decimal dollars sample_rows
                   (calculate_totals sample_rows) "UTC" _ 1%nat
                   (Row.mk (DateKey "2024-01-01") [] 1 2 3 4 0%float 1)
                   _ _)).
  - left. vm_compute. reflexivity.
  - reflexivity.
Defined.

(** The sample record, accepted with nothing negative left in it. *)
Lemma accepted_entry_nonneg_witness :
  0 <= 0 /\ 0 <= 7 /\ 0 <= 0 /\ 0 <= 0 /\ PrimFloat.leb 0%float 0%float = true.
Proof.
  exact (accepted_entry_nonneg no_int_literal no_float_literal plain_repr
           string keep_timestamp 0 0 (PyDict sample_record)
           (UsageEntry.mk "2024-01-01T10:00:00Z" 0 7 0 0 0%float "opus" "" "")
           negative_fields_clamped).
Defined.

(** A weekly view does not exist. *)
Lemma invalid_view_mode_rejected_witness :
  _run_table_view no_int_literal no_float_literal plain_repr same_path string
    keep_timestamp decimal dollars no_usage_data no_rows no_rows sum_rows
    everything_exists everything_exists ∅ "/data" "weekly" =
  Run [Log INFO [Lit "Running "; Lit "weekly"; Lit " view mode"];
       Log ERROR [Lit "Invalid view mode: "; Lit "weekly"];
       PrintThemed [Lit "Invalid view mode: "; Lit "weekly";
                    Lit ". Must be 'daily' or 'monthly'"] "error"]
      (Ok tt).
Proof.
  refine (invalid_view_mode_rejected no_int_literal no_float_literal plain_repr
            same_path string keep_timestamp decimal dollars no_usage_data
            no_rows no_rows sum_rows everything_exists everything_exists
            ∅ "/data" "weekly" _ _); discriminate.
Defined.

Lemma discovered_paths_are_directories_witness :
  only_claude_projects "~/.claude/projects" = Ok true /\
  only_claude_projects "~/.claude/projects" = Ok true.
Proof.
  refine (discovered_paths_are_directories resolved only_claude_projects
            only_claude_projects None ["~/.claude/projects"]
            "~/.claude/projects" _ _).
  - vm_compute. reflexivity.
  - left. reflexivity.
Defined.

(** The plan ['max5'] gets the estimator's limit at once. *)
Lemma standard_plan_limit_witness :
  _get_initial_token_limit no_int_literal data_not_found fixed_limit 19000
    "pro" {[ "plan" := PyStr "max5" ]} "/data" =
  Run [GetTokenLimit (PyStr "max5")] (Ok 44000).
Proof.
  refine (standard_plan_limit no_int_literal data_not_found fixed_limit 19000
            "pro" {[ "plan" := PyStr "max5" ]} "/data" "max5" _ _).
  - vm_compute. reflexivity.
  - discriminate.
Defined.

(** The daily table of the two sample rows has four rows. *)
Lemma tables_end_with_totals_witness :
  exists table,
    create_daily_table decimal dollars sample_rows (calculate_totals sample_rows)
      "UTC" = Ok table /\
    rows table =
      ((data_cells decimal dollars <$> sample_rows)
       ++ [separator_row;
           totals_row decimal dollars (calculate_totals sample_rows)])%list /\
    length (rows table) = 4%nat.
Proof.
  eexists. split; [vm_compute; reflexivity |].
  refine (tables_end_with_totals decimal dollars sample_rows
            (calculate_totals sample_rows) "UTC" _ _).
  left. vm_compute. reflexivity.
Defined.

(** The record whose input tokens read ["abc"] fails to convert. *)
Example conversion_fails_sample :
  conversion_fails no_int_literal no_float_literal plain_repr string
    keep_timestamp (<["inputTokens" := PyStr "abc"]> sample_record).
Proof.
  exists "2024-01-01T10:00:00Z", ValueError.
  repeat split; vm_compute; reflexivity.
Qed.

(** The monthly view over a data directory that may not be read. *)
Example permission_denied_run :
  _run_table_view no_int_literal no_float_literal plain_repr same_path string
    keep_timestamp decimal dollars data_forbidden no_rows no_rows sum_rows
    everything_exists everything_exists ∅ "/data" "monthly" =
  Run [Log INFO [Lit "Running "; Lit "monthly"; Lit " view mode"];
       AnalyzeUsage 2880 false true "/data";
       Log ERROR [Lit "Permission denied accessing data: ";
                  FmtExn PermissionError];
       PrintThemed
         [Lit "Permission denied accessing usage data. Check file permissions."]
         "error"]
      (Ok tt).
Proof. vm_compute. reflexivity. Qed.

(** A daily view that goes all the way: the sample blocks are read, their
    entries aggregated, the totals computed and the screen drawn. *)
Example daily_view_run :
  let r :=
    _run_table_view no_int_literal no_float_literal plain_repr same_path string
      keep_timestamp decimal dollars sample_usage sample_aggregate
      sample_aggregate sum_rows everything_exists everything_exists
      ∅ "/data" "daily" in
  outcome r = Ok tt /\
  List.filter is_processing_event (trace r) =
    [AggregateDaily; CalculateTotals; ConsoleClear;
     ConsolePrint
       (RPanel (create_summary_panel same_path decimal dollars "daily"
                  (calculate_totals sample_rows)
                  [Lit "Last "; FmtNat 2; Lit " "; Lit "dai"; Lit "y";
                   Lit " entries"]));
     ConsolePrint RBlank;
     ConsolePrint
       (RTable (mkTable "Claude Code Token Usage Report - Daily (UTC)"
                  "bold cyan" "bold" "bright_blue"
                  (mkColumn "Date" key_style "left" 12 :: token_columns)
                  [ [Plain "2024-01-02"; Plain (_format_models ["opus"; "sonnet"]);
                     Plain "10"; Plain "20"; Plain "30"; Plain "40";
                     Plain "100"; Plain "$"];
                    [Plain "2024-01-01"; Plain "No models";
                     Plain "1"; Plain "2"; Plain "3"; Plain "4";
                     Plain "10"; Plain "$"];
                    separator_row;
                    totals_row decimal dollars (calculate_totals sample_rows) ]));
     ConsolePrint RBlank;
     ConsolePrint (RMarkup "[dim]Press Ctrl+C to exit[/dim]");
     KeepAlive].
Proof. vm_compute. split; reflexivity. Qed.

(** A realtime run on a machine with data: the orchestrator is created,
    started, and stopped when Ctrl+C ends the main loop. *)
Example realtime_run :
  List.filter is_monitoring_event
    (trace (_run_monitoring no_int_literal no_float_literal plain_repr
              same_path same_path string keep_timestamp decimal dollars
              no_usage_data fixed_limit 19000 "pro" no_rows no_rows sum_rows
              resolved everything_exists everything_exists true
              realtime_args)) =
  [LiveEnter; LiveUpdate; OrchestratorCreate (PyInt 10) "~/.claude/projects";
   OrchestratorSetArgs; RegisterUpdateCallback; RegisterSessionCallback;
   OrchestratorStart; WaitForInitialData; MainLoop; OrchestratorStop].
Proof. vm_compute. reflexivity. Qed.

(** ** More concrete runs *)

Ltac in_run := vm_compute; repeat (first [left | right]).

(** The daily view of the sample data aggregates what it extracted. *)
Lemma aggregation_needs_entries_witness :
  exists es,
    extracted no_int_literal no_float_literal plain_repr string keep_timestamp
      sample_usage "/data" es /\ es <> [].
Proof.
  refine (aggregation_needs_entries no_int_literal no_float_literal plain_repr
            same_path string keep_timestamp decimal dollars sample_usage
            sample_aggregate sample_aggregate sum_rows everything_exists
            everything_exists ∅ "/data" "daily" AggregateDaily _ _).
  - in_run.
  - reflexivity.
Defined.

(** It clears the screen with rows, totals and a table at hand. *)
Lemma rendering_needs_rows_and_totals_witness :
  exists es rows,
    extracted no_int_literal no_float_literal plain_repr string keep_timestamp
      sample_usage "/data" es /\
    outcome (call_aggregate string sample_aggregate sample_aggregate "daily" es)
      = Ok rows /\
    rows <> [] /\
    (is_render_event ConsoleClear = true ->
     exists totals table,
       sum_rows rows = Ok totals /\
       view_table decimal dollars "daily" rows totals
         (display_timezone plain_repr ∅) = Ok table).
Proof.
  refine (rendering_needs_rows_and_totals no_int_literal no_float_literal
            plain_repr same_path string keep_timestamp decimal dollars
            sample_usage sample_aggregate sample_aggregate sum_rows
            everything_exists everything_exists ∅ "/data" "daily"
            ConsoleClear _ _).
  - in_run.
  - right. reflexivity.
Defined.

(** The plan ['custom'] with no usage data to analyze. *)
Lemma token_limit_without_blocks_witness :
  _get_initial_token_limit no_int_literal no_usage_data fixed_limit 19000 "pro"
    {[ "plan" := PyStr "custom" ]} "/data" =
  Run [PrintThemed [Lit "Analyzing usage data to determine cost limits..."]
         "info";
       AnalyzeUsage (96 * 2) false false "/data";
       PrintThemed [Lit "Using default limit as fallback"] "warning"]
      (Ok 19000).
Proof.
  refine (token_limit_without_blocks no_int_literal no_usage_data fixed_limit
            19000 "pro" {[ "plan" := PyStr "custom" ]} "/data" None _ _ _ _).
  - vm_compute. reflexivity.
  - vm_compute. reflexivity.
  - reflexivity.
  - reflexivity.
Defined.

(** The daily view, started from [_run_monitoring]. *)
Lemma table_views_do_not_monitor_witness :
  Forall (fun ev => is_monitoring_event ev = false /\
                    is_estimate_event ev = false /\
                    is_live_session_event ev = false)
    (trace (_run_monitoring no_int_literal no_float_literal plain_repr
              same_path same_path string keep_timestamp decimal dollars
              sample_usage fixed_limit 19000 "pro" sample_aggregate
              sample_aggregate sum_rows resolved everything_exists
              everything_exists true daily_args)).
Proof.
  refine (proj1 (table_views_do_not_monitor no_int_literal no_float_literal
                   plain_repr same_path same_path string keep_timestamp
                   decimal dollars sample_usage fixed_limit 19000 "pro"
                   sample_aggregate sample_aggregate sum_rows resolved
                   everything_exists everything_exists true daily_args
                   "daily" _ _ _)).
  - vm_compute. reflexivity.
  - left. reflexivity.
  - reflexivity.
Defined.

(** The daily view on a machine whose [Path.exists()] raises: the error goes
    to [handle_error_and_exit] and the terminal is restored. *)
Example unreadable_directory_run :
  trace (_run_monitoring no_int_literal no_float_literal plain_repr
           same_path same_path string keep_timestamp decimal dollars
           sample_usage fixed_limit 19000 "pro" sample_aggregate
           sample_aggregate sum_rows resolved name_too_long name_too_long
           true daily_args) =
  [GetThemedConsole None; SetupTerminal; HandleErrorAndExit OSError;
   RestoreTerminal] /\
  _run_table_view no_int_literal no_float_literal plain_repr same_path string
    keep_timestamp decimal dollars sample_usage sample_aggregate
    sample_aggregate sum_rows name_too_long name_too_long ∅ "/data" "daily" =
  Run [Log INFO [Lit "Running "; Lit "daily"; Lit " view mode"]]
      (Raise OSError).
Proof. vm_compute. split; reflexivity. Qed.

(** The realtime run that starts its orchestrator had all it needs. *)
Lemma monitoring_needs_ready_witness :
  exists data_path,
    realtime_ready no_int_literal same_path no_usage_data fixed_limit 19000
      "pro" resolved everything_exists everything_exists realtime_args
      data_path.
Proof.
  refine (monitoring_needs_ready no_int_literal no_float_literal plain_repr
            same_path same_path string keep_timestamp decimal dollars
            no_usage_data fixed_limit 19000 "pro" no_rows no_rows sum_rows
            resolved everything_exists everything_exists true realtime_args
            OrchestratorStart _ _).
  - in_run.
  - reflexivity.
Defined.

(** Its orchestrator polls every [args.refresh_rate] = 10 seconds under the
    first standard directory. *)
Lemma orchestrator_interval_is_refresh_rate_witness :
  realtime_args !! "refresh_rate" = Some (PyInt 10) /\
  exists rest,
    discover_claude_data_paths resolved everything_exists everything_exists
      None = Ok ("~/.claude/projects" :: rest).
Proof.
  refine (orchestrator_interval_is_refresh_rate no_int_literal no_float_literal
            plain_repr same_path same_path string keep_timestamp decimal
            dollars no_usage_data fixed_limit 19000 "pro" no_rows no_rows
            sum_rows resolved everything_exists everything_exists true
            realtime_args (PyInt 10) "~/.claude/projects" _).
  in_run.
Defined.

(** A refresh rate per second of zero: the division is all that fails. *)
Lemma refresh_per_second_must_divide_witness :
  trace (_run_monitoring no_int_literal no_float_literal plain_repr same_path
           same_path string keep_timestamp decimal dollars no_usage_data
           fixed_limit 19000 "pro" no_rows no_rows sum_rows resolved
           everything_exists everything_exists true zero_rate_args) =
  [GetThemedConsole None;
   SetupTerminal;
   Log INFO [Lit "Using data path: "; Lit "~/.claude/projects"];
   GetTokenLimit (PyStr "pro");
   HandleErrorAndExit ZeroDivisionError;
   RestoreTerminal].
Proof.
  refine (eq_trans
            (refresh_per_second_must_divide no_int_literal no_float_literal
               plain_repr same_path same_path string keep_timestamp decimal
               dollars no_usage_data fixed_limit 19000 "pro" no_rows no_rows
               sum_rows resolved everything_exists everything_exists true
               zero_rate_args "~/.claude/projects"
               ["~/.config/claude/projects"] 44000 ZeroDivisionError
               _ _ _ _ _)
            _).
  - vm_compute. reflexivity.
  - vm_compute. reflexivity.
  - vm_compute. reflexivity.
  - vm_compute. reflexivity.
  - vm_compute. reflexivity.
  - vm_compute. reflexivity.
Defined.

(** The realtime run, from Ctrl+C on. *)
Lemma session_shutdown_order_witness :
  exists pre,
    trace (_run_monitoring no_int_literal no_float_literal plain_repr
             same_path same_path string keep_timestamp decimal dollars
             no_usage_data fixed_limit 19000 "pro" no_rows no_rows sum_rows
             resolved everything_exists everything_exists true
             realtime_args) =
      (pre ++ [MainLoop; OrchestratorStop; LiveExit; LiveExit;
               HandleCleanupAndExit; RestoreTerminal])%list /\
    OrchestratorStart ∈ pre /\
    Forall (fun ev => ev <> OrchestratorStop /\ ev <> LiveExit) pre.
Proof.
  refine (session_shutdown_order no_int_literal no_float_literal plain_repr
            same_path same_path string keep_timestamp decimal dollars
            no_usage_data fixed_limit 19000 "pro" no_rows no_rows sum_rows
            resolved everything_exists everything_exists true realtime_args
            "~/.claude/projects" _).
  split; [vm_compute; reflexivity |].
  split; [eexists; vm_compute; reflexivity |].
  split; [vm_compute; reflexivity |].
  split; [eexists; vm_compute; reflexivity |].
  split; [vm_compute; reflexivity |].
  repeat split; eexists; vm_compute; reflexivity.
Defined.

(** The blank line that the daily view prints. *)
Lemma printed_view_is_of_extracted_entries_witness :
  exists es rows totals table,
    extracted no_int_literal no_float_literal plain_repr string keep_timestamp
      sample_usage "/data" es /\
    outcome (call_aggregate string sample_aggregate sample_aggregate "daily" es)
      = Ok rows /\
    sum_rows rows = Ok totals /\
    view_table decimal dollars "daily" rows totals
      (display_timezone plain_repr ∅) = Ok table /\
    (RBlank =
       RPanel (create_summary_panel same_path decimal dollars "daily" totals
                 [Lit "Last "; FmtNat (length rows); Lit " ";
                  Lit (if String.eqb "daily" "daily" then "dai" else "month");
                  Lit (if String.eqb "daily" "daily" then "y" else "");
                  Lit " entries"]) \/
     RBlank = RBlank \/ RBlank = RTable table \/
     RBlank = RMarkup "[dim]Press Ctrl+C to exit[/dim]").
Proof.
  refine (printed_view_is_of_extracted_entries no_int_literal no_float_literal
            plain_repr same_path string keep_timestamp decimal dollars
            sample_usage sample_aggregate sample_aggregate sum_rows
            everything_exists everything_exists ∅ "/data" "daily" RBlank _).
  in_run.
Defined.

(** The daily table of the two sample rows: four rows of eight cells. *)
Lemma table_rows_fit_columns_witness :
  exists table,
    create_aggregate_table decimal dollars sample_rows
      (calculate_totals sample_rows) "daily" "UTC" = Ok table /\
    length (columns table) = 8%nat /\
    Forall (fun r => length r = length (columns table)) (rows table).
Proof.
  eexists. split; [vm_compute; reflexivity |].
  refine (table_rows_fit_columns decimal dollars sample_rows
            (calculate_totals sample_rows) "daily" "UTC" _ _).
  vm_compute. reflexivity.
Defined.

(** An update whose one block is the number 7. *)
Lemma malformed_block_stops_update_witness :
  events (on_data_update unit blank_display true ∅ 44000
            (PyDict malformed_update)) =
  [LogDebug [Lit "Display data has "; FmtNat 1; Lit " blocks"];
   LogError [Lit "Display update error: "; FmtExn AttributeError];
   ReportError AttributeError "cli_main" "display_update_error"].
Proof.
  refine (malformed_block_stops_update unit blank_display true ∅ 44000
            malformed_update {[ "blocks" := PyList [PyInt 7] ]} [PyInt 7]
            (PyInt 7) _ _ _ _).
  - vm_compute. reflexivity.
  - vm_compute. reflexivity.
  - left.
  - reflexivity.
Defined.

(** An update with one active block reaches the live display. *)
Lemma wellformed_update_reaches_display_witness :
  exists debug,
    Forall (fun ev => is_debug_line ev = true) debug /\
    events (on_data_update unit blank_display true ∅ 44000
              (PyDict sample_update)) =
      (debug ++ [CreateDataDisplay
                   (PyDict {[ "blocks" := PyList [PyDict active_block] ]})
                   (default (PyInt 44000) (sample_update !! "token_limit"));
                 DisplayUpdate tt])%list.
Proof.
  refine (wellformed_update_reaches_display unit blank_display true ∅ 44000
            sample_update {[ "blocks" := PyList [PyDict active_block] ]}
            [PyDict active_block] tt _ _ _ _ _).
  - vm_compute. reflexivity.
  - vm_compute. reflexivity.
  - repeat constructor.
  - reflexivity.
  - reflexivity.
Defined.

(** The last of the sample blocks is [None]. *)
Lemma failing_block_skipped_witness :
  entries (extract_entries no_int_literal no_float_literal plain_repr string
             keep_timestamp (take 2 sample_blocks ++ PyNone :: [])) =
    entries (extract_entries no_int_literal no_float_literal plain_repr string
               keep_timestamp (take 2 sample_blocks ++ [])) /\
  Log ERROR [Lit "Error processing block ";
             FmtNat (length (take 2 sample_blocks)); Lit ": ";
             FmtExn AttributeError]
    ∈ logged (extract_entries no_int_literal no_float_literal plain_repr string
                keep_timestamp (take 2 sample_blocks ++ PyNone :: [])).
Proof.
  refine (failing_block_skipped no_int_literal no_float_literal plain_repr
            string keep_timestamp (take 2 sample_blocks) [] PyNone
            AttributeError _).
  reflexivity.
Defined.

(** Python 3.11 with every module, Python 3.7, and Python 3.8 without
    [pydantic]. *)
Example environment_checks :
  validate_cli_environment (3, 11) all_installed = None /\
  validate_cli_environment (3, 7) all_installed =
    Some [Lit "Python 3.8+ required, found "; FmtInt 3; Lit "."; FmtInt 7] /\
  validate_cli_environment (3, 8) without_pydantic =
    Some [Lit "Missing required modules: "; Lit "pydantic"].
Proof. vm_compute. repeat split; reflexivity. Qed.

(** An update with one active block of 1200 tokens. *)
Example sample_update_run :
  on_data_update unit blank_display true ∅ 44000 (PyDict sample_update) =
  Act [LogDebug [Lit "Display data has "; FmtNat 1; Lit " blocks"];
       LogDebug [Lit "Active blocks: "; FmtNat 1];
       LogDebug [Lit "Active block tokens: "; FmtVal (PyInt 1200)];
       CreateDataDisplay
         (PyDict {[ "blocks" := PyList [PyDict active_block] ]}) (PyInt 44000);
       DisplayUpdate tt]
      (Ok tt).
Proof. vm_compute. reflexivity. Qed.
